(** * Apple MDM configuration-profile store of Fleet (server/datastore/mysql)

    A shallow embedding of the MySQL datastore functions that keep the
    desired state (configuration profiles per team) and the observed state
    (per-host delivery ledger) of Apple MDM profiles, and the properties
    the specification states about them.

    Tables are lists of rows.  A statement executed by the Go code is a
    function on the tables it touches; a WHERE, ON or JOIN follows SQL's
    three-valued logic (module [SQL]).  String comparison is exact
    equality. *)

From Stdlib Require Import List String NArith Bool Lia Permutation Sorted.
From Stdlib Require Import DecimalString.
Import ListNotations.

Local Open Scope string_scope.
Local Open Scope list_scope.
Local Open Scope N_scope.

Set Implicit Arguments.

(** ** SQL's three-valued logic and joins *)

Module SQL.

(** A nullable column is an [option]; a condition evaluates to TRUE,
    FALSE or UNKNOWN ([None]). *)
Definition tri := option bool.

Definition and3 (a b : tri) : tri :=
  match a, b with
  | Some false, _ => Some false
  | _, Some false => Some false
  | Some true, Some true => Some true
  | _, _ => None
  end.

Definition or3 (a b : tri) : tri :=
  match a, b with
  | Some true, _ => Some true
  | _, Some true => Some true
  | Some false, Some false => Some false
  | _, _ => None
  end.

Definition not3 (a : tri) : tri := option_map negb a.

Definition eq3 {A} (eqb : A -> A -> bool) (x y : option A) : tri :=
  match x, y with
  | Some a, Some b => Some (eqb a b)
  | _, _ => None
  end.

Definition neq3 {A} (eqb : A -> A -> bool) (x y : option A) : tri :=
  not3 (eq3 eqb x y).

Definition is_null {A} (x : option A) : tri :=
  Some (match x with None => true | Some _ => false end).

Definition is_not_null {A} (x : option A) : tri := not3 (is_null x).

(** WHERE and ON keep a row only when the condition is TRUE. *)
Definition holds (c : tri) : bool :=
  match c with Some true => true | _ => false end.

(** A column of the nullable side of an outer join. *)
Definition col {R A} (f : R -> option A) (o : option R) : option A :=
  match o with Some r => f r | None => None end.

(** A NOT NULL column read through an outer join. *)
Definition col' {R A} (f : R -> A) (o : option R) : option A :=
  option_map f o.

Definition left_join {A B} (on : A -> B -> tri) (l : list A) (r : list B)
  : list (A * option B) :=
  flat_map (fun a =>
    match filter (fun b => holds (on a b)) r with
    | [] => [(a, None)]
    | ms => map (fun b => (a, Some b)) ms
    end) l.

Definition right_join {A B} (on : A -> B -> tri) (l : list A) (r : list B)
  : list (option A * B) :=
  flat_map (fun b =>
    match filter (fun a => holds (on a b)) l with
    | [] => [(None, b)]
    | ms => map (fun a => (Some a, b)) ms
    end) r.

(** [x IN (l)] for a list of non-NULL values. *)
Definition in3 {A} (eqb : A -> A -> bool) (x : option A) (l : list A) : tri :=
  match x with
  | Some a => Some (existsb (eqb a) l)
  | None => None
  end.

(** SELECT DISTINCT on a column of strings. *)
Definition distinct (l : list string) : list string := nodup string_dec l.

End SQL.

(** ** Values of package fleet *)

Inductive MDMAppleOperationType :=
| MDMAppleOperationTypeInstall
| MDMAppleOperationTypeRemove.

Inductive MDMAppleDeliveryStatus :=
| MDMAppleDeliveryFailed
| MDMAppleDeliveryVerifying
| MDMAppleDeliveryPending.

Definition op_eqb (a b : MDMAppleOperationType) : bool :=
  match a, b with
  | MDMAppleOperationTypeInstall, MDMAppleOperationTypeInstall => true
  | MDMAppleOperationTypeRemove, MDMAppleOperationTypeRemove => true
  | _, _ => false
  end.

Definition status_eqb (a b : MDMAppleDeliveryStatus) : bool :=
  match a, b with
  | MDMAppleDeliveryFailed, MDMAppleDeliveryFailed => true
  | MDMAppleDeliveryVerifying, MDMAppleDeliveryVerifying => true
  | MDMAppleDeliveryPending, MDMAppleDeliveryPending => true
  | _, _ => false
  end.

(** ** Tables *)

(** mdm_apple_configuration_profiles (alias macp): the desired state.
    [team_id] 0 is the no-team scope. *)
Module Macp.
Record row := {
  profile_id : N;
  team_id : N;
  identifier : string;
  name : string;
  mobileconfig : string;
  checksum : string
}.
End Macp.

(** hosts (alias h); [team_id] is NULL for a host in no team. *)
Module Host.
Record row := {
  id : N;
  uuid : string;
  team_id : option N;
  platform : string
}.
End Host.

(** nano_enrollments (alias ne). *)
Module Ne.
Record row := {
  id : string;
  device_id : string;
  type : string;
  enabled : bool
}.
End Ne.

(** host_mdm_apple_profiles (alias hmap): the observed state.
    [operation_type], [status] and [detail] are nullable. *)
Module Hmap.
Record row := {
  profile_id : N;
  host_uuid : string;
  profile_identifier : string;
  profile_name : string;
  checksum : string;
  operation_type : option MDMAppleOperationType;
  status : option MDMAppleDeliveryStatus;
  command_uuid : string;
  detail : option string
}.
End Hmap.

(** host_mdm. *)
Module HostMdm.
Record row := { host_id : N; enrolled : bool }.
End HostMdm.

(** host_disk_encryption_keys (alias hdek). *)
Module Hdek.
Record row := {
  host_id : N;
  base64_encrypted : string;
  decryptable : option bool
}.
End Hdek.

Record Datastore := {
  mdm_apple_configuration_profiles : list Macp.row;
  hosts : list Host.row;
  nano_enrollments : list Ne.row;
  host_mdm_apple_profiles : list Hmap.row;
  host_mdm : list HostMdm.row;
  host_disk_encryption_keys : list Hdek.row
}.

(** ** Go values of package fleet *)

Module MDMAppleProfilePayload.
Record t := {
  ProfileID : N;
  ProfileIdentifier : string;
  ProfileName : string;
  HostUUID : string;
  Checksum : string
}.
End MDMAppleProfilePayload.

(** [TeamID] is a [*uint]: nil stands for no team. *)
Module MDMAppleConfigProfile.
Record t := {
  ProfileID : N;
  TeamID : option N;
  Identifier : string;
  Name : string;
  Mobileconfig : string
}.
End MDMAppleConfigProfile.

Module MDMAppleBulkUpsertHostProfilePayload.
Record t := {
  ProfileID : N;
  ProfileIdentifier : string;
  ProfileName : string;
  HostUUID : string;
  CommandUUID : string;
  OperationType : MDMAppleOperationType;
  Status : option MDMAppleDeliveryStatus;
  Checksum : string
}.
End MDMAppleBulkUpsertHostProfilePayload.

Module HostMDMAppleProfile.
Record t := {
  HostUUID : string;
  CommandUUID : string;
  ProfileID : N;
  Name : string;
  Identifier : string;
  Status : option MDMAppleDeliveryStatus;
  OperationType : MDMAppleOperationType;
  Detail : string
}.
End HostMDMAppleProfile.

Module PP := MDMAppleProfilePayload.
Module CP := MDMAppleConfigProfile.
Module BP := MDMAppleBulkUpsertHostProfilePayload.
Module HP := HostMDMAppleProfile.

(** What the datastore takes from outside this package: MySQL's
    [UNHEX(MD5(.))], the identifiers of the profiles Fleet itself delivers
    (package mobileconfig), the classification of a device error as
    ignorable (method [IgnoreMDMClientError] of [fleet.HostMDMAppleProfile])
    and the text of the error that the server and its driver give for a
    duplicate entry ([err.Error()]): [DuplicateEntryError key team v] for a
    duplicate of the unique index [key] with the values [team] and [v] in
    its columns.  The server words that text; it names the index and quotes
    the duplicate value. *)
Class Externals := {
  MD5 : string -> string;
  FleetPayloadIdentifiers : list string;
  FleetFileVaultPayloadIdentifier : string;
  IgnoreMDMClientError : HP.t -> bool;
  DuplicateEntryError : string -> N -> string -> string
}.

(** ** Errors *)

Inductive error :=
| notFoundError (ResourceType : string)
| existsError (ResourceType Identifier : string) (TeamID : option N)
| mysqlDuplicateEntry (text : string)
| sqlErrNoRows
| errorString (msg : string).

Inductive result (A : Type) :=
| Ok (a : A)
| Err (e : error).

Arguments Ok {A} a.
Arguments Err {A} e.

Definition isDuplicate (e : error) : bool :=
  match e with mysqlDuplicateEntry _ => true | _ => false end.

(** [strings.Contains] *)
Definition Contains (s substr : string) : bool :=
  match String.index 0 substr s with Some _ => true | None => false end.

Definition IsNotFound (e : error) : bool :=
  match e with notFoundError _ => true | _ => false end.

Definition notFound (kind : string) : error := notFoundError kind.

(** ** Statements inside a transaction *)

Definition Tx (A : Type) := Datastore -> result (A * Datastore).

Definition ret {A} (a : A) : Tx A := fun db => Ok (a, db).

Definition bind {A B} (c : Tx A) (k : A -> Tx B) : Tx B :=
  fun db => match c db with
            | Ok (a, db') => k a db'
            | Err e => Err e
            end.

Definition fail {A} (e : error) : Tx A := fun _ => Err e.

Definition query {A} (q : Datastore -> A) : Tx A := fun db => Ok (q db, db).

Definition exec (f : Datastore -> Datastore) : Tx unit :=
  fun db => Ok (tt, f db).

Notation "x <- c ;; k" := (bind c (fun x => k))
  (at level 61, c at next level, right associativity).
Notation "c ;;; k" := (bind c (fun _ => k))
  (at level 61, right associativity).

Fixpoint for_each {A} (l : list A) (body : A -> Tx unit) : Tx unit :=
  match l with
  | [] => ret tt
  | a :: l' => body a ;;; for_each l' body
  end.

(** Modelled from the spec: [withTx], the helper of the datastore that
    runs a function in one transaction.  The statements of the function
    become visible together when it returns nil; when it returns an error
    the transaction is rolled back and the store is as before. *)
Definition withTx (fn : Tx unit) (db : Datastore) : option error * Datastore :=
  match fn db with
  | Ok (_, db') => (None, db')
  | Err e => (Some e, db)
  end.

(** Modelled from the spec: [withRetryTxx], the transaction helper that
    retries on a transient conflict with another transaction.  Statements
    run alone on the store here, no conflict arises, and the function runs
    once, as under [withTx]. *)
Definition withRetryTxx (fn : Tx unit) (db : Datastore)
  : option error * Datastore := withTx fn db.

(** len(l) > 0 *)
Definition non_empty {A} (l : list A) : bool :=
  match l with [] => false | _ :: _ => true end.

(** [sqlx.In] refuses an empty slice. *)
Definition sqlx_In {A} (l : list A) : Tx (list A) :=
  if non_empty l then ret l
  else fail (errorString "empty slice passed to 'in' query").

Definition set_profiles (t : list Macp.row) (db : Datastore) : Datastore :=
  {| mdm_apple_configuration_profiles := t;
     hosts := hosts db;
     nano_enrollments := nano_enrollments db;
     host_mdm_apple_profiles := host_mdm_apple_profiles db;
     host_mdm := host_mdm db;
     host_disk_encryption_keys := host_disk_encryption_keys db |}.

Definition set_hmap (t : list Hmap.row) (db : Datastore) : Datastore :=
  {| mdm_apple_configuration_profiles := mdm_apple_configuration_profiles db;
     hosts := hosts db;
     nano_enrollments := nano_enrollments db;
     host_mdm_apple_profiles := t;
     host_mdm := host_mdm db;
     host_disk_encryption_keys := host_disk_encryption_keys db |}.

Definition set_host_mdm (t : list HostMdm.row) (db : Datastore) : Datastore :=
  {| mdm_apple_configuration_profiles := mdm_apple_configuration_profiles db;
     hosts := hosts db;
     nano_enrollments := nano_enrollments db;
     host_mdm_apple_profiles := host_mdm_apple_profiles db;
     host_mdm := t;
     host_disk_encryption_keys := host_disk_encryption_keys db |}.

Definition set_hdek (t : list Hdek.row) (db : Datastore) : Datastore :=
  {| mdm_apple_configuration_profiles := mdm_apple_configuration_profiles db;
     hosts := hosts db;
     nano_enrollments := nano_enrollments db;
     host_mdm_apple_profiles := host_mdm_apple_profiles db;
     host_mdm := host_mdm db;
     host_disk_encryption_keys := t |}.

(** ** mdm_apple_configuration_profiles: keys

    The schema is not part of this package.  [profile_id] is the
    AUTO_INCREMENT primary key (the value of LastInsertId); the two unique
    indexes are the ones [formatErrorDuplicateConfigProfile] tells apart. *)

Definition idx_team_identifier : string :=
  "idx_mdm_apple_config_prof_team_identifier".

Definition idx_team_name : string := "idx_mdm_apple_config_prof_team_name".

(** Modelled from the spec: the unique index
    idx_mdm_apple_config_prof_team_identifier; (scope, identifier) is
    unique. *)
Definition same_team_identifier (team : N) (ident : string) (r : Macp.row)
  : bool :=
  (Macp.team_id r =? team) && String.eqb (Macp.identifier r) ident.

(** Modelled from the spec: the unique index
    idx_mdm_apple_config_prof_team_name, named in
    [formatErrorDuplicateConfigProfile] with the display name of the
    profile: (scope, name) is unique. *)
Definition same_team_name (team : N) (nm : string) (r : Macp.row) : bool :=
  (Macp.team_id r =? team) && String.eqb (Macp.name r) nm.

(** The id an INSERT gives a new row: above every id of the table. *)
Definition next_profile_id (t : list Macp.row) : N :=
  N.succ (fold_right N.max 0 (map Macp.profile_id t)).

Definition new_row `{Externals} (t : list Macp.row) (team : N)
  (ident nm mc : string) : Macp.row :=
  {| Macp.profile_id := next_profile_id t;
     Macp.team_id := team;
     Macp.identifier := ident;
     Macp.name := nm;
     Macp.mobileconfig := mc;
     Macp.checksum := MD5 mc |}.

(** INSERT INTO mdm_apple_configuration_profiles
      (team_id, identifier, name, mobileconfig, checksum)
    VALUES (?, ?, ?, ?, UNHEX(MD5(mobileconfig)))

    The indexes are checked in the order of their declaration. *)
Definition insert_profile `{Externals} (team : N) (ident nm mc : string)
  (t : list Macp.row) : result (N * list Macp.row) :=
  if existsb (same_team_identifier team ident) t then
    Err (mysqlDuplicateEntry
           (DuplicateEntryError idx_team_identifier team ident))
  else if existsb (same_team_name team nm) t then
    Err (mysqlDuplicateEntry (DuplicateEntryError idx_team_name team nm))
  else Ok (next_profile_id t, t ++ [new_row t team ident nm mc]).

(** The assignments of ON DUPLICATE KEY UPDATE in [BatchSetMDMAppleProfiles]:
      name = VALUES(name), mobileconfig = VALUES(mobileconfig),
      checksum = UNHEX(MD5(VALUES(mobileconfig))) *)
Definition edit_row `{Externals} (nm mc : string) (r : Macp.row) : Macp.row :=
  {| Macp.profile_id := Macp.profile_id r;
     Macp.team_id := Macp.team_id r;
     Macp.identifier := Macp.identifier r;
     Macp.name := nm;
     Macp.mobileconfig := mc;
     Macp.checksum := MD5 mc |}.

Definition update_by_id (id : N) (f : Macp.row -> Macp.row)
  (t : list Macp.row) : list Macp.row :=
  map (fun x => if Macp.profile_id x =? id then f x else x) t.

(** INSERT ... ON DUPLICATE KEY UPDATE on the same table: the row that
    holds the first duplicate key is updated instead; the update fails when
    the new name is the name of another row of the team. *)
Definition insertNewOrEditedProfile `{Externals} (team : N)
  (ident nm mc : string) (t : list Macp.row) : result (list Macp.row) :=
  match find (same_team_identifier team ident) t with
  | Some r =>
      if existsb (fun x => same_team_name team nm x
                           && negb (Macp.profile_id x =? Macp.profile_id r)) t
      then Err (mysqlDuplicateEntry
                  (DuplicateEntryError idx_team_name team nm))
      else Ok (update_by_id (Macp.profile_id r) (edit_row nm mc) t)
  | None =>
      match find (same_team_name team nm) t with
      | Some r => Ok (update_by_id (Macp.profile_id r) (edit_row nm mc) t)
      | None => Ok (t ++ [new_row t team ident nm mc])
      end
  end.

(** ** NewMDMAppleConfigProfile *)

(** The function looks for the names of the two indexes in the text of
    the error, the identifier index first.  It is called on a duplicate
    entry only; the text of another error is not modelled, and such an
    error is returned as it is. *)
Definition formatErrorDuplicateConfigProfile (err : error) (cp : CP.t)
  : error :=
  match err with
  | mysqlDuplicateEntry text =>
      if Contains text "idx_mdm_apple_config_prof_team_identifier" then
        existsError "MDMAppleConfigProfile.PayloadIdentifier"
          (CP.Identifier cp) (CP.TeamID cp)
      else if Contains text "idx_mdm_apple_config_prof_team_name" then
        existsError "MDMAppleConfigProfile.PayloadDisplayName"
          (CP.Name cp) (CP.TeamID cp)
      else err
  | _ => err
  end.

Definition NewMDMAppleConfigProfile `{Externals} (cp : CP.t) (db : Datastore)
  : result CP.t * Datastore :=
  let teamID := match CP.TeamID cp with Some t => t | None => 0 end in
  match insert_profile teamID (CP.Identifier cp) (CP.Name cp)
          (CP.Mobileconfig cp) (mdm_apple_configuration_profiles db) with
  | Err err =>
      if isDuplicate err
      then (Err (formatErrorDuplicateConfigProfile err cp), db)
      else (Err err, db)
  | Ok (id, t) =>
      (Ok {| CP.ProfileID := id;
             CP.Identifier := CP.Identifier cp;
             CP.Name := CP.Name cp;
             CP.Mobileconfig := CP.Mobileconfig cp;
             CP.TeamID := CP.TeamID cp |},
       set_profiles t db)
  end.

(** ** GetMDMAppleConfigProfile *)

Definition scan_profile (r : Macp.row) : CP.t :=
  {| CP.ProfileID := Macp.profile_id r;
     CP.TeamID := Some (Macp.team_id r);
     CP.Identifier := Macp.identifier r;
     CP.Name := Macp.name r;
     CP.Mobileconfig := Macp.mobileconfig r |}.

Definition GetMDMAppleConfigProfile (profileID : N) (db : Datastore)
  : result CP.t :=
  match filter (fun r => Macp.profile_id r =? profileID)
          (mdm_apple_configuration_profiles db) with
  | [] => Err (notFound "MDMAppleConfigProfile")
  | r :: _ => Ok (scan_profile r)
  end.

(** ** DeleteMDMAppleConfigProfile *)

(** A DELETE gives the table left and the number of rows affected. *)
Definition delete_where {R} (w : R -> bool) (t : list R) : list R * nat :=
  (filter (fun r => negb (w r)) t, List.length (filter w t)).

Definition DeleteMDMAppleConfigProfile (profileID : N) (db : Datastore)
  : option error * Datastore :=
  let '(t, deleted) :=
    delete_where (fun r => Macp.profile_id r =? profileID)
      (mdm_apple_configuration_profiles db) in
  if negb (Nat.eqb deleted 1)
  then (Some (notFound "MDMAppleConfigProfile"), set_profiles t db)
  else (None, set_profiles t db).

Definition DeleteMDMAppleConfigProfileByTeamAndIdentifier
  (teamID : option N) (profileIdentifier : string) (db : Datastore)
  : option error * Datastore :=
  let teamID := match teamID with Some t => t | None => 0 end in
  let '(t, deleted) :=
    delete_where (same_team_identifier teamID profileIdentifier)
      (mdm_apple_configuration_profiles db) in
  if Nat.eqb deleted 0
  then (Some (notFound "MDMAppleConfigProfile"), set_profiles t db)
  else (None, set_profiles t db).

(** ** The desired state: set A of the difference queries

<<
  FROM mdm_apple_configuration_profiles macp
  JOIN hosts h ON h.team_id = macp.team_id
               OR (h.team_id IS NULL AND macp.team_id = 0)
  JOIN nano_enrollments ne ON ne.device_id = h.uuid
  WHERE h.platform = 'darwin' AND ne.enabled = 1 AND ne.type = 'Device'
>>
    [extra] is the condition on the host that
    [BulkSetPendingMDMAppleHostProfiles] adds ([h.uuid IN (?)]). *)

Definition scope_on (hr : Host.row) (p : Macp.row) : SQL.tri :=
  SQL.or3 (SQL.eq3 N.eqb (Host.team_id hr) (Some (Macp.team_id p)))
          (SQL.and3 (SQL.is_null (Host.team_id hr))
                    (Some (Macp.team_id p =? 0))).

Definition enrollment_on (e : Ne.row) (hr : Host.row) : SQL.tri :=
  Some (String.eqb (Ne.device_id e) (Host.uuid hr)).

Definition desired_where (extra : Host.row -> SQL.tri) (hr : Host.row)
  (e : Ne.row) : SQL.tri :=
  SQL.and3 (Some (String.eqb (Host.platform hr) "darwin"))
    (SQL.and3 (Some (Ne.enabled e))
       (SQL.and3 (Some (String.eqb (Ne.type e) "Device")) (extra hr))).

Definition desired_row (p : Macp.row) (hr : Host.row) : PP.t :=
  {| PP.ProfileID := Macp.profile_id p;
     PP.ProfileIdentifier := Macp.identifier p;
     PP.ProfileName := Macp.name p;
     PP.HostUUID := Host.uuid hr;
     PP.Checksum := Macp.checksum p |}.

Definition desired_state_where (extra : Host.row -> SQL.tri) (db : Datastore)
  : list PP.t :=
  flat_map (fun p =>
    flat_map (fun hr =>
      flat_map (fun e =>
        if SQL.holds (desired_where extra hr e) then [desired_row p hr]
        else [])
        (filter (fun e => SQL.holds (enrollment_on e hr))
           (nano_enrollments db)))
      (filter (fun hr => SQL.holds (scope_on hr p)) (hosts db)))
    (mdm_apple_configuration_profiles db).

Definition desired_state (db : Datastore) : list PP.t :=
  desired_state_where (fun _ => Some true) db.

(** ON hmap.profile_id = ds.profile_id AND hmap.host_uuid = ds.host_uuid *)
Definition hmap_on (d : PP.t) (r : Hmap.row) : SQL.tri :=
  SQL.and3 (Some (Hmap.profile_id r =? PP.ProfileID d))
           (Some (String.eqb (Hmap.host_uuid r) (PP.HostUUID d))).

(** ** ListMDMAppleProfilesToInstall *)

(** The first three disjuncts, shared with
    [BulkSetPendingMDMAppleHostProfiles]. *)
Definition updated_new_or_remove (d : PP.t) (o : option Hmap.row) : SQL.tri :=
  (* profile has been updated *)
  SQL.or3 (SQL.neq3 String.eqb (SQL.col' Hmap.checksum o)
             (Some (PP.Checksum d)))
  (* profiles in A but not in B *)
  (SQL.or3 (SQL.and3 (SQL.is_null (SQL.col' Hmap.profile_id o))
                     (SQL.is_null (SQL.col' Hmap.host_uuid o)))
  (* profiles in A and B but with operation type "remove" *)
     (SQL.and3 (SQL.is_not_null (SQL.col' Hmap.host_uuid o))
        (SQL.or3 (SQL.eq3 op_eqb (SQL.col Hmap.operation_type o)
                    (Some MDMAppleOperationTypeRemove))
                 (SQL.is_null (SQL.col Hmap.operation_type o))))).

Definition to_install_where (d : PP.t) (o : option Hmap.row) : SQL.tri :=
  SQL.or3 (updated_new_or_remove d o)
  (* profiles in A and B with operation type "install" and NULL status *)
    (SQL.and3 (SQL.is_not_null (SQL.col' Hmap.host_uuid o))
       (SQL.and3 (SQL.eq3 op_eqb (SQL.col Hmap.operation_type o)
                    (Some MDMAppleOperationTypeInstall))
                 (SQL.is_null (SQL.col Hmap.status o)))).

Definition ListMDMAppleProfilesToInstall (db : Datastore) : list PP.t :=
  map fst
    (filter (fun j => SQL.holds (to_install_where (fst j) (snd j)))
       (SQL.left_join hmap_on (desired_state db)
          (host_mdm_apple_profiles db))).

(** ** ListMDMAppleProfilesToRemove *)

Definition payload_of_hmap (r : Hmap.row) : PP.t :=
  {| PP.ProfileID := Hmap.profile_id r;
     PP.ProfileIdentifier := Hmap.profile_identifier r;
     PP.ProfileName := Hmap.profile_name r;
     PP.HostUUID := Hmap.host_uuid r;
     PP.Checksum := Hmap.checksum r |}.

(** ds.profile_id IS NULL AND ds.uuid IS NULL *)
Definition not_in_A (o : option PP.t) : SQL.tri :=
  SQL.and3 (SQL.is_null (SQL.col' PP.ProfileID o))
           (SQL.is_null (SQL.col' PP.HostUUID o)).

Definition to_remove_where (o : option PP.t) (r : Hmap.row) : SQL.tri :=
  (* profiles that are in B but not in A *)
  SQL.and3 (not_in_A o)
  (* except "remove" operations in a terminal state or already pending *)
    (SQL.or3 (SQL.is_null (Hmap.operation_type r))
       (SQL.or3 (SQL.neq3 op_eqb (Hmap.operation_type r)
                   (Some MDMAppleOperationTypeRemove))
                (SQL.is_null (Hmap.status r)))).

Definition ListMDMAppleProfilesToRemove (db : Datastore) : list PP.t :=
  map (fun j => payload_of_hmap (snd j))
    (filter (fun j => SQL.holds (to_remove_where (fst j) (snd j)))
       (SQL.right_join hmap_on (desired_state db)
          (host_mdm_apple_profiles db))).

(** ** host_mdm_apple_profiles: INSERT ... ON DUPLICATE KEY UPDATE *)

(** Modelled from the spec: the key of host_mdm_apple_profiles, whose
    schema is not part of this package; the upsert is keyed by
    (profile, host). *)
Definition same_hmap_key (a b : Hmap.row) : bool :=
  String.eqb (Hmap.host_uuid a) (Hmap.host_uuid b)
  && (Hmap.profile_id a =? Hmap.profile_id b).

(** A row of VALUES whose key is in the table updates the row that holds
    it with [on_dup], another one is added. *)
Definition upsert_hmap (on_dup : Hmap.row -> Hmap.row -> Hmap.row)
  (t : list Hmap.row) (v : Hmap.row) : list Hmap.row :=
  if existsb (same_hmap_key v) t
  then map (fun r => if same_hmap_key v r then on_dup v r else r) t
  else t ++ [v].

(** ** BulkUpsertMDMAppleHostProfiles *)

Definition bulk_upsert_values (p : BP.t) : Hmap.row :=
  {| Hmap.profile_id := BP.ProfileID p;
     Hmap.profile_identifier := BP.ProfileIdentifier p;
     Hmap.profile_name := BP.ProfileName p;
     Hmap.host_uuid := BP.HostUUID p;
     Hmap.status := BP.Status p;
     Hmap.operation_type := Some (BP.OperationType p);
     Hmap.command_uuid := BP.CommandUUID p;
     Hmap.checksum := BP.Checksum p;
     Hmap.detail := None |}.

(** ON DUPLICATE KEY UPDATE status = VALUES(status),
      operation_type = VALUES(operation_type),
      command_uuid = VALUES(command_uuid) *)
Definition bulk_upsert_on_dup (v r : Hmap.row) : Hmap.row :=
  {| Hmap.profile_id := Hmap.profile_id r;
     Hmap.profile_identifier := Hmap.profile_identifier r;
     Hmap.profile_name := Hmap.profile_name r;
     Hmap.host_uuid := Hmap.host_uuid r;
     Hmap.status := Hmap.status v;
     Hmap.operation_type := Hmap.operation_type v;
     Hmap.command_uuid := Hmap.command_uuid v;
     Hmap.checksum := Hmap.checksum r;
     Hmap.detail := Hmap.detail r |}.

Definition BulkUpsertMDMAppleHostProfiles (payload : list BP.t)
  (db : Datastore) : option error * Datastore :=
  if negb (non_empty payload) then (None, db)
  else
    (None,
     set_hmap (fold_left (upsert_hmap bulk_upsert_on_dup)
                 (map bulk_upsert_values payload)
                 (host_mdm_apple_profiles db)) db).

(** ** UpdateOrDeleteHostMDMAppleProfile *)

(** WHERE host_uuid = ? AND command_uuid = ? *)
Definition host_command (profile : HP.t) (r : Hmap.row) : bool :=
  String.eqb (Hmap.host_uuid r) (HP.HostUUID profile)
  && String.eqb (Hmap.command_uuid r) (HP.CommandUUID profile).

(** SET status = ?, operation_type = ?, detail = ? *)
Definition set_result (profile : HP.t) (r : Hmap.row) : Hmap.row :=
  {| Hmap.profile_id := Hmap.profile_id r;
     Hmap.profile_identifier := Hmap.profile_identifier r;
     Hmap.profile_name := Hmap.profile_name r;
     Hmap.host_uuid := Hmap.host_uuid r;
     Hmap.status := HP.Status profile;
     Hmap.operation_type := Some (HP.OperationType profile);
     Hmap.command_uuid := Hmap.command_uuid r;
     Hmap.checksum := Hmap.checksum r;
     Hmap.detail := Some (HP.Detail profile) |}.

Definition deletes_row `{Externals} (profile : HP.t) : bool :=
  op_eqb (HP.OperationType profile) MDMAppleOperationTypeRemove
  && match HP.Status profile with
     | Some st => status_eqb st MDMAppleDeliveryVerifying
                  || IgnoreMDMClientError profile
     | None => false
     end.

Definition UpdateOrDeleteHostMDMAppleProfile `{Externals} (profile : HP.t)
  (db : Datastore) : option error * Datastore :=
  if deletes_row profile then
    (None,
     set_hmap (filter (fun r => negb (host_command profile r))
                 (host_mdm_apple_profiles db)) db)
  else
    (None,
     set_hmap (map (fun r => if host_command profile r
                             then set_result profile r else r)
                 (host_mdm_apple_profiles db)) db).

(** ** Host unenrollment *)

(** DELETE FROM host_mdm_apple_profiles WHERE host_uuid = ? *)
Definition deleteMDMAppleProfilesForHost (uuid : string) : Tx unit :=
  exec (fun db =>
    set_hmap (filter (fun r => negb (String.eqb (Hmap.host_uuid r) uuid))
                (host_mdm_apple_profiles db)) db).

(** SELECT id FROM hosts WHERE uuid = ?, scanned from the first row. *)
Definition host_id_of_uuid (uuid : string) : Tx N :=
  fun db =>
    match filter (fun hr => String.eqb (Host.uuid hr) uuid) (hosts db) with
    | [] => Err sqlErrNoRows
    | hr :: _ => Ok (Host.id hr, db)
    end.

Definition UpdateHostTablesOnMDMUnenroll (uuid : string) (db : Datastore)
  : option error * Datastore :=
  withTx (
    hostID <- host_id_of_uuid uuid ;;
    exec (fun db =>
      set_host_mdm (filter (fun r => negb (HostMdm.host_id r =? hostID))
                      (host_mdm db)) db) ;;;
    deleteMDMAppleProfilesForHost uuid ;;;
    exec (fun db =>
      set_hdek (filter (fun r => negb (Hdek.host_id r =? hostID))
                  (host_disk_encryption_keys db)) db)) db.

(** ** Disk encryption keys on a team change *)

Definition getMDMAppleConfigProfileByTeamAndIdentifierDB (teamID : option N)
  (profileIdentifier : string) : Tx CP.t :=
  fun db =>
    let teamID := match teamID with Some t => t | None => 0 end in
    match filter (same_team_identifier teamID profileIdentifier)
            (mdm_apple_configuration_profiles db) with
    | [] => Err (notFound "MDMAppleConfigProfile")
    | r :: _ => Ok (scan_profile r, db)
    end.

(** DELETE FROM host_disk_encryption_keys WHERE host_id IN (?) *)
Definition bulkDeleteHostDiskEncryptionKeysDB (hostIDs : list N) : Tx unit :=
  if negb (non_empty hostIDs) then ret tt
  else
    exec (fun db =>
      set_hdek
        (filter (fun r => negb (existsb (N.eqb (Hdek.host_id r)) hostIDs))
           (host_disk_encryption_keys db)) db).

Definition cleanupDiskEncryptionKeysOnTeamChangeDB `{Externals}
  (hostIDs : list N) (newTeamID : option N) : Tx unit :=
  fun db =>
    match getMDMAppleConfigProfileByTeamAndIdentifierDB newTeamID
            FleetFileVaultPayloadIdentifier db with
    | Err err =>
        if IsNotFound err then
          (* the new team does not have a filevault profile *)
          bulkDeleteHostDiskEncryptionKeysDB hostIDs db
        else Err err
    | Ok _ => Ok (tt, db)
    end.

Definition CleanupDiskEncryptionKeysOnTeamChange `{Externals}
  (hostIDs : list N) (newTeamID : option N) (db : Datastore)
  : option error * Datastore :=
  withTx (cleanupDiskEncryptionKeysOnTeamChangeDB hostIDs newTeamID) db.

(** ** BatchSetMDMAppleProfiles *)

(** A Go map with string keys: one entry per key, a later assignment to a
    key replaces the value. *)
Fixpoint gomap_set {V} (k : string) (v : V) (m : list (string * V))
  : list (string * V) :=
  match m with
  | [] => [(k, v)]
  | (k', v') :: m' =>
      if String.eqb k' k then (k, v) :: m' else (k', v') :: gomap_set k v m'
  end.

Definition gomap_get {V} (k : string) (m : list (string * V)) : option V :=
  option_map snd (find (fun kv => String.eqb (fst kv) k) m).

(** incomingProfs: the incoming profiles keyed by identifier. *)
Definition incomingProfs (profiles : list CP.t) : list (string * CP.t) :=
  fold_left (fun m p => gomap_set (CP.Identifier p) p m) profiles [].

(** SELECT identifier, mobileconfig FROM mdm_apple_configuration_profiles
    WHERE team_id = ? AND identifier IN (?) *)
Definition loadExistingProfiles (team : N) (idents : list string)
  (db : Datastore) : list Macp.row :=
  filter (fun r => (Macp.team_id r =? team)
                   && existsb (String.eqb (Macp.identifier r)) idents)
    (mdm_apple_configuration_profiles db).

(** DELETE FROM mdm_apple_configuration_profiles
    WHERE team_id = ? AND identifier NOT IN (?) *)
Definition deleteProfilesNotInList (team : N) (idents : list string)
  (db : Datastore) : Datastore :=
  set_profiles
    (filter (fun r => negb ((Macp.team_id r =? team)
                            && negb (existsb (String.eqb (Macp.identifier r))
                                       idents)))
       (mdm_apple_configuration_profiles db)) db.

Definition exec_insertNewOrEditedProfile `{Externals} (team : N) (p : CP.t)
  : Tx unit :=
  fun db =>
    match insertNewOrEditedProfile team (CP.Identifier p) (CP.Name p)
            (CP.Mobileconfig p) (mdm_apple_configuration_profiles db) with
    | Ok t => Ok (tt, set_profiles t db)
    | Err e => Err e
    end.

(** [range] is the order in which the loop over the Go map [incomingProfs]
    visits its values; Go leaves it open, and a property of the function
    is stated for every [range] that is a permutation of the values. *)
Definition BatchSetMDMAppleProfiles `{Externals} (range : list CP.t)
  (tmID : option N) (profiles : list CP.t) (db : Datastore)
  : option error * Datastore :=
  (* use a profile team id of 0 if no-team *)
  let profTeamID := match tmID with Some t => t | None => 0 end in
  let incomingIdents := map CP.Identifier profiles in
  let incomingProfs := incomingProfs profiles in
  withRetryTxx (
    existingProfiles <-
      (if non_empty incomingIdents
       then query (loadExistingProfiles profTeamID incomingIdents)
       else ret []) ;;
    (* figure out if we need to delete any profiles *)
    let keepIdents :=
      flat_map (fun p =>
        match gomap_get (Macp.identifier p) incomingProfs with
        | Some _ => [Macp.identifier p]
        | None => []
        end) existingProfiles in
    (* profiles that are managed and delivered by Fleet *)
    let fleetIdents := FleetPayloadIdentifiers in
    (* delete the obsolete profiles *)
    args <- sqlx_In (keepIdents ++ fleetIdents) ;;
    exec (deleteProfilesNotInList profTeamID args) ;;;
    (* insert the new profiles and the ones that have changed *)
    for_each range (exec_insertNewOrEditedProfile profTeamID)) db.

Definition range_values (profiles : list CP.t) : list CP.t :=
  map snd (incomingProfs profiles).

(** ** BulkSetPendingMDMAppleHostProfiles *)

(** The statement that loads the host UUIDs, by the selector given. *)
Definition load_host_uuids (hostIDs teamIDs profileIDs : list N)
  (db : Datastore) : list string :=
  if non_empty hostIDs then
    (* SELECT uuid FROM hosts WHERE id IN (?) *)
    map Host.uuid
      (filter (fun hr => existsb (N.eqb (Host.id hr)) hostIDs) (hosts db))
  else if non_empty teamIDs then
    (* SELECT uuid FROM hosts WHERE ... *)
    match teamIDs with
    | [0] =>
        map Host.uuid
          (filter (fun hr => SQL.holds (SQL.is_null (Host.team_id hr)))
             (hosts db))
    | _ =>
        map Host.uuid
          (filter (fun hr =>
             SQL.holds
               (if existsb (N.eqb 0) teamIDs
                then SQL.or3 (SQL.in3 N.eqb (Host.team_id hr) teamIDs)
                             (SQL.is_null (Host.team_id hr))
                else SQL.in3 N.eqb (Host.team_id hr) teamIDs))
             (hosts db))
    end
  else
    (* SELECT DISTINCT h.uuid FROM hosts h
       JOIN mdm_apple_configuration_profiles macp ON ...
       WHERE macp.profile_id IN (?) *)
    SQL.distinct
      (flat_map (fun hr =>
         flat_map (fun p =>
           if SQL.holds (scope_on hr p)
              && existsb (N.eqb (Macp.profile_id p)) profileIDs
           then [Host.uuid hr] else [])
           (mdm_apple_configuration_profiles db))
         (hosts db)).

(** h.uuid IN (?) *)
Definition uuid_in (uuids : list string) (hr : Host.row) : SQL.tri :=
  Some (existsb (String.eqb (Host.uuid hr)) uuids).

Definition profilesToInstallStmt (uuids : list string) (db : Datastore)
  : list PP.t :=
  map fst
    (filter (fun j => SQL.holds (updated_new_or_remove (fst j) (snd j)))
       (SQL.left_join hmap_on (desired_state_where (uuid_in uuids) db)
          (host_mdm_apple_profiles db))).

Definition profilesToRemoveStmt (uuids installIdentifiers : list string)
  (db : Datastore) : list PP.t :=
  map (fun j => payload_of_hmap (snd j))
    (filter (fun j =>
       let o := fst j in
       let r := snd j in
       SQL.holds
         (SQL.and3 (Some (existsb (String.eqb (Hmap.host_uuid r)) uuids))
         (* profiles that are in B but not in A *)
         (SQL.and3 (not_in_A o)
         (* except "remove" operations in any state *)
         (SQL.and3
            (SQL.or3 (SQL.is_null (Hmap.operation_type r))
               (SQL.neq3 op_eqb (Hmap.operation_type r)
                  (Some MDMAppleOperationTypeRemove)))
         (* profiles that are being installed *)
            (if non_empty installIdentifiers
             then Some (negb (existsb
                                (String.eqb (Hmap.profile_identifier r))
                                installIdentifiers))
             else Some true)))))
       (SQL.right_join hmap_on (desired_state_where (uuid_in uuids) db)
          (host_mdm_apple_profiles db))).

Definition pending_values (op : MDMAppleOperationType) (p : PP.t) : Hmap.row :=
  {| Hmap.profile_id := PP.ProfileID p;
     Hmap.host_uuid := PP.HostUUID p;
     Hmap.profile_identifier := PP.ProfileIdentifier p;
     Hmap.profile_name := PP.ProfileName p;
     Hmap.checksum := PP.Checksum p;
     Hmap.operation_type := Some op;
     Hmap.status := None;
     Hmap.command_uuid := "";
     Hmap.detail := None |}.

(** ON DUPLICATE KEY UPDATE operation_type = VALUES(operation_type),
      status = VALUES(status), command_uuid = VALUES(command_uuid),
      checksum = VALUES(checksum), detail = '' *)
Definition pending_on_dup (v r : Hmap.row) : Hmap.row :=
  {| Hmap.profile_id := Hmap.profile_id r;
     Hmap.host_uuid := Hmap.host_uuid r;
     Hmap.profile_identifier := Hmap.profile_identifier r;
     Hmap.profile_name := Hmap.profile_name r;
     Hmap.checksum := Hmap.checksum v;
     Hmap.operation_type := Hmap.operation_type v;
     Hmap.status := Hmap.status v;
     Hmap.command_uuid := Hmap.command_uuid v;
     Hmap.detail := Some "" |}.

Definition only_one_error : error :=
  errorString
    "only one of hostIDs, teamIDs, profileIDs or hostUUIDs can be provided".

Definition BulkSetPendingMDMAppleHostProfiles
  (hostIDs teamIDs profileIDs : list N) (hostUUIDs : list string)
  (db : Datastore) : option error * Datastore :=
  withTx (
    let countArgs :=
      ((if non_empty hostIDs then 1 else 0)
       + (if non_empty teamIDs then 1 else 0)
       + (if non_empty profileIDs then 1 else 0)
       + (if non_empty hostUUIDs then 1 else 0))%nat in
    if Nat.ltb 1 countArgs then fail only_one_error
    else if Nat.eqb countArgs 0 then ret tt
    else
      uuids <-
        (if non_empty hostUUIDs then ret hostUUIDs
         else query (load_host_uuids hostIDs teamIDs profileIDs)) ;;
      if negb (non_empty uuids) then ret tt
      else
        profilesToInstall <- query (profilesToInstallStmt uuids) ;;
        let installIdentifiers :=
          map PP.ProfileIdentifier profilesToInstall in
        profilesToRemove <-
          query (profilesToRemoveStmt uuids installIdentifiers) ;;
        if negb (non_empty profilesToInstall)
           && negb (non_empty profilesToRemove)
        then ret tt
        else
          (* before doing the inserts, remove profiles with identifiers
             that will be re-sent *)
          (if non_empty profilesToInstall then
             exec (fun db =>
               set_hmap
                 (filter (fun r =>
                    negb (existsb (fun p =>
                            String.eqb (Hmap.host_uuid r) (PP.HostUUID p)
                            && String.eqb (Hmap.profile_identifier r)
                                 (PP.ProfileIdentifier p))
                          profilesToInstall))
                    (host_mdm_apple_profiles db)) db)
           else ret tt) ;;;
          exec (fun db =>
            set_hmap
              (fold_left (upsert_hmap pending_on_dup)
                 (map (pending_values MDMAppleOperationTypeInstall)
                    profilesToInstall
                  ++ map (pending_values MDMAppleOperationTypeRemove)
                       profilesToRemove)
                 (host_mdm_apple_profiles db)) db)) db.

(** ** Vocabulary of the specification *)

(** The profile belongs to the current scope of the host: the team of the
    host, or team 0 for a host in no team. *)
Definition in_scope (hr : Host.row) (p : Macp.row) : Prop :=
  Host.team_id hr = Some (Macp.team_id p)
  \/ (Host.team_id hr = None /\ Macp.team_id p = 0).

(** A darwin host with an enabled enrollment of type Device. *)
Definition enrolled_darwin (db : Datastore) (hr : Host.row) : Prop :=
  Host.platform hr = "darwin"
  /\ exists e, In e (nano_enrollments db)
               /\ Ne.device_id e = Host.uuid hr
               /\ Ne.enabled e = true
               /\ Ne.type e = "Device".

(** The pair (host, profile) [d] is desired. *)
Definition desired (db : Datastore) (d : PP.t) : Prop :=
  exists p hr,
    In p (mdm_apple_configuration_profiles db) /\ In hr (hosts db)
    /\ in_scope hr p /\ enrolled_darwin db hr /\ d = desired_row p hr.

(** [r] is a ledger row of the pair [d]. *)
Definition row_for (d : PP.t) (r : Hmap.row) : Prop :=
  Hmap.profile_id r = PP.ProfileID d /\ Hmap.host_uuid r = PP.HostUUID d.

Definition no_row (db : Datastore) (d : PP.t) : Prop :=
  forall r, In r (host_mdm_apple_profiles db) -> ~ row_for d r.

(** The rule for "to install" as the specification words it: cases (a) to
    (d). *)
Definition to_install_stated (db : Datastore) (d : PP.t) : Prop :=
  desired db d
  /\ (no_row db d
      \/ exists r, In r (host_mdm_apple_profiles db) /\ row_for d r
           /\ (Hmap.checksum r <> PP.Checksum d
               \/ Hmap.operation_type r = Some MDMAppleOperationTypeRemove
               \/ (Hmap.operation_type r = Some MDMAppleOperationTypeInstall
                   /\ Hmap.status r = None))).

(** The rule of the query: the four cases and a row whose operation type
    is NULL. *)
Definition to_install_rule (db : Datastore) (d : PP.t) : Prop :=
  desired db d
  /\ (no_row db d
      \/ exists r, In r (host_mdm_apple_profiles db) /\ row_for d r
           /\ (Hmap.checksum r <> PP.Checksum d
               \/ Hmap.operation_type r = Some MDMAppleOperationTypeRemove
               \/ (Hmap.operation_type r = Some MDMAppleOperationTypeInstall
                   /\ Hmap.status r = None)
               \/ Hmap.operation_type r = None)).

(** The ledger row matches a desired pair. *)
Definition still_desired (db : Datastore) (r : Hmap.row) : Prop :=
  exists d, desired db d /\ row_for d r.

(** A removal already handed to the device: operation Remove and a status
    that is not NULL. *)
Definition removal_in_flight (r : Hmap.row) : Prop :=
  Hmap.operation_type r = Some MDMAppleOperationTypeRemove
  /\ Hmap.status r <> None.

(** Every ledger row of the pair is an Install that was dispatched (status
    Pending, Verifying or Failed) with the checksum of the profile, and
    there is such a row. *)
Definition install_in_flight_unchanged (db : Datastore) (d : PP.t) : Prop :=
  (exists r, In r (host_mdm_apple_profiles db) /\ row_for d r)
  /\ forall r, In r (host_mdm_apple_profiles db) -> row_for d r ->
       Hmap.operation_type r = Some MDMAppleOperationTypeInstall
       /\ Hmap.status r <> None
       /\ Hmap.checksum r = PP.Checksum d.

(** *** Sample stores *)

Definition profile_N1 : Macp.row :=
  {| Macp.profile_id := 1; Macp.team_id := 0; Macp.identifier := "I1";
     Macp.name := "N1"; Macp.mobileconfig := "<plist>a</plist>";
     Macp.checksum := "c1" |}.

Definition host_H : Host.row :=
  {| Host.id := 7; Host.uuid := "H"; Host.team_id := None;
     Host.platform := "darwin" |}.

Definition enrollment_H : Ne.row :=
  {| Ne.id := "H"; Ne.device_id := "H"; Ne.type := "Device";
     Ne.enabled := true |}.

Definition ledger_row (csum : string) (op : option MDMAppleOperationType)
  (st : option MDMAppleDeliveryStatus) : Hmap.row :=
  {| Hmap.profile_id := 1; Hmap.host_uuid := "H";
     Hmap.profile_identifier := "I1"; Hmap.profile_name := "N1";
     Hmap.checksum := csum; Hmap.operation_type := op; Hmap.status := st;
     Hmap.command_uuid := "cmd-1"; Hmap.detail := None |}.

(** One no-team profile, one enrolled darwin host in no team, and the
    ledger given. *)
Definition store_with (ledger : list Hmap.row) : Datastore :=
  {| mdm_apple_configuration_profiles := [profile_N1];
     hosts := [host_H];
     nano_enrollments := [enrollment_H];
     host_mdm_apple_profiles := ledger;
     host_mdm := [ {| HostMdm.host_id := 7; HostMdm.enrolled := true |} ];
     host_disk_encryption_keys :=
       [ {| Hdek.host_id := 7; Hdek.base64_encrypted := "key";
            Hdek.decryptable := Some true |} ] |}.

Definition pair_H_N1 : PP.t := desired_row profile_N1 host_H.

(** *** The result processor *)

(** The ledger row is the one a result is about: WHERE host_uuid = ? AND
    command_uuid = ?. *)
Definition keyed_by (profile : HP.t) (r : Hmap.row) : Prop :=
  Hmap.host_uuid r = HP.HostUUID profile
  /\ Hmap.command_uuid r = HP.CommandUUID profile.

(** When a result deletes its row, as the specification words it. *)
Definition deletes_stated `{Externals} (profile : HP.t) : Prop :=
  HP.OperationType profile = MDMAppleOperationTypeRemove
  /\ (HP.Status profile = Some MDMAppleDeliveryVerifying
      \/ IgnoreMDMClientError profile = true).

(** When it does: the status must not be nil. *)
Definition deletes_rule `{Externals} (profile : HP.t) : Prop :=
  HP.OperationType profile = MDMAppleOperationTypeRemove
  /\ HP.Status profile <> None
  /\ (HP.Status profile = Some MDMAppleDeliveryVerifying
      \/ IgnoreMDMClientError profile = true).

(** A sample of what comes from outside: the two identifiers of Fleet,
    as the error to ignore the one of a removal whose detail has the
    MDM client error 89 (the profile is not on the device), and as the
    text of a duplicate entry the message 1062 of the server, with the
    values of the index joined by a dash. *)
Definition sample_externals : Externals :=
  {| MD5 := fun mc => ("md5:" ++ mc)%string;
     FleetPayloadIdentifiers :=
       ["com.fleetdm.fleetd.config"; "com.fleetdm.fleet.mdm.filevault"];
     FleetFileVaultPayloadIdentifier := "com.fleetdm.fleet.mdm.filevault";
     IgnoreMDMClientError := fun profile =>
       op_eqb (HP.OperationType profile) MDMAppleOperationTypeRemove
       && match String.index 0 "MDMClientError (89)" (HP.Detail profile) with
          | Some _ => true
          | None => false
          end;
     DuplicateEntryError := fun key team v =>
       ("Error 1062: Duplicate entry '"
        ++ NilZero.string_of_uint (N.to_uint team) ++ "-" ++ v
        ++ "' for key '" ++ key ++ "'")%string |}.

Definition result_for (op : MDMAppleOperationType)
  (st : option MDMAppleDeliveryStatus) (detail : string) : HP.t :=
  {| HP.HostUUID := "H"; HP.CommandUUID := "cmd-1"; HP.ProfileID := 1;
     HP.Name := "N1"; HP.Identifier := "I1"; HP.Status := st;
     HP.OperationType := op; HP.Detail := detail |}.

(** *** Scopes *)

Definition scope_of (tmID : option N) : N :=
  match tmID with Some t => t | None => 0 end.

(** The scope has a profile with the FileVault identifier. *)
Definition has_filevault_profile `{Externals} (db : Datastore) (tmID : option N)
  : Prop :=
  exists p, In p (mdm_apple_configuration_profiles db)
            /\ Macp.team_id p = scope_of tmID
            /\ Macp.identifier p = FleetFileVaultPayloadIdentifier.

(** The number of selectors of [BulkSetPendingMDMAppleHostProfiles] that
    are not empty. *)
Definition selectors (hostIDs teamIDs profileIDs : list N)
  (hostUUIDs : list string) : nat :=
  List.length (filter (fun b : bool => b)
                 [non_empty hostIDs; non_empty teamIDs; non_empty profileIDs;
                  non_empty hostUUIDs]).

(** *** Errors of the profile store *)

Definition is_exists_error {A} (res : result A) : Prop :=
  exists rt i t, res = Err (existsError rt i t).

Definition profile_with_id (db : Datastore) (id : N) : Prop :=
  exists r, In r (mdm_apple_configuration_profiles db)
            /\ Macp.profile_id r = id.

Definition same_scope_identifier (db : Datastore) (cp : CP.t) : Prop :=
  exists r, In r (mdm_apple_configuration_profiles db)
            /\ Macp.team_id r = scope_of (CP.TeamID cp)
            /\ Macp.identifier r = CP.Identifier cp.

Definition same_scope_name (db : Datastore) (cp : CP.t) : Prop :=
  exists r, In r (mdm_apple_configuration_profiles db)
            /\ Macp.team_id r = scope_of (CP.TeamID cp)
            /\ Macp.name r = CP.Name cp.

(** [profile_id] is the primary key of the table. *)
Definition primary_key (t : list Macp.row) : Prop :=
  NoDup (map Macp.profile_id t).

Definition incoming (ident nm mc : string) : CP.t :=
  {| CP.ProfileID := 0; CP.TeamID := None; CP.Identifier := ident;
     CP.Name := nm; CP.Mobileconfig := mc |}.

(** *** Bulk replace *)

(** The same profile, after an edit of its name and payload. *)
Definition same_profile (r r' : Macp.row) : Prop :=
  Macp.profile_id r' = Macp.profile_id r
  /\ Macp.team_id r' = Macp.team_id r
  /\ Macp.identifier r' = Macp.identifier r.

(** keepIdents of [BatchSetMDMAppleProfiles]. *)
Definition keepIdents (team : N) (profiles : list CP.t) (db : Datastore)
  : list string :=
  flat_map (fun p =>
    match gomap_get (Macp.identifier p) (incomingProfs profiles) with
    | Some _ => [Macp.identifier p]
    | None => []
    end)
    (if non_empty (map CP.Identifier profiles)
     then loadExistingProfiles team (map CP.Identifier profiles) db
     else []).

Definition filevault_profile : Macp.row :=
  {| Macp.profile_id := 2; Macp.team_id := 0;
     Macp.identifier := "com.fleetdm.fleet.mdm.filevault";
     Macp.name := "Disk encryption";
     Macp.mobileconfig := "<plist>fv</plist>";
     Macp.checksum := "md5:<plist>fv</plist>" |}.

Definition store_with_profiles (t : list Macp.row) : Datastore :=
  {| mdm_apple_configuration_profiles := t;
     hosts := [host_H];
     nano_enrollments := [enrollment_H];
     host_mdm_apple_profiles := [];
     host_mdm := [];
     host_disk_encryption_keys := [] |}.

(** The loop of [BatchSetMDMAppleProfiles] on the table alone. *)
Fixpoint insert_all `{Externals} (team : N) (range : list CP.t)
  (t : list Macp.row) : result (list Macp.row) :=
  match range with
  | [] => Ok t
  | p :: rest =>
      match insertNewOrEditedProfile team (CP.Identifier p) (CP.Name p)
              (CP.Mobileconfig p) t with
      | Ok t' => insert_all team rest t'
      | Err e => Err e
      end
  end.

(** The keys of the table: [profile_id] is the primary key and
    (team_id, identifier) is unique. *)
Definition wf_profiles (t : list Macp.row) : Prop :=
  primary_key t
  /\ forall r1 r2, In r1 t -> In r2 t ->
       Macp.team_id r1 = Macp.team_id r2 ->
       Macp.identifier r1 = Macp.identifier r2 -> r1 = r2.

(** The row is the one of the scope with the identifier of [p]. *)
Definition matches (team : N) (p : CP.t) (r : Macp.row) : Prop :=
  Macp.team_id r = team /\ Macp.identifier r = CP.Identifier p.

Definition no_match (team : N) (p : CP.t) (t : list Macp.row) : Prop :=
  forall r, In r t -> ~ matches team p r.

(** The row holds the incoming profile [p] for the scope. *)
Definition row_of `{Externals} (team : N) (p : CP.t) (x : Macp.row) : Prop :=
  Macp.team_id x = team
  /\ Macp.identifier x = CP.Identifier p
  /\ Macp.name x = CP.Name p
  /\ Macp.mobileconfig x = CP.Mobileconfig p
  /\ Macp.checksum x = MD5 (CP.Mobileconfig p).

(** No incoming name is the name of a profile with another identifier,
    among the incoming profiles and among the profiles of the scope that
    the replace keeps. *)
Definition names_free `{Externals} (team : N) (range : list CP.t)
  (t : list Macp.row) : Prop :=
  (forall p q, In p range -> In q range -> CP.Name p = CP.Name q ->
               CP.Identifier p = CP.Identifier q)
  /\ (forall p r, In p range -> In r t -> Macp.team_id r = team ->
        In (Macp.identifier r) (map CP.Identifier range)
        \/ In (Macp.identifier r) FleetPayloadIdentifiers ->
        Macp.name r = CP.Name p -> Macp.identifier r = CP.Identifier p).

(** [p] is the last profile of the list with its identifier. *)
Definition last_with_identifier (profiles : list CP.t) (p : CP.t) : Prop :=
  exists l1 l2, profiles = l1 ++ p :: l2
                /\ ~ In (CP.Identifier p) (map CP.Identifier l2).

Definition profile_I9 : Macp.row :=
  {| Macp.profile_id := 3; Macp.team_id := 0; Macp.identifier := "I9";
     Macp.name := "N9"; Macp.mobileconfig := "<plist>z</plist>";
     Macp.checksum := "md5:<plist>z</plist>" |}.

Definition incoming_edit_and_new : list CP.t :=
  [incoming "I1" "N1 v2" "<plist>b</plist>";
   incoming "I3" "N3" "<plist>c</plist>"].

Definition incoming_same_name : list CP.t :=
  [incoming "I1" "N" "<plist>a</plist>"; incoming "I2" "N" "<plist>b</plist>"].

(** The bulk replace as the specification words it: after a call that
    returns nil the table holds, for every incoming profile, a row of the
    scope with its identifier, name, payload and the checksum of the
    payload. *)
Definition replace_stated : Prop :=
  forall (E : Externals) range tmID profiles db db',
    Permutation range (range_values profiles) ->
    wf_profiles (mdm_apple_configuration_profiles db) ->
    BatchSetMDMAppleProfiles range tmID profiles db = (None, db') ->
    forall p, In p range ->
      exists x, In x (mdm_apple_configuration_profiles db')
                /\ row_of (scope_of tmID) p x.

(** *** One reconciliation pass

    The pass as the specification words it: every pair of the two lists is
    recorded through [BulkUpsertMDMAppleHostProfiles] with status Pending,
    its operation type and the checksum the list gives for it.  [cmd]
    gives the UUID of the command enqueued for a pair. *)
Definition pending_payload (op : MDMAppleOperationType)
  (cmd : PP.t -> string) (p : PP.t) : BP.t :=
  {| BP.ProfileID := PP.ProfileID p;
     BP.ProfileIdentifier := PP.ProfileIdentifier p;
     BP.ProfileName := PP.ProfileName p;
     BP.HostUUID := PP.HostUUID p;
     BP.CommandUUID := cmd p;
     BP.OperationType := op;
     BP.Status := Some MDMAppleDeliveryPending;
     BP.Checksum := PP.Checksum p |}.

Definition reconcile_pass (cmd : PP.t -> string) (db : Datastore)
  : Datastore :=
  snd (BulkUpsertMDMAppleHostProfiles
         (map (pending_payload MDMAppleOperationTypeInstall cmd)
            (ListMDMAppleProfilesToInstall db)
          ++ map (pending_payload MDMAppleOperationTypeRemove cmd)
               (ListMDMAppleProfilesToRemove db)) db).

(** The profile was edited after it was verified on the host: the ledger
    row has the checksum of the old payload. *)
Definition store_stale_checksum : Datastore :=
  store_with [ledger_row "c0" (Some MDMAppleOperationTypeInstall)
                (Some MDMAppleDeliveryVerifying)].

(** Every ledger row of a desired pair has the checksum of the profile. *)
Definition no_stale_checksum (db : Datastore) : Prop :=
  forall d r, desired db d -> In r (host_mdm_apple_profiles db) ->
              row_for d r -> Hmap.checksum r = PP.Checksum d.

(** *** The scenario of the specification

    Profiles (N1, I1) and (N2, I2) are set for no team, host H is enrolled
    and in no team; one pass, then the device acknowledges I1 and answers
    I2 with an error; then a second pass. *)
Definition scenario_incoming : list CP.t :=
  [incoming "I1" "N1" "<plist>1</plist>"; incoming "I2" "N2" "<plist>2</plist>"].

Definition scenario_cmd (p : PP.t) : string :=
  ("cmd-" ++ PP.ProfileIdentifier p)%string.

Definition scenario_set : Datastore :=
  snd (@BatchSetMDMAppleProfiles sample_externals scenario_incoming None
         scenario_incoming (store_with_profiles [])).

Definition scenario_first_pass : Datastore :=
  reconcile_pass scenario_cmd scenario_set.

Definition scenario_results : Datastore :=
  snd (@UpdateOrDeleteHostMDMAppleProfile sample_externals
         {| HP.HostUUID := "H"; HP.CommandUUID := "cmd-I2"; HP.ProfileID := 2;
            HP.Name := "N2"; HP.Identifier := "I2";
            HP.Status := Some MDMAppleDeliveryFailed;
            HP.OperationType := MDMAppleOperationTypeInstall;
            HP.Detail := "Unknown command" |}
         (snd (@UpdateOrDeleteHostMDMAppleProfile sample_externals
                 {| HP.HostUUID := "H"; HP.CommandUUID := "cmd-I1";
                    HP.ProfileID := 1; HP.Name := "N1"; HP.Identifier := "I1";
                    HP.Status := Some MDMAppleDeliveryVerifying;
                    HP.OperationType := MDMAppleOperationTypeInstall;
                    HP.Detail := "" |}
                 scenario_first_pass))).

(** Identifier, operation type, status and detail of the ledger rows. *)
Definition ledger_view (db : Datastore)
  : list (string * option MDMAppleOperationType
          * option MDMAppleDeliveryStatus * option string) :=
  map (fun r => (Hmap.profile_identifier r, Hmap.operation_type r,
                 Hmap.status r, Hmap.detail r))
    (host_mdm_apple_profiles db).

(** ** More of the datastore *)

(** ** ListMDMAppleConfigProfiles *)

(** ORDER BY a column of strings; [le] is the order of the collation of
    the column. *)
Fixpoint insert_by {R} (le : string -> string -> bool) (key : R -> string)
  (x : R) (l : list R) : list R :=
  match l with
  | [] => [x]
  | y :: l' =>
      if le (key x) (key y) then x :: y :: l' else y :: insert_by le key x l'
  end.

Definition order_by {R} (le : string -> string -> bool) (key : R -> string)
  (l : list R) : list R :=
  fold_right (insert_by le key) [] l.

(** SELECT ... FROM mdm_apple_configuration_profiles
    WHERE team_id=? AND identifier NOT IN (?) ORDER BY name *)
Definition ListMDMAppleConfigProfiles `{Externals}
  (collation : string -> string -> bool) (teamID : option N) (db : Datastore)
  : result (list CP.t) :=
  let teamID := match teamID with Some t => t | None => 0 end in
  let fleetIdentifiers := FleetPayloadIdentifiers in
  if non_empty fleetIdentifiers then
    Ok (map scan_profile
          (order_by collation Macp.name
             (filter (fun r =>
                (Macp.team_id r =? teamID)
                && negb (existsb (String.eqb (Macp.identifier r))
                           fleetIdentifiers))
                (mdm_apple_configuration_profiles db))))
  else Err (errorString "empty slice passed to 'in' query").

(** ** GetHostMDMProfiles *)

(** fleet.HostMDMAppleProfile as the query fills it: the operation type is
    a Go string, empty ([None] here) when the column is NULL; the host and
    command UUID are not selected. *)
Module ScannedHostProfile.
Record t := {
  ProfileID : N;
  Name : string;
  Identifier : string;
  Status : option MDMAppleDeliveryStatus;
  OperationType : option MDMAppleOperationType;
  Detail : string
}.
End ScannedHostProfile.

Module SHP := ScannedHostProfile.





(** ** GetMDMAppleProfilesContents *)

(** A Go map[uint]: one entry per key, a later assignment replaces the
    value. *)
Fixpoint uintmap_set {V} (k : N) (v : V) (m : list (N * V)) : list (N * V) :=
  match m with
  | [] => [(k, v)]
  | (k', v') :: m' =>
      if k' =? k then (k, v) :: m' else (k', v') :: uintmap_set k v m'
  end.

Definition uintmap_get {V} (k : N) (m : list (N * V)) : option V :=
  option_map snd (find (fun kv => fst kv =? k) m).

(** SELECT profile_id, mobileconfig FROM mdm_apple_configuration_profiles
    WHERE profile_id IN (?); the nil map of an empty [ids] and an empty map
    are both the empty list. *)
Definition GetMDMAppleProfilesContents (ids : list N) (db : Datastore)
  : list (N * string) :=
  if negb (non_empty ids) then []
  else
    fold_left (fun results r =>
                 uintmap_set (Macp.profile_id r) (Macp.mobileconfig r) results)
      (filter (fun r => existsb (N.eqb (Macp.profile_id r)) ids)
         (mdm_apple_configuration_profiles db))
      [].

(** ** BulkUpsertMDMAppleConfigProfiles *)

(** ON DUPLICATE KEY UPDATE mobileconfig = VALUES(mobileconfig),
      checksum = UNHEX(MD5(VALUES(mobileconfig))) *)
Definition set_payload `{Externals} (mc : string) (r : Macp.row) : Macp.row :=
  {| Macp.profile_id := Macp.profile_id r;
     Macp.team_id := Macp.team_id r;
     Macp.identifier := Macp.identifier r;
     Macp.name := Macp.name r;
     Macp.mobileconfig := mc;
     Macp.checksum := MD5 mc |}.

(** One row of VALUES: the row that holds the first duplicate key gets the
    payload, and no key changes; without a duplicate the row is added. *)
Definition upsert_config_profile `{Externals} (t : list Macp.row) (cp : CP.t)
  : list Macp.row :=
  let teamID := match CP.TeamID cp with Some tm => tm | None => 0 end in
  match find (same_team_identifier teamID (CP.Identifier cp)) t with
  | Some r =>
      update_by_id (Macp.profile_id r) (set_payload (CP.Mobileconfig cp)) t
  | None =>
      match find (same_team_name teamID (CP.Name cp)) t with
      | Some r =>
          update_by_id (Macp.profile_id r) (set_payload (CP.Mobileconfig cp)) t
      | None =>
          t ++ [new_row t teamID (CP.Identifier cp) (CP.Name cp)
                  (CP.Mobileconfig cp)]
      end
  end.

Definition BulkUpsertMDMAppleConfigProfiles `{Externals} (payload : list CP.t)
  (db : Datastore) : option error * Datastore :=
  if negb (non_empty payload) then (None, db)
  else
    (None,
     set_profiles (fold_left upsert_config_profile payload
                     (mdm_apple_configuration_profiles db)) db).

(** Every profile row has the checksum of its payload. *)
Definition checksums_current `{Externals} (t : list Macp.row) : Prop :=
  forall r, In r t -> Macp.checksum r = MD5 (Macp.mobileconfig r).

(** The same profile under the same name. *)
Definition same_named_profile (r r' : Macp.row) : Prop :=
  same_profile r r' /\ Macp.name r' = Macp.name r.

(** The columns of a ledger row that the upsert of
    [BulkUpsertMDMAppleHostProfiles] does not write on a duplicate key. *)
Definition same_unwritten (a b : Hmap.row) : Prop :=
  Hmap.profile_id a = Hmap.profile_id b
  /\ Hmap.host_uuid a = Hmap.host_uuid b
  /\ Hmap.profile_identifier a = Hmap.profile_identifier b
  /\ Hmap.profile_name a = Hmap.profile_name b
  /\ Hmap.checksum a = Hmap.checksum b
  /\ Hmap.detail a = Hmap.detail b.

(** What the values [vs], in their order, write to a row. *)
Definition written_by (vs : list Hmap.row) (r : Hmap.row) : Hmap.row :=
  fold_left (fun acc v =>
               if same_hmap_key v acc then bulk_upsert_on_dup v acc else acc)
    vs r.

(** The host UUIDs that a call of [BulkSetPendingMDMAppleHostProfiles]
    works on. *)
Definition selected_uuids (hostIDs teamIDs profileIDs : list N)
  (hostUUIDs : list string) (db : Datastore) : list string :=
  if non_empty hostUUIDs then hostUUIDs
  else load_host_uuids hostIDs teamIDs profileIDs db.

(** WHERE (host_uuid, profile_identifier) IN (...), for the pairs to
    install. *)
Definition resent (toInstall : list PP.t) (r : Hmap.row) : bool :=
  existsb (fun p =>
             String.eqb (Hmap.host_uuid r) (PP.HostUUID p)
             && String.eqb (Hmap.profile_identifier r)
                  (PP.ProfileIdentifier p)) toInstall.

(** The ledger a call with one selector leaves. *)
Definition pending_ledger (uuids : list string) (db : Datastore)
  : list Hmap.row :=
  let toInstall := profilesToInstallStmt uuids db in
  let toRemove :=
    profilesToRemoveStmt uuids (map PP.ProfileIdentifier toInstall) db in
  fold_left (upsert_hmap pending_on_dup)
    (map (pending_values MDMAppleOperationTypeInstall) toInstall
     ++ map (pending_values MDMAppleOperationTypeRemove) toRemove)
    (if non_empty toInstall
     then filter (fun r => negb (resent toInstall r))
            (host_mdm_apple_profiles db)
     else host_mdm_apple_profiles db).

(** A ledger row of host H whose profile is in no table any more. *)
Definition orphan_row : Hmap.row :=
  {| Hmap.profile_id := 5; Hmap.host_uuid := "H";
     Hmap.profile_identifier := "I5"; Hmap.profile_name := "N5";
     Hmap.checksum := "c5";
     Hmap.operation_type := Some MDMAppleOperationTypeInstall;
     Hmap.status := Some MDMAppleDeliveryVerifying;
     Hmap.command_uuid := "cmd-5"; Hmap.detail := None |}.

(** ** GetMDMAppleHostsProfilesSummary *)

Module MDMAppleConfigProfilesSummary.
Record t := {
  Verifying : N;
  Failed : N;
  Pending : N
}.
End MDMAppleConfigProfilesSummary.

(** EXISTS (SELECT 1 FROM host_disk_encryption_keys hdek
            WHERE h.id = hdek.host_id AND hdek.decryptable = 1) *)
Definition exists_decryptable_key (h : Host.row) (db : Datastore) : bool :=
  existsb (fun hdek =>
             SQL.holds
               (SQL.and3 (Some (Host.id h =? Hdek.host_id hdek))
                  (SQL.eq3 Bool.eqb (Hdek.decryptable hdek) (Some true))))
    (host_disk_encryption_keys db).

(** EXISTS over the rows of host_mdm_apple_profiles (alias hmap) WHERE
    h.uuid = hmap.host_uuid AND the condition given. *)
Definition exists_hmap (h : Host.row) (db : Datastore)
  (cond : Hmap.row -> SQL.tri) : bool :=
  existsb (fun hmap =>
             SQL.holds
               (SQL.and3
                  (Some (String.eqb (Host.uuid h) (Hmap.host_uuid hmap)))
                  (cond hmap)))
    (host_mdm_apple_profiles db).

Definition subqueryHostsMacOSSettingsStatusFailing (h : Host.row)
  (db : Datastore) : bool :=
  exists_hmap h db (fun hmap =>
    SQL.eq3 status_eqb (Hmap.status hmap) (Some MDMAppleDeliveryFailed)).

Definition subqueryHostsMacOSSettingsStatusPending `{Externals} (h : Host.row)
  (db : Datastore) : bool :=
  exists_hmap h db (fun hmap =>
    SQL.and3
      (SQL.or3 (SQL.is_null (Hmap.status hmap))
      (SQL.or3 (SQL.eq3 status_eqb (Hmap.status hmap)
                  (Some MDMAppleDeliveryPending))
         (SQL.and3 (Some (String.eqb (Hmap.profile_identifier hmap)
                            FleetFileVaultPayloadIdentifier))
         (SQL.and3 (SQL.eq3 status_eqb (Hmap.status hmap)
                      (Some MDMAppleDeliveryVerifying))
         (SQL.and3 (SQL.eq3 op_eqb (Hmap.operation_type hmap)
                      (Some MDMAppleOperationTypeInstall))
                   (Some (negb (exists_decryptable_key h db))))))))
      (Some (negb
               (exists_hmap h db (fun hmap2 =>
                  SQL.eq3 status_eqb (Hmap.status hmap2)
                    (Some MDMAppleDeliveryFailed)))))).

Definition subqueryHostsMacOSSetttingsStatusVerifying `{Externals}
  (h : Host.row) (db : Datastore) : bool :=
  exists_hmap h db (fun hmap =>
    SQL.and3 (SQL.eq3 status_eqb (Hmap.status hmap)
                (Some MDMAppleDeliveryVerifying))
    (SQL.and3
       (SQL.or3 (Some (negb (String.eqb (Hmap.profile_identifier hmap)
                               FleetFileVaultPayloadIdentifier)))
                (Some (exists_decryptable_key h db)))
       (Some (negb
                (exists_hmap h db (fun hmap2 =>
                   SQL.or3 (SQL.is_null (Hmap.status hmap2))
                   (SQL.or3 (SQL.neq3 status_eqb (Hmap.status hmap2)
                               (Some MDMAppleDeliveryVerifying))
                      (SQL.and3
                         (Some (String.eqb (Hmap.profile_identifier hmap2)
                                  FleetFileVaultPayloadIdentifier))
                      (SQL.and3 (SQL.eq3 status_eqb (Hmap.status hmap2)
                                   (Some MDMAppleDeliveryVerifying))
                      (SQL.and3 (SQL.eq3 op_eqb (Hmap.operation_type hmap2)
                                   (Some MDMAppleOperationTypeInstall))
                                (Some (negb
                                         (exists_decryptable_key h db))))))
                   ))))))).

(** WHERE h.team_id IS NULL, or h.team_id = ? for a team id above 0. *)
Definition teamFilter (teamID : option N) (h : Host.row) : SQL.tri :=
  match teamID with
  | Some t =>
      if 0 <? t then SQL.eq3 N.eqb (Host.team_id h) (Some t)
      else SQL.is_null (Host.team_id h)
  | None => SQL.is_null (Host.team_id h)
  end.

(** COUNT(CASE WHEN EXISTS (...) THEN 1 END) over the hosts of the team. *)
Definition count_when (sub : Host.row -> bool) (hs : list Host.row) : N :=
  N.of_nat (List.length (filter sub hs)).

Definition GetMDMAppleHostsProfilesSummary `{Externals} (teamID : option N)
  (db : Datastore) : MDMAppleConfigProfilesSummary.t :=
  let hs := filter (fun h => SQL.holds (teamFilter teamID h)) (hosts db) in
  {| MDMAppleConfigProfilesSummary.Failed :=
       count_when (fun h => subqueryHostsMacOSSettingsStatusFailing h db) hs;
     MDMAppleConfigProfilesSummary.Pending :=
       count_when (fun h => subqueryHostsMacOSSettingsStatusPending h db) hs;
     MDMAppleConfigProfilesSummary.Verifying :=
       count_when (fun h => subqueryHostsMacOSSetttingsStatusVerifying h db)
         hs |}.

(** The ledger rows of a host. *)
Definition row_of_host (h : Host.row) (db : Datastore) (r : Hmap.row) : Prop :=
  In r (host_mdm_apple_profiles db) /\ Hmap.host_uuid r = Host.uuid h.

(** ** unionSelectDevices *)

(** godep.Device, with the fields that this package reads. *)
Module Device.
Record t := {
  SerialNumber : string;
  Model : string;
  OpType : string;
  OS : string
}.
End Device.

(** The loop [for i, d := range devices], from index [i] on. *)
Fixpoint unionSelectDevices_from (i : nat) (devices : list Device.t)
  (stmt : string) (args : list string) : string * list string :=
  match devices with
  | [] => (stmt, args)
  | d :: rest =>
      let stmt :=
        if Nat.eqb i 0 then "SELECT ? hardware_serial, ? hardware_model"
        else (stmt ++ " UNION SELECT ?, ?")%string in
      unionSelectDevices_from (S i) rest stmt
        (args ++ [Device.SerialNumber d; Device.Model d])
  end.

Definition unionSelectDevices (devices : list Device.t)
  : string * list string :=
  unionSelectDevices_from 0 devices "" [].

(** The number of [?] in a statement. *)
Fixpoint placeholders (s : string) : nat :=
  match s with
  | EmptyString => 0
  | String c s' =>
      ((if String.eqb (String c "") "?" then 1 else 0) + placeholders s')%nat
  end.

(** ** The EULA

    Table eulas, on its own: no other statement of the package reads it.
    The insert gives every row the id 1, the primary key. *)

Module Eula.
Record row := {
  id : N;
  name : string;
  bytes : string;
  token : string;
  created_at : N
}.
End Eula.

Module MDMAppleEULA.
Record t := {
  Name : string;
  Bytes : string;
  Token : string;
  CreatedAt : N
}.
End MDMAppleEULA.

Definition alreadyExists (kind identifier : string) : error :=
  existsError kind identifier None.

Definition MDMAppleGetEULAMetadata (eulas : list Eula.row)
  : result MDMAppleEULA.t :=
  (* SELECT name, created_at, token FROM eulas WHERE id = 1 *)
  match filter (fun r => Eula.id r =? 1) eulas with
  | [] => Err (notFound "MDMAppleEULA")
  | r :: _ =>
      Ok {| MDMAppleEULA.Name := Eula.name r;
            MDMAppleEULA.Bytes := "";
            MDMAppleEULA.Token := Eula.token r;
            MDMAppleEULA.CreatedAt := Eula.created_at r |}
  end.

Definition MDMAppleGetEULABytes (token : string) (eulas : list Eula.row)
  : result MDMAppleEULA.t :=
  (* SELECT name, bytes FROM eulas WHERE token = ? *)
  match filter (fun r => String.eqb (Eula.token r) token) eulas with
  | [] => Err (notFound "MDMAppleEULA")
  | r :: _ =>
      Ok {| MDMAppleEULA.Name := Eula.name r;
            MDMAppleEULA.Bytes := Eula.bytes r;
            MDMAppleEULA.Token := "";
            MDMAppleEULA.CreatedAt := 0 |}
  end.

(** INSERT INTO eulas (id, name, bytes, token) VALUES (1, ?, ?, ?); [now]
    is the time that the table gives to created_at. *)
Definition MDMAppleInsertEULA (now : N) (eula : MDMAppleEULA.t)
  (eulas : list Eula.row) : option error * list Eula.row :=
  if existsb (fun r => Eula.id r =? 1) eulas
  then (Some (alreadyExists "MDMAppleEULA" (MDMAppleEULA.Token eula)), eulas)
  else (None,
        eulas ++ [ {| Eula.id := 1;
                      Eula.name := MDMAppleEULA.Name eula;
                      Eula.bytes := MDMAppleEULA.Bytes eula;
                      Eula.token := MDMAppleEULA.Token eula;
                      Eula.created_at := now |} ]).

Definition MDMAppleDeleteEULA (token : string) (eulas : list Eula.row)
  : option error * list Eula.row :=
  (* DELETE FROM eulas WHERE token = ? *)
  let '(t, deleted) :=
    delete_where (fun r => String.eqb (Eula.token r) token) eulas in
  if negb (Nat.eqb deleted 1)
  then (Some (notFound "MDMAppleEULA"), t)
  else (None, t).

(** The table as the insert leaves it: one row at most, of id 1. *)
Definition single_eula (eulas : list Eula.row) : Prop :=
  (List.length eulas <= 1)%nat /\ forall r, In r eulas -> Eula.id r = 1.

(** ** What is returned and what is written, field by field

    The statements below name every column that a query returns and every
    column that an update writes, and the rows they are taken from. *)

(** Profile [p] is desired on host [hr]: the profile is of the current
    scope of the host, a darwin host with an enabled Device enrollment. *)
Definition desired_on (db : Datastore) (p : Macp.row) (hr : Host.row)
  : Prop :=
  In p (mdm_apple_configuration_profiles db) /\ In hr (hosts db)
  /\ in_scope hr p /\ enrolled_darwin db hr.

(** [d] is the pair of profile [p] and host [hr]. *)
Definition pair_of (p : Macp.row) (hr : Host.row) (d : PP.t) : Prop :=
  PP.ProfileID d = Macp.profile_id p
  /\ PP.ProfileIdentifier d = Macp.identifier p
  /\ PP.ProfileName d = Macp.name p
  /\ PP.HostUUID d = Host.uuid hr
  /\ PP.Checksum d = Macp.checksum p.

(** [r] is a ledger row of profile [p] on host [hr]. *)
Definition ledger_row_of (p : Macp.row) (hr : Host.row) (r : Hmap.row)
  : Prop :=
  Hmap.profile_id r = Macp.profile_id p /\ Hmap.host_uuid r = Host.uuid hr.

(** The cases in which the pair of [p] and [hr] is to install: no ledger
    row, or a row with another checksum than the profile, or a Remove, or
    an Install with a NULL status, or a NULL operation type. *)
Definition to_install_cases (db : Datastore) (p : Macp.row) (hr : Host.row)
  : Prop :=
  (forall r, In r (host_mdm_apple_profiles db) -> ~ ledger_row_of p hr r)
  \/ exists r, In r (host_mdm_apple_profiles db) /\ ledger_row_of p hr r
       /\ (Hmap.checksum r <> Macp.checksum p
           \/ Hmap.operation_type r = Some MDMAppleOperationTypeRemove
           \/ (Hmap.operation_type r = Some MDMAppleOperationTypeInstall
               /\ Hmap.status r = None)
           \/ Hmap.operation_type r = None).

(** [x] is the ledger row [r] as [ListMDMAppleProfilesToRemove] returns
    it. *)
Definition row_returned (r : Hmap.row) (x : PP.t) : Prop :=
  PP.ProfileID x = Hmap.profile_id r
  /\ PP.ProfileIdentifier x = Hmap.profile_identifier r
  /\ PP.ProfileName x = Hmap.profile_name r
  /\ PP.HostUUID x = Hmap.host_uuid r
  /\ PP.Checksum x = Hmap.checksum r.

(** The ledger row is of a profile that is desired on its host. *)
Definition row_desired (db : Datastore) (r : Hmap.row) : Prop :=
  exists p hr, desired_on db p hr /\ ledger_row_of p hr r.

(** [r'] is the ledger row [r] after the result [profile] was written to
    it: the status, the operation type and the detail are those of the
    result, the other columns those of [r]. *)
Definition result_written (profile : HP.t) (r r' : Hmap.row) : Prop :=
  Hmap.status r' = HP.Status profile
  /\ Hmap.operation_type r' = Some (HP.OperationType profile)
  /\ Hmap.detail r' = Some (HP.Detail profile)
  /\ Hmap.profile_id r' = Hmap.profile_id r
  /\ Hmap.profile_identifier r' = Hmap.profile_identifier r
  /\ Hmap.profile_name r' = Hmap.profile_name r
  /\ Hmap.host_uuid r' = Hmap.host_uuid r
  /\ Hmap.command_uuid r' = Hmap.command_uuid r
  /\ Hmap.checksum r' = Hmap.checksum r.

(** [x] is the profile row [r] edited to the incoming profile [p]: the id,
    the team and the identifier of [r], the name and the payload of [p],
    the checksum of that payload. *)
Definition edited_with `{Externals} (p : CP.t) (r x : Macp.row) : Prop :=
  Macp.profile_id x = Macp.profile_id r
  /\ Macp.team_id x = Macp.team_id r
  /\ Macp.identifier x = Macp.identifier r
  /\ Macp.name x = CP.Name p
  /\ Macp.mobileconfig x = CP.Mobileconfig p
  /\ Macp.checksum x = MD5 (CP.Mobileconfig p).

(** [x] is the profile row [r] with the payload [mc] written to it: the
    id, the team, the identifier and the name of [r], the payload [mc],
    the checksum of [mc]. *)
Definition payload_written `{Externals} (mc : string) (r x : Macp.row)
  : Prop :=
  Macp.profile_id x = Macp.profile_id r
  /\ Macp.team_id x = Macp.team_id r
  /\ Macp.identifier x = Macp.identifier r
  /\ Macp.name x = Macp.name r
  /\ Macp.mobileconfig x = mc
  /\ Macp.checksum x = MD5 mc.

(** The names of the incoming profiles are kept apart: no profile that is
    the last of the list with its identifier has the name of another such
    profile, or of a profile of the scope that the replace keeps, with
    another identifier. *)
Definition names_apart `{Externals} (team : N) (profiles : list CP.t)
  (t : list Macp.row) : Prop :=
  (forall p q, last_with_identifier profiles p ->
               last_with_identifier profiles q ->
               CP.Name p = CP.Name q -> CP.Identifier p = CP.Identifier q)
  /\ (forall p r, last_with_identifier profiles p -> In r t ->
        Macp.team_id r = team ->
        In (Macp.identifier r) (map CP.Identifier profiles)
        \/ In (Macp.identifier r) FleetPayloadIdentifiers ->
        Macp.name r = CP.Name p -> Macp.identifier r = CP.Identifier p).

(** A profile whose name is the name of the identifier index. *)
Definition profile_named_as_index : Macp.row :=
  {| Macp.profile_id := 4; Macp.team_id := 0; Macp.identifier := "I4";
     Macp.name := "idx_mdm_apple_config_prof_team_identifier";
     Macp.mobileconfig := "<plist>d</plist>";
     Macp.checksum := "md5:<plist>d</plist>" |}.

(** [substr] occurs in [s]. *)
Definition occurs (substr s : string) : Prop :=
  exists a b, s = (a ++ substr ++ b)%string.

(** * Properties *)

Unset Implicit Arguments.

(** ** Three-valued logic and joins *)

Lemma op_eqb_eq a b : op_eqb a b = true <-> a = b.
Proof. destruct a, b; simpl; split; congruence. Qed.

Lemma status_eqb_eq a b : status_eqb a b = true <-> a = b.
Proof. destruct a, b; simpl; split; congruence. Qed.

Lemma holds_and3 a b :
  SQL.holds (SQL.and3 a b) = SQL.holds a && SQL.holds b.
Proof. destruct a as [[]|], b as [[]|]; reflexivity. Qed.

Lemma holds_or3 a b :
  SQL.holds (SQL.or3 a b) = SQL.holds a || SQL.holds b.
Proof. destruct a as [[]|], b as [[]|]; reflexivity. Qed.

Lemma holds_Some b : SQL.holds (Some b) = b.
Proof. destruct b; reflexivity. Qed.

Lemma in_left_join {A B} (on : A -> B -> SQL.tri) l r a (o : option B) :
  In (a, o) (SQL.left_join on l r) <->
  In a l /\
  match o with
  | None => forall b, In b r -> SQL.holds (on a b) = false
  | Some b => In b r /\ SQL.holds (on a b) = true
  end.
Proof.
  unfold SQL.left_join. rewrite in_flat_map. split.
  - intros (a' & Ha' & Hin).
    destruct (filter (fun b => SQL.holds (on a' b)) r) as [|m ms] eqn:E.
    + destruct Hin as [Hin | []]. inversion Hin; subst. split; [assumption|].
      intros b Hb. destruct (SQL.holds (on a b)) eqn:Hh; [|reflexivity].
      assert (Hf : In b (filter (fun b => SQL.holds (on a b)) r))
        by (apply filter_In; auto).
      rewrite E in Hf. destruct Hf.
    + apply in_map_iff in Hin. destruct Hin as (b & Heq & Hb).
      inversion Heq; subst. rewrite <- E in Hb. apply filter_In in Hb.
      split; [assumption|exact Hb].
  - intros (Ha & Ho). exists a. split; [assumption|].
    destruct o as [b|].
    + destruct Ho as (Hb & Hh).
      assert (Hf : In b (filter (fun b => SQL.holds (on a b)) r))
        by (apply filter_In; auto).
      destruct (filter (fun b => SQL.holds (on a b)) r) as [|m ms] eqn:E;
        [destruct Hf|].
      apply in_map_iff. exists b. auto.
    + destruct (filter (fun b => SQL.holds (on a b)) r) as [|m ms] eqn:E;
        [left; reflexivity|].
      assert (Hf : In m (filter (fun b => SQL.holds (on a b)) r))
        by (rewrite E; left; reflexivity).
      apply filter_In in Hf. destruct Hf as (Hm & Hh).
      rewrite (Ho m Hm) in Hh. discriminate.
Qed.

Lemma in_right_join {A B} (on : A -> B -> SQL.tri) l r (o : option A) b :
  In (o, b) (SQL.right_join on l r) <->
  In b r /\
  match o with
  | None => forall a, In a l -> SQL.holds (on a b) = false
  | Some a => In a l /\ SQL.holds (on a b) = true
  end.
Proof.
  unfold SQL.right_join. rewrite in_flat_map. split.
  - intros (b' & Hb' & Hin).
    destruct (filter (fun a => SQL.holds (on a b')) l) as [|m ms] eqn:E.
    + destruct Hin as [Hin | []]. inversion Hin; subst. split; [assumption|].
      intros a Ha. destruct (SQL.holds (on a b)) eqn:Hh; [|reflexivity].
      assert (Hf : In a (filter (fun a => SQL.holds (on a b)) l))
        by (apply filter_In; auto).
      rewrite E in Hf. destruct Hf.
    + apply in_map_iff in Hin. destruct Hin as (a & Heq & Ha).
      inversion Heq; subst. rewrite <- E in Ha. apply filter_In in Ha.
      split; [assumption|exact Ha].
  - intros (Hb & Ho). exists b. split; [assumption|].
    destruct o as [a|].
    + destruct Ho as (Ha & Hh).
      assert (Hf : In a (filter (fun a => SQL.holds (on a b)) l))
        by (apply filter_In; auto).
      destruct (filter (fun a => SQL.holds (on a b)) l) as [|m ms] eqn:E;
        [destruct Hf|].
      apply in_map_iff. exists a. auto.
    + destruct (filter (fun a => SQL.holds (on a b)) l) as [|m ms] eqn:E;
        [left; reflexivity|].
      assert (Hf : In m (filter (fun a => SQL.holds (on a b)) l))
        by (rewrite E; left; reflexivity).
      apply filter_In in Hf. destruct Hf as (Hm & Hh).
      rewrite (Ho m Hm) in Hh. discriminate.
Qed.

(** ** The desired state *)

Lemma holds_scope_on hr p : SQL.holds (scope_on hr p) = true <-> in_scope hr p.
Proof.
  unfold scope_on, in_scope.
  destruct (Host.team_id hr) as [t|]; simpl.
  - destruct (N.eqb_spec t (Macp.team_id p)) as [->|Hne]; simpl.
    + split; auto.
    + destruct (Macp.team_id p =? 0); simpl;
        (split; [discriminate|intros [Heq|[Heq _]]; congruence]).
  - destruct (N.eqb_spec (Macp.team_id p) 0) as [->|Hne]; simpl.
    + split; auto.
    + split; [discriminate|intros [Heq|[_ Heq]]; congruence].
Qed.

Lemma in_desired_state_where extra db d :
  In d (desired_state_where extra db) <->
  exists p hr e,
    In p (mdm_apple_configuration_profiles db) /\ In hr (hosts db)
    /\ In e (nano_enrollments db)
    /\ in_scope hr p
    /\ Ne.device_id e = Host.uuid hr
    /\ Host.platform hr = "darwin" /\ Ne.enabled e = true
    /\ Ne.type e = "Device" /\ SQL.holds (extra hr) = true
    /\ d = desired_row p hr.
Proof.
  unfold desired_state_where. rewrite in_flat_map. split.
  - intros (p & Hp & Hin). apply in_flat_map in Hin.
    destruct Hin as (hr & Hhr & Hin). apply filter_In in Hhr.
    destruct Hhr as (Hhr & Hscope). apply in_flat_map in Hin.
    destruct Hin as (e & He & Hin). apply filter_In in He.
    destruct He as (He & Hon).
    destruct (SQL.holds (desired_where extra hr e)) eqn:Hw; [|destruct Hin].
    destruct Hin as [Hin|[]]. unfold desired_where in Hw.
    rewrite !holds_and3, !holds_Some in Hw.
    apply andb_prop in Hw. destruct Hw as (Hpl & Hw).
    apply andb_prop in Hw. destruct Hw as (Hen & Hw).
    apply andb_prop in Hw. destruct Hw as (Hty & Hex).
    unfold enrollment_on in Hon. rewrite holds_Some in Hon.
    exists p, hr, e. repeat split; auto.
    + apply holds_scope_on; assumption.
    + apply String.eqb_eq; assumption.
    + apply String.eqb_eq; assumption.
    + apply String.eqb_eq; assumption.
  - intros (p & hr & e & Hp & Hhr & He & Hscope & Hdev & Hpl & Hen & Hty
            & Hex & ->).
    exists p. split; [assumption|]. apply in_flat_map. exists hr. split.
    + apply filter_In. split; [assumption|]. apply holds_scope_on; assumption.
    + apply in_flat_map. exists e. split.
      * apply filter_In. split; [assumption|]. unfold enrollment_on.
        rewrite holds_Some. apply String.eqb_eq; assumption.
      * unfold desired_where. rewrite !holds_and3, !holds_Some, Hen, Hex.
        apply String.eqb_eq in Hpl, Hty. rewrite Hpl, Hty. left; reflexivity.
Qed.

Lemma in_desired_state db d : In d (desired_state db) <-> desired db d.
Proof.
  unfold desired_state. rewrite in_desired_state_where. unfold desired.
  split.
  - intros (p & hr & e & Hp & Hhr & He & Hscope & Hdev & Hpl & Hen & Hty
            & _ & ->).
    exists p, hr. repeat split; auto. exists e. auto.
  - intros (p & hr & Hp & Hhr & Hscope & (Hpl & e & He & Hdev & Hen & Hty)
            & ->).
    exists p, hr, e. repeat split; auto.
Qed.

Lemma holds_hmap_on d r : SQL.holds (hmap_on d r) = true <-> row_for d r.
Proof.
  unfold hmap_on, row_for. rewrite holds_and3, !holds_Some, andb_true_iff.
  rewrite N.eqb_eq, String.eqb_eq. reflexivity.
Qed.

Lemma hmap_on_false d r : SQL.holds (hmap_on d r) = false <-> ~ row_for d r.
Proof.
  rewrite <- holds_hmap_on. destruct (SQL.holds (hmap_on d r)); split;
    congruence.
Qed.

(** ** ListMDMAppleProfilesToInstall *)

Lemma holds_to_install_where d o :
  SQL.holds (to_install_where d o) = true <->
  match o with
  | None => True
  | Some r =>
      Hmap.checksum r <> PP.Checksum d
      \/ Hmap.operation_type r = Some MDMAppleOperationTypeRemove
      \/ (Hmap.operation_type r = Some MDMAppleOperationTypeInstall
          /\ Hmap.status r = None)
      \/ Hmap.operation_type r = None
  end.
Proof.
  unfold to_install_where, updated_new_or_remove.
  destruct o as [r|]; simpl; [|tauto].
  destruct (String.eqb_spec (Hmap.checksum r) (PP.Checksum d)) as [Heq|Hne];
    simpl.
  - destruct (Hmap.operation_type r) as [[]|], (Hmap.status r) as [st|];
      simpl; split; intros Hx; try discriminate; try reflexivity;
      try (right; right; left; split; reflexivity);
      try (right; left; reflexivity);
      try (right; right; right; reflexivity).
    + destruct Hx as [Hx|[Hx|[[_ Hx]|Hx]]]; congruence.
  - split; [intros _; left; assumption|].
    intros _. destruct (Hmap.operation_type r) as [[]|], (Hmap.status r);
      reflexivity.
Qed.

Lemma in_ListMDMAppleProfilesToInstall db d :
  In d (ListMDMAppleProfilesToInstall db) <-> to_install_rule db d.
Proof.
  unfold ListMDMAppleProfilesToInstall, to_install_rule, no_row.
  rewrite in_map_iff. split.
  - intros ((d' & o) & Heq & Hin). simpl in Heq. subst d'.
    apply filter_In in Hin. destruct Hin as (Hj & Hw). simpl in Hw.
    apply in_left_join in Hj. destruct Hj as (Hd & Ho).
    apply in_desired_state in Hd. split; [assumption|].
    apply holds_to_install_where in Hw.
    destruct o as [r|].
    + right. exists r. destruct Ho as (Hr & Hon).
      apply holds_hmap_on in Hon. auto.
    + left. intros r Hr. apply hmap_on_false. auto.
  - intros (Hd & Hrows). apply in_desired_state in Hd.
    destruct Hrows as [Hnone|(r & Hr & Hfor & Hcase)].
    + exists (d, None). split; [reflexivity|]. apply filter_In. split.
      * apply in_left_join. split; [assumption|].
        intros r Hr. apply hmap_on_false. auto.
      * apply holds_to_install_where. exact I.
    + exists (d, Some r). split; [reflexivity|]. apply filter_In. split.
      * apply in_left_join. split; [assumption|]. split; [assumption|].
        apply holds_hmap_on; assumption.
      * apply holds_to_install_where. exact Hcase.
Qed.

(** The pair of a profile and a host, as a record and by its fields. *)
Lemma pair_of_desired_row p hr d : pair_of p hr d <-> d = desired_row p hr.
Proof.
  unfold pair_of, desired_row. destruct d; simpl. split.
  - intros (-> & -> & -> & -> & ->). reflexivity.
  - intros Heq. inversion Heq. repeat split.
Qed.

(** C1 (as the query has it).  [ListMDMAppleProfilesToInstall] returns
    exactly the pairs of a profile and a host, with the id, identifier,
    name and checksum of the profile and the UUID of the host, such that
    the profile belongs to the current scope of the host, the host is a
    darwin host with an enabled Device enrollment, and there is no ledger
    row of that profile id and host UUID, or a row of them has another
    checksum than the profile, or operation type Remove whatever its
    status, or operation type Install with a NULL status, or a NULL
    operation type.  The pair of a profile and a host whose ledger rows are
    all Install with status Pending, Verifying or Failed and the checksum
    of the profile is not returned. *)
Theorem ListMDMAppleProfilesToInstall_rule (db : Datastore) :
  (forall d,
     In d (ListMDMAppleProfilesToInstall db) <->
     exists p hr, desired_on db p hr /\ pair_of p hr d
                  /\ to_install_cases db p hr)
  /\ (forall p hr d,
        pair_of p hr d ->
        (exists r, In r (host_mdm_apple_profiles db) /\ ledger_row_of p hr r) ->
        (forall r, In r (host_mdm_apple_profiles db) -> ledger_row_of p hr r ->
           Hmap.operation_type r = Some MDMAppleOperationTypeInstall
           /\ Hmap.status r <> None
           /\ Hmap.checksum r = Macp.checksum p) ->
        ~ In d (ListMDMAppleProfilesToInstall db)).
Proof.
  split.
  - intros d. rewrite in_ListMDMAppleProfilesToInstall.
    unfold to_install_rule, desired, desired_on, to_install_cases, no_row,
      row_for, ledger_row_of.
    split.
    + intros ((p & hr & Hp & Hhr & Hs & He & ->) & Hrows).
      exists p, hr. split; [auto|].
      split; [apply pair_of_desired_row; reflexivity|]. exact Hrows.
    + intros (p & hr & (Hp & Hhr & Hs & He) & Hpair & Hrows).
      apply pair_of_desired_row in Hpair. subst d.
      split; [exists p, hr; auto|]. exact Hrows.
  - intros p hr d Hpair (r0 & Hr0 & Hfor0) Hall Hin.
    apply pair_of_desired_row in Hpair. subst d.
    apply in_ListMDMAppleProfilesToInstall in Hin.
    destruct Hin as (_ & [Hnone|(r & Hr & Hfor & Hcase)]).
    + exact (Hnone r0 Hr0 Hfor0).
    + destruct (Hall r Hr Hfor) as (Hop & Hst & Hck). simpl in Hcase.
      destruct Hcase as [Hc|[Hc|[[_ Hc]|Hc]]]; congruence.
Qed.

(** C1 as stated fails: a ledger row with a NULL operation type, status
    Pending and the checksum of the profile meets none of (a) to (d), and
    the pair is returned. *)
Lemma ListMDMAppleProfilesToInstall_stated_fails :
  ~ (forall db d,
       In d (ListMDMAppleProfilesToInstall db) <-> to_install_stated db d).
Proof.
  intros Hclaim.
  pose (db := store_with [ledger_row "c1" None (Some MDMAppleDeliveryPending)]).
  assert (Hin : In pair_H_N1 (ListMDMAppleProfilesToInstall db))
    by (vm_compute; left; reflexivity).
  apply Hclaim in Hin. destruct Hin as (_ & [Hnone|(r & Hr & _ & Hcase)]).
  - apply (Hnone (ledger_row "c1" None (Some MDMAppleDeliveryPending))).
    + left; reflexivity.
    + split; reflexivity.
  - destruct Hr as [<-|[]]. simpl in Hcase.
    destruct Hcase as [Hc|[Hc|[Hc _]]]; try discriminate.
    apply Hc; reflexivity.
Qed.

(** ** ListMDMAppleProfilesToRemove *)

Lemma holds_to_remove_where o r :
  SQL.holds (to_remove_where o r) = true <->
  o = None /\ ~ removal_in_flight r.
Proof.
  unfold to_remove_where, not_in_A, removal_in_flight.
  destruct o as [d|]; simpl.
  - split; [discriminate|intros [Hx _]; discriminate].
  - destruct (Hmap.operation_type r) as [[]|], (Hmap.status r) as [st|];
      simpl; split; intros Hx; try discriminate; try reflexivity;
      try (split; [reflexivity|intros [Ha Hb]; congruence]).
    destruct Hx as (_ & Hx). exfalso. apply Hx. split; congruence.
Qed.

Lemma in_ListMDMAppleProfilesToRemove db x :
  In x (ListMDMAppleProfilesToRemove db) <->
  exists r, In r (host_mdm_apple_profiles db) /\ x = payload_of_hmap r
            /\ ~ still_desired db r /\ ~ removal_in_flight r.
Proof.
  unfold ListMDMAppleProfilesToRemove. rewrite in_map_iff. split.
  - intros ((o & r) & Heq & Hin). simpl in Heq. subst x.
    apply filter_In in Hin. destruct Hin as (Hj & Hw). simpl in Hw.
    apply holds_to_remove_where in Hw. destruct Hw as (-> & Hnf).
    apply in_right_join in Hj. destruct Hj as (Hr & Hno).
    exists r. repeat split; auto.
    intros (d & Hd & Hfor). apply in_desired_state in Hd.
    specialize (Hno d Hd). apply hmap_on_false in Hno. auto.
  - intros (r & Hr & -> & Hnd & Hnf).
    exists (None, r). split; [reflexivity|]. apply filter_In. split.
    + apply in_right_join. split; [assumption|].
      intros d Hd. apply hmap_on_false. intros Hfor. apply Hnd.
      exists d. split; [apply in_desired_state; assumption|assumption].
    + apply holds_to_remove_where. auto.
Qed.

(** A ledger row as [ListMDMAppleProfilesToRemove] returns it, as a
    record and by its fields. *)
Lemma row_returned_payload r x : row_returned r x <-> x = payload_of_hmap r.
Proof.
  unfold row_returned, payload_of_hmap. destruct x; simpl. split.
  - intros (-> & -> & -> & -> & ->). reflexivity.
  - intros Heq. inversion Heq. repeat split.
Qed.

Lemma row_desired_still db r : row_desired db r <-> still_desired db r.
Proof.
  unfold row_desired, still_desired, desired, desired_on, ledger_row_of,
    row_for.
  split.
  - intros (p & hr & (Hp & Hhr & Hs & He) & Hrow).
    exists (desired_row p hr). split; [exists p, hr; auto|exact Hrow].
  - intros (d & (p & hr & Hp & Hhr & Hs & He & ->) & Hrow).
    exists p, hr. split; [auto|exact Hrow].
Qed.

(** C2.  [ListMDMAppleProfilesToRemove] returns exactly the ledger rows,
    each with its profile id, identifier, name, host UUID and checksum,
    whose profile id and host UUID are those of no profile desired for the
    current scope of an enrolled darwin host, except the rows whose
    operation type is Remove with a status that is not NULL; a Remove row
    of a pair no longer desired whose status is NULL is returned. *)
Theorem ListMDMAppleProfilesToRemove_rule (db : Datastore) :
  (forall x,
     In x (ListMDMAppleProfilesToRemove db) <->
     exists r, In r (host_mdm_apple_profiles db) /\ row_returned r x
               /\ ~ (exists p hr, desired_on db p hr /\ ledger_row_of p hr r)
               /\ ~ (Hmap.operation_type r = Some MDMAppleOperationTypeRemove
                     /\ Hmap.status r <> None))
  /\ (forall r,
        In r (host_mdm_apple_profiles db)
        /\ ~ (exists p hr, desired_on db p hr /\ ledger_row_of p hr r)
        /\ Hmap.operation_type r = Some MDMAppleOperationTypeRemove
        /\ Hmap.status r = None ->
        exists x, In x (ListMDMAppleProfilesToRemove db)
                  /\ row_returned r x).
Proof.
  assert (Hrule : forall x,
            In x (ListMDMAppleProfilesToRemove db) <->
            exists r, In r (host_mdm_apple_profiles db) /\ row_returned r x
                      /\ ~ row_desired db r /\ ~ removal_in_flight r).
  { intros x. rewrite in_ListMDMAppleProfilesToRemove.
    split; intros (r & Hr & Hx & Hnd & Hnf); exists r.
    - split; [assumption|].
      split; [apply row_returned_payload; assumption|].
      split; [|assumption].
      intros Hd. apply Hnd. apply row_desired_still. assumption.
    - split; [assumption|].
      split; [apply row_returned_payload; assumption|].
      split; [|assumption].
      intros Hd. apply Hnd. apply row_desired_still. assumption. }
  split; [exact Hrule|].
  intros r (Hr & Hnd & Hop & Hst).
  exists (payload_of_hmap r). split; [|apply row_returned_payload; reflexivity].
  apply Hrule. exists r. split; [assumption|].
  split; [apply row_returned_payload; reflexivity|]. split; [exact Hnd|].
  intros (_ & Hne). congruence.
Qed.

(** ** UpdateOrDeleteHostMDMAppleProfile *)

Lemma deletes_row_rule `{Externals} (profile : HP.t) :
  deletes_row profile = true <-> deletes_rule profile.
Proof.
  unfold deletes_row, deletes_rule. rewrite andb_true_iff, op_eqb_eq.
  destruct (HP.Status profile) as [st|].
  - rewrite orb_true_iff, status_eqb_eq. split.
    + intros (Hop & [->|Hig]); repeat split; auto; discriminate.
    + intros (Hop & _ & [Hst|Hig]); split; auto.
      left. congruence.
  - split; [intros (_ & Hx); discriminate|].
    intros (_ & Hx & _). congruence.
Qed.

Lemma holds_host_command profile r :
  host_command profile r = true <-> keyed_by profile r.
Proof.
  unfold host_command, keyed_by.
  rewrite andb_true_iff, !String.eqb_eq. reflexivity.
Qed.

(** A ledger row with a result written to it, as a record and by its
    fields. *)
Lemma result_written_set_result profile r r' :
  result_written profile r r' <-> r' = set_result profile r.
Proof.
  unfold result_written, set_result. destruct r'; simpl. split.
  - intros (-> & -> & -> & -> & -> & -> & -> & -> & ->). reflexivity.
  - intros Heq. inversion Heq. repeat split.
Qed.

(** C5 (as the function has it).  [UpdateOrDeleteHostMDMAppleProfile]
    deletes the ledger rows keyed by the host and command UUID of the
    result exactly when the operation type of the result is Remove, its
    status is not nil, and the status is Verifying or the error reported is
    one to ignore; in every other case each such row stays, with the
    status, the operation type and the detail of the result in it and its
    other columns as they were.  Rows of other keys are as before, and the
    call returns no error. *)
Theorem UpdateOrDeleteHostMDMAppleProfile_rule `{Externals} (profile : HP.t)
  (db : Datastore) :
  let out := UpdateOrDeleteHostMDMAppleProfile profile db in
  let ledger := host_mdm_apple_profiles (snd out) in
  fst out = None
  /\ (deletes_rule profile ->
      forall r, In r ledger <->
                In r (host_mdm_apple_profiles db) /\ ~ keyed_by profile r)
  /\ (~ deletes_rule profile ->
      forall r', In r' ledger <->
        exists r, In r (host_mdm_apple_profiles db)
                  /\ ((keyed_by profile r /\ result_written profile r r')
                      \/ (~ keyed_by profile r /\ r' = r))).
Proof.
  unfold UpdateOrDeleteHostMDMAppleProfile.
  destruct (deletes_row profile) eqn:Hd; simpl.
  - apply deletes_row_rule in Hd. split; [reflexivity|]. split.
    + intros _ r. rewrite filter_In, negb_true_iff.
      rewrite <- holds_host_command.
      destruct (host_command profile r); split; intros (Hr & Hx);
        split; auto; congruence.
    + intros Hn. contradiction.
  - split; [reflexivity|]. split.
    + intros Hy. apply deletes_row_rule in Hy. congruence.
    + intros _ r'. rewrite in_map_iff. split.
      * intros (r & Heq & Hr). exists r. split; [assumption|].
        destruct (host_command profile r) eqn:Hk.
        -- left. split; [apply holds_host_command; assumption|].
           apply result_written_set_result. congruence.
        -- right. split; [|congruence].
           rewrite <- holds_host_command. congruence.
      * intros (r & Hr & [(Hk & Hw)|(Hk & ->)]); exists r; split; auto.
        -- apply result_written_set_result in Hw. subst r'.
           apply holds_host_command in Hk. rewrite Hk. reflexivity.
        -- rewrite <- holds_host_command in Hk.
           destruct (host_command profile r); congruence.
Qed.

(** C5 as stated fails: a Remove result whose status is nil and whose
    error is one to ignore leaves its row in the ledger. *)
Lemma UpdateOrDeleteHostMDMAppleProfile_stated_fails :
  ~ (forall (E : Externals) profile db,
       deletes_stated profile ->
       forall r,
         In r (host_mdm_apple_profiles
                 (snd (UpdateOrDeleteHostMDMAppleProfile profile db))) ->
         ~ keyed_by profile r).
Proof.
  intros Hclaim.
  pose (profile := result_for MDMAppleOperationTypeRemove None
                     "MDMClientError (89): Profile not found").
  pose (db := store_with [ledger_row "c1" (Some MDMAppleOperationTypeRemove)
                            (Some MDMAppleDeliveryPending)]).
  refine (Hclaim sample_externals profile db _
            (set_result profile
               (ledger_row "c1" (Some MDMAppleOperationTypeRemove)
                  (Some MDMAppleDeliveryPending))) _ _).
  - split; [reflexivity|right; reflexivity].
  - vm_compute. left; reflexivity.
  - split; reflexivity.
Qed.

(** ** UpdateHostTablesOnMDMUnenroll *)

Lemma host_id_of_uuid_first uuid db hr :
  In hr (hosts db) -> Host.uuid hr = uuid ->
  (forall h', In h' (hosts db) -> Host.uuid h' = uuid ->
              Host.id h' = Host.id hr) ->
  host_id_of_uuid uuid db = Ok (Host.id hr, db).
Proof.
  intros Hin Hu Huniq. unfold host_id_of_uuid.
  destruct (filter (fun h0 => String.eqb (Host.uuid h0) uuid) (hosts db))
    as [|h0 rest] eqn:Hf.
  - assert (Hx : In hr (filter (fun h0 => String.eqb (Host.uuid h0) uuid)
                          (hosts db)))
      by (apply filter_In; split; [assumption|apply String.eqb_eq; assumption]).
    rewrite Hf in Hx. destruct Hx.
  - assert (Hx : In h0 (filter (fun h0 => String.eqb (Host.uuid h0) uuid)
                          (hosts db)))
      by (rewrite Hf; left; reflexivity).
    apply filter_In in Hx. destruct Hx as (Hx & He).
    apply String.eqb_eq in He. rewrite (Huniq h0 Hx He). reflexivity.
Qed.

(** C6.  For a host that the UUID identifies, [UpdateHostTablesOnMDMUnenroll]
    succeeds, and in the store it leaves no host_mdm_apple_profiles row has
    the UUID of the host and no host_disk_encryption_keys row (and no
    host_mdm row) has its id: the deletions are part of the one
    transaction of the call.  The desired state, the hosts and the
    enrollments are as before. *)
Theorem UpdateHostTablesOnMDMUnenroll_deletes (db : Datastore) (uuid : string)
  (hr : Host.row) :
  In hr (hosts db) -> Host.uuid hr = uuid ->
  (forall h', In h' (hosts db) -> Host.uuid h' = uuid ->
              Host.id h' = Host.id hr) ->
  exists db',
    UpdateHostTablesOnMDMUnenroll uuid db = (None, db')
    /\ (forall r, In r (host_mdm_apple_profiles db') ->
                  Hmap.host_uuid r <> uuid)
    /\ (forall k, In k (host_disk_encryption_keys db') ->
                  Hdek.host_id k <> Host.id hr)
    /\ (forall m, In m (host_mdm db') -> HostMdm.host_id m <> Host.id hr)
    /\ (forall r, In r (host_mdm_apple_profiles db) ->
                  Hmap.host_uuid r <> uuid ->
                  In r (host_mdm_apple_profiles db'))
    /\ (forall k, In k (host_disk_encryption_keys db) ->
                  Hdek.host_id k <> Host.id hr ->
                  In k (host_disk_encryption_keys db'))
    /\ mdm_apple_configuration_profiles db'
       = mdm_apple_configuration_profiles db
    /\ hosts db' = hosts db
    /\ nano_enrollments db' = nano_enrollments db.
Proof.
  intros Hin Hu Huniq.
  unfold UpdateHostTablesOnMDMUnenroll, withTx, bind.
  rewrite (host_id_of_uuid_first uuid db hr Hin Hu Huniq).
  unfold exec, deleteMDMAppleProfilesForHost, exec; simpl.
  eexists. split; [reflexivity|]. simpl.
  repeat split.
  - intros r Hr. apply filter_In in Hr. destruct Hr as (_ & Hr).
    apply negb_true_iff in Hr. apply String.eqb_neq in Hr. assumption.
  - intros k Hk. apply filter_In in Hk. destruct Hk as (_ & Hk).
    apply negb_true_iff in Hk. apply N.eqb_neq in Hk. assumption.
  - intros m Hm. apply filter_In in Hm. destruct Hm as (_ & Hm).
    apply negb_true_iff in Hm. apply N.eqb_neq in Hm. assumption.
  - intros r Hr Hne. apply filter_In. split; [assumption|].
    apply negb_true_iff. apply String.eqb_neq. assumption.
  - intros k Hk Hne. apply filter_In. split; [assumption|].
    apply negb_true_iff. apply N.eqb_neq. assumption.
Qed.

Lemma UpdateHostTablesOnMDMUnenroll_deletes_witness :
  exists db',
    UpdateHostTablesOnMDMUnenroll "H"
      (store_with [ledger_row "c1" (Some MDMAppleOperationTypeInstall)
                     (Some MDMAppleDeliveryVerifying)]) = (None, db')
    /\ host_mdm_apple_profiles db' = []
    /\ host_disk_encryption_keys db' = [].
Proof.
  destruct (UpdateHostTablesOnMDMUnenroll_deletes
              (store_with [ledger_row "c1" (Some MDMAppleOperationTypeInstall)
                             (Some MDMAppleDeliveryVerifying)])
              "H" host_H) as (db' & Hrun & _).
  - left; reflexivity.
  - reflexivity.
  - intros h' [<-|[]] _. reflexivity.
  - exists db'. split; [exact Hrun|].
    vm_compute in Hrun. inversion Hrun. split; reflexivity.
Defined.

(** An unenrollment that fails leaves the store as it was. *)
Lemma UpdateHostTablesOnMDMUnenroll_atomic db uuid e db' :
  UpdateHostTablesOnMDMUnenroll uuid db = (Some e, db') -> db' = db.
Proof.
  unfold UpdateHostTablesOnMDMUnenroll, withTx.
  match goal with
  | |- context [match ?c with _ => _ end] => destruct c as [[u d]|e']
  end; intros Heq; inversion Heq; reflexivity.
Qed.

(** ** CleanupDiskEncryptionKeysOnTeamChange *)

Lemma filevault_lookup `{Externals} db tmID :
  (has_filevault_profile db tmID <->
   exists c, getMDMAppleConfigProfileByTeamAndIdentifierDB tmID
               FleetFileVaultPayloadIdentifier db = Ok (c, db))
  /\ (~ has_filevault_profile db tmID <->
      getMDMAppleConfigProfileByTeamAndIdentifierDB tmID
        FleetFileVaultPayloadIdentifier db
      = Err (notFound "MDMAppleConfigProfile")).
Proof.
  unfold getMDMAppleConfigProfileByTeamAndIdentifierDB, has_filevault_profile.
  fold (scope_of tmID).
  destruct (filter (same_team_identifier (scope_of tmID)
                      FleetFileVaultPayloadIdentifier)
              (mdm_apple_configuration_profiles db)) as [|p rest] eqn:Hf.
  - assert (Hno : ~ exists p, In p (mdm_apple_configuration_profiles db)
                    /\ Macp.team_id p = scope_of tmID
                    /\ Macp.identifier p = FleetFileVaultPayloadIdentifier).
    { intros (p & Hp & Ht & Hi).
      assert (Hx : In p (filter (same_team_identifier (scope_of tmID)
                                   FleetFileVaultPayloadIdentifier)
                           (mdm_apple_configuration_profiles db))).
      { apply filter_In. split; [assumption|]. unfold same_team_identifier.
        rewrite Ht, Hi, N.eqb_refl, String.eqb_refl. reflexivity. }
      rewrite Hf in Hx. destruct Hx. }
    split; split; intros Hx; try contradiction; try reflexivity;
      try assumption.
    destruct Hx as (c & Hc). discriminate.
  - assert (Hyes : exists p, In p (mdm_apple_configuration_profiles db)
                     /\ Macp.team_id p = scope_of tmID
                     /\ Macp.identifier p = FleetFileVaultPayloadIdentifier).
    { exists p.
      assert (Hx : In p (filter (same_team_identifier (scope_of tmID)
                                   FleetFileVaultPayloadIdentifier)
                           (mdm_apple_configuration_profiles db)))
        by (rewrite Hf; left; reflexivity).
      apply filter_In in Hx. destruct Hx as (Hp & Hk).
      unfold same_team_identifier in Hk. apply andb_prop in Hk.
      destruct Hk as (Ht & Hi). apply N.eqb_eq in Ht.
      apply String.eqb_eq in Hi. auto. }
    split; split; intros Hx; try assumption; try contradiction;
      try discriminate.
    eexists; reflexivity.
Qed.

Lemma set_hdek_same db : set_hdek (host_disk_encryption_keys db) db = db.
Proof. destruct db; reflexivity. Qed.

Lemma existsb_N_In x l : existsb (N.eqb x) l = true <-> In x l.
Proof.
  rewrite existsb_exists. split.
  - intros (y & Hy & Hxy). apply N.eqb_eq in Hxy. subst. assumption.
  - intros Hx. exists x. split; [assumption|apply N.eqb_refl].
Qed.

Lemma existsb_string_In x l : existsb (String.eqb x) l = true <-> In x l.
Proof.
  rewrite existsb_exists. split.
  - intros (y & Hy & Hxy). apply String.eqb_eq in Hxy. subst. assumption.
  - intros Hx. exists x. split; [assumption|apply String.eqb_refl].
Qed.

Lemma bulkDeleteHostDiskEncryptionKeysDB_spec hostIDs db :
  exists db',
    bulkDeleteHostDiskEncryptionKeysDB hostIDs db = Ok (tt, db')
    /\ set_hdek (host_disk_encryption_keys db) db' = db
    /\ forall k, In k (host_disk_encryption_keys db') <->
                 In k (host_disk_encryption_keys db)
                 /\ ~ In (Hdek.host_id k) hostIDs.
Proof.
  unfold bulkDeleteHostDiskEncryptionKeysDB.
  destruct hostIDs as [|i ids]; simpl.
  - exists db. split; [reflexivity|]. split; [apply set_hdek_same|].
    intros k. tauto.
  - eexists. split; [reflexivity|]. split; [destruct db; reflexivity|].
    intros k. simpl. rewrite filter_In, negb_true_iff.
    change ((Hdek.host_id k =? i) || existsb (N.eqb (Hdek.host_id k)) ids)
      with (existsb (N.eqb (Hdek.host_id k)) (i :: ids)).
    rewrite <- (existsb_N_In (Hdek.host_id k) (i :: ids)).
    destruct (existsb (N.eqb (Hdek.host_id k)) (i :: ids)); split;
      intros (Hk & Hx); split; auto; congruence.
Qed.

(** C7.  [CleanupDiskEncryptionKeysOnTeamChange] deletes the disk
    encryption key rows of the hosts in [hostIDs] when the destination scope
    has no profile with the FileVault identifier, and only then: with such
    a profile the store is as before.  Key rows of other hosts and the
    other tables are never touched, and the call returns no error. *)
Theorem CleanupDiskEncryptionKeysOnTeamChange_rule `{Externals}
  (hostIDs : list N) (newTeamID : option N) (db : Datastore) :
  let out := CleanupDiskEncryptionKeysOnTeamChange hostIDs newTeamID db in
  fst out = None
  /\ set_hdek (host_disk_encryption_keys db) (snd out) = db
  /\ (~ has_filevault_profile db newTeamID ->
      forall k, In k (host_disk_encryption_keys (snd out)) <->
                In k (host_disk_encryption_keys db)
                /\ ~ In (Hdek.host_id k) hostIDs)
  /\ (has_filevault_profile db newTeamID -> snd out = db).
Proof.
  unfold CleanupDiskEncryptionKeysOnTeamChange, withTx,
    cleanupDiskEncryptionKeysOnTeamChangeDB.
  destruct (filevault_lookup db newTeamID) as (Hyes & Hno).
  destruct (getMDMAppleConfigProfileByTeamAndIdentifierDB newTeamID
              FleetFileVaultPayloadIdentifier db) as [[c d]|e] eqn:Hget.
  - assert (Hhas : has_filevault_profile db newTeamID).
    { apply Hyes.
      unfold getMDMAppleConfigProfileByTeamAndIdentifierDB in Hget.
      destruct (filter _ _); inversion Hget. eexists; reflexivity. }
    simpl. destruct db; repeat split; auto. intros Hn. contradiction.
  - assert (He : e = notFound "MDMAppleConfigProfile").
    { unfold getMDMAppleConfigProfileByTeamAndIdentifierDB in Hget.
      destruct (filter _ _); inversion Hget. reflexivity. }
    subst e. simpl.
    assert (Hnh : ~ has_filevault_profile db newTeamID)
      by (apply Hno; reflexivity).
    destruct (bulkDeleteHostDiskEncryptionKeysDB_spec hostIDs db)
      as (db' & Hrun & Hsame & Hkeys).
    rewrite Hrun. simpl.
    split; [reflexivity|]. split; [exact Hsame|].
    split; [intros _ k; apply Hkeys|intros Hhas; contradiction].
Qed.

(** ** BulkSetPendingMDMAppleHostProfiles: one selector at most *)

(** C10.  With two or more of the four selectors not empty
    [BulkSetPendingMDMAppleHostProfiles] returns the error "only one of
    hostIDs, teamIDs, profileIDs or hostUUIDs can be provided" and the
    store is as before; with the four of them empty it returns nil and the
    store is as before. *)
Theorem BulkSetPendingMDMAppleHostProfiles_selectors
  (hostIDs teamIDs profileIDs : list N) (hostUUIDs : list string)
  (db : Datastore) :
  ((2 <= selectors hostIDs teamIDs profileIDs hostUUIDs)%nat ->
   BulkSetPendingMDMAppleHostProfiles hostIDs teamIDs profileIDs hostUUIDs db
   = (Some only_one_error, db))
  /\ BulkSetPendingMDMAppleHostProfiles [] [] [] [] db = (None, db).
Proof.
  split; [|reflexivity].
  destruct hostIDs, teamIDs, profileIDs, hostUUIDs;
    unfold selectors; simpl; intros Hsel; try lia; reflexivity.
Qed.

(** ** Errors of the profile store *)

Lemma existsb_same_team_identifier team ident t :
  existsb (same_team_identifier team ident) t = true <->
  exists r, In r t /\ Macp.team_id r = team /\ Macp.identifier r = ident.
Proof.
  rewrite existsb_exists. unfold same_team_identifier.
  split; intros (r & Hr & Hk); exists r; split; auto.
  - apply andb_prop in Hk. destruct Hk as (Ht & Hi).
    apply N.eqb_eq in Ht. apply String.eqb_eq in Hi. auto.
  - destruct Hk as (-> & ->). rewrite N.eqb_refl, String.eqb_refl.
    reflexivity.
Qed.

Lemma existsb_same_team_name team nm t :
  existsb (same_team_name team nm) t = true <->
  exists r, In r t /\ Macp.team_id r = team /\ Macp.name r = nm.
Proof.
  rewrite existsb_exists. unfold same_team_name.
  split; intros (r & Hr & Hk); exists r; split; auto.
  - apply andb_prop in Hk. destruct Hk as (Ht & Hi).
    apply N.eqb_eq in Ht. apply String.eqb_eq in Hi. auto.
  - destruct Hk as (-> & ->). rewrite N.eqb_refl, String.eqb_refl.
    reflexivity.
Qed.

(** [Contains] finds exactly the strings that occur. *)
Lemma substring_occurs s :
  forall n t, substring n (String.length t) s = t -> occurs t s.
Proof.
  induction s as [|c s IH]; intros n t Hsub.
  - exists "", "". destruct n, t; simpl in *; congruence.
  - destruct n as [|n].
    + exists "". simpl. clear IH. revert t Hsub.
      generalize (String c s). intros u.
      induction u as [|d u IHu]; intros t Hsub.
      * destruct t; simpl in *; [exists ""; reflexivity|discriminate].
      * destruct t as [|e t]; simpl in *; [exists (String d u); reflexivity|].
        inversion Hsub as [[Hd Ht]]. destruct (IHu t Ht) as (b & Hb).
        exists b. rewrite Ht. congruence.
    + simpl in Hsub. destruct (IH n t Hsub) as (a & b & ->).
      exists (String c a), b. reflexivity.
Qed.

Lemma substring_middle a t b :
  substring (String.length a) (String.length t) (a ++ t ++ b)%string = t.
Proof.
  induction a as [|c a IH]; simpl; [|exact IH].
  induction t as [|d t IHt]; simpl.
  - destruct b; reflexivity.
  - rewrite IHt. reflexivity.
Qed.

Lemma Contains_occurs s substr :
  Contains s substr = true <-> occurs substr s.
Proof.
  unfold Contains. split.
  - destruct (index 0 substr s) as [m|] eqn:Hi; [|discriminate].
    intros _. apply index_correct1 in Hi. apply (substring_occurs _ _ _ Hi).
  - intros (a & b & ->).
    destruct (index 0 substr (a ++ substr ++ b)%string) as [m|] eqn:Hi;
      [reflexivity|].
    exfalso. destruct substr as [|c u].
    + apply index_correct4 in Hi. lia.
    + apply (index_correct3 0 (String.length a) _ _ Hi);
        [discriminate|lia|].
      apply substring_middle.
Qed.

Lemma Contains_not_occurs s substr :
  Contains s substr = false <-> ~ occurs substr s.
Proof.
  rewrite <- Contains_occurs. destruct (Contains s substr); split;
    congruence.
Qed.

(** What [NewMDMAppleConfigProfile] returns, by the keys in the table. *)
Lemma NewMDMAppleConfigProfile_cases `{Externals} cp db :
  Contains (DuplicateEntryError idx_team_identifier (scope_of (CP.TeamID cp))
              (CP.Identifier cp)) idx_team_identifier = true ->
  Contains (DuplicateEntryError idx_team_name (scope_of (CP.TeamID cp))
              (CP.Name cp)) idx_team_name = true ->
  (same_scope_identifier db cp ->
   NewMDMAppleConfigProfile cp db
   = (Err (existsError "MDMAppleConfigProfile.PayloadIdentifier"
             (CP.Identifier cp) (CP.TeamID cp)), db))
  /\ (~ same_scope_identifier db cp -> same_scope_name db cp ->
      NewMDMAppleConfigProfile cp db
      = (Err (if Contains
                   (DuplicateEntryError idx_team_name
                      (scope_of (CP.TeamID cp)) (CP.Name cp))
                   idx_team_identifier
              then existsError "MDMAppleConfigProfile.PayloadIdentifier"
                     (CP.Identifier cp) (CP.TeamID cp)
              else existsError "MDMAppleConfigProfile.PayloadDisplayName"
                     (CP.Name cp) (CP.TeamID cp)), db))
  /\ (~ same_scope_identifier db cp -> ~ same_scope_name db cp ->
      exists new, fst (NewMDMAppleConfigProfile cp db) = Ok new).
Proof.
  intros Hkey_i Hkey_n.
  unfold NewMDMAppleConfigProfile, insert_profile,
    same_scope_identifier, same_scope_name.
  fold (scope_of (CP.TeamID cp)).
  pose proof (existsb_same_team_identifier (scope_of (CP.TeamID cp))
                (CP.Identifier cp) (mdm_apple_configuration_profiles db))
    as Hi.
  pose proof (existsb_same_team_name (scope_of (CP.TeamID cp))
                (CP.Name cp) (mdm_apple_configuration_profiles db)) as Hn.
  destruct (existsb (same_team_identifier _ _) _);
    [|destruct (existsb (same_team_name _ _) _)]; simpl.
  - fold idx_team_identifier. rewrite Hkey_i.
    split; [reflexivity|].
    split; intros Hx; exfalso; apply Hx; apply Hi; reflexivity.
  - fold idx_team_identifier idx_team_name. rewrite Hkey_n.
    split; [intros Hx; apply Hi in Hx; discriminate|].
    split.
    + intros _ _. destruct (Contains _ idx_team_identifier); reflexivity.
    + intros _ Hx. exfalso. apply Hx. apply Hn. reflexivity.
  - split; [intros Hx; apply Hi in Hx; discriminate|].
    split; [intros _ Hx; apply Hn in Hx; discriminate|].
    intros _ _. eexists. reflexivity.
Qed.

Lemma filter_id_nil id t :
  filter (fun r => Macp.profile_id r =? id) t = [] <->
  ~ exists r, In r t /\ Macp.profile_id r = id.
Proof.
  split.
  - intros Hf (r & Hr & Hid).
    assert (Hx : In r (filter (fun r => Macp.profile_id r =? id) t))
      by (apply filter_In; split; [assumption|apply N.eqb_eq; assumption]).
    rewrite Hf in Hx. destruct Hx.
  - intros Hno.
    destruct (filter (fun r => Macp.profile_id r =? id) t) as [|r rest] eqn:Hf;
      [reflexivity|].
    exfalso. apply Hno. exists r.
    assert (Hx : In r (filter (fun r => Macp.profile_id r =? id) t))
      by (rewrite Hf; left; reflexivity).
    apply filter_In in Hx. destruct Hx as (Hr & Hid).
    apply N.eqb_eq in Hid. auto.
Qed.

(** Under the primary key at most one row has a given id. *)
Lemma primary_key_count id t :
  primary_key t ->
  (List.length (filter (fun r => Macp.profile_id r =? id) t) <= 1)%nat.
Proof.
  unfold primary_key. induction t as [|r t IH]; simpl; intros Hnd; [lia|].
  inversion Hnd as [|x l Hnotin Hnd']; subst.
  destruct (N.eqb_spec (Macp.profile_id r) id) as [Heq|Hne]; simpl.
  - assert (Hf : filter (fun r0 => Macp.profile_id r0 =? id) t = []).
    { apply filter_id_nil. intros (r' & Hr' & Hid). apply Hnotin.
      rewrite Heq, <- Hid. apply in_map. assumption. }
    rewrite Hf. simpl. lia.
  - apply IH. assumption.
Qed.

Lemma DeleteMDMAppleConfigProfile_cases id db :
  primary_key (mdm_apple_configuration_profiles db) ->
  (profile_with_id db id ->
   fst (DeleteMDMAppleConfigProfile id db) = None)
  /\ (~ profile_with_id db id ->
      DeleteMDMAppleConfigProfile id db
      = (Some (notFound "MDMAppleConfigProfile"), db))
  /\ ~ profile_with_id (snd (DeleteMDMAppleConfigProfile id db)) id.
Proof.
  intros Hpk. unfold DeleteMDMAppleConfigProfile, delete_where,
    profile_with_id.
  pose proof (primary_key_count id _ Hpk) as Hle.
  pose proof (filter_id_nil id (mdm_apple_configuration_profiles db)) as Hnil.
  assert (Hgone : forall r,
            In r (filter (fun r => negb (Macp.profile_id r =? id))
                    (mdm_apple_configuration_profiles db)) ->
            Macp.profile_id r <> id).
  { intros r Hr. apply filter_In in Hr. destruct Hr as (_ & Hr).
    apply negb_true_iff in Hr. apply N.eqb_neq in Hr. assumption. }
  destruct (filter (fun r => Macp.profile_id r =? id)
              (mdm_apple_configuration_profiles db)) as [|r rest] eqn:Hf.
  - simpl. split; [intros Hx; exfalso; revert Hx; apply Hnil; reflexivity|].
    split.
    + intros _. f_equal.
      assert (Hall : filter (fun r => negb (Macp.profile_id r =? id))
                       (mdm_apple_configuration_profiles db)
                     = mdm_apple_configuration_profiles db).
      { apply forallb_filter_id. apply forallb_forall. intros r Hr.
        apply negb_true_iff. apply N.eqb_neq. intros Hid.
        apply Hnil; [reflexivity|]. exists r. auto. }
      rewrite Hall. destruct db; reflexivity.
    + intros (r & Hr & Hid). exact (Hgone r Hr Hid).
  - simpl in Hle. destruct rest as [|r' rest]; [|simpl in Hle; lia]. simpl.
    split; [reflexivity|]. split.
    + intros Hx. exfalso. apply Hnil in Hx. discriminate.
    + intros (r0 & Hr & Hid). exact (Hgone r0 Hr Hid).
Qed.

(** C9 (as the functions have it).  The error of a duplicate entry names
    its index in its text: that is what [formatErrorDuplicateConfigProfile]
    relies on, and it is assumed of the two texts that the call can meet
    (the name of the index occurs in the text).
    [NewMDMAppleConfigProfile] then returns an "already exists" error
    exactly when the table has a profile of the same scope with the same
    identifier or with the same name.  With the same identifier the error
    names the payload identifier.  With the same name only, it names the
    payload display name unless the text of the duplicate entry, which
    quotes the name, has the name of the identifier index in it: the
    function looks for that one first, and the error then names the
    payload identifier.  [GetMDMAppleConfigProfile] returns "not found"
    exactly when no profile has the id.  With [profile_id] the primary
    key, [DeleteMDMAppleConfigProfile] returns "not found" exactly when no
    profile has the id, and returns nil otherwise; no profile has the id
    afterwards. *)
Theorem profile_store_errors `{Externals} (cp : CP.t) (id : N)
  (db : Datastore) :
  primary_key (mdm_apple_configuration_profiles db) ->
  occurs "idx_mdm_apple_config_prof_team_identifier"
    (DuplicateEntryError "idx_mdm_apple_config_prof_team_identifier"
       (scope_of (CP.TeamID cp)) (CP.Identifier cp)) ->
  occurs "idx_mdm_apple_config_prof_team_name"
    (DuplicateEntryError "idx_mdm_apple_config_prof_team_name"
       (scope_of (CP.TeamID cp)) (CP.Name cp)) ->
  (is_exists_error (fst (NewMDMAppleConfigProfile cp db)) <->
   same_scope_identifier db cp \/ same_scope_name db cp)
  /\ (same_scope_identifier db cp ->
      NewMDMAppleConfigProfile cp db
      = (Err (existsError "MDMAppleConfigProfile.PayloadIdentifier"
                (CP.Identifier cp) (CP.TeamID cp)), db))
  /\ (~ same_scope_identifier db cp -> same_scope_name db cp ->
      ~ occurs "idx_mdm_apple_config_prof_team_identifier"
          (DuplicateEntryError "idx_mdm_apple_config_prof_team_name"
             (scope_of (CP.TeamID cp)) (CP.Name cp)) ->
      NewMDMAppleConfigProfile cp db
      = (Err (existsError "MDMAppleConfigProfile.PayloadDisplayName"
                (CP.Name cp) (CP.TeamID cp)), db))
  /\ (~ same_scope_identifier db cp -> same_scope_name db cp ->
      occurs "idx_mdm_apple_config_prof_team_identifier"
        (DuplicateEntryError "idx_mdm_apple_config_prof_team_name"
           (scope_of (CP.TeamID cp)) (CP.Name cp)) ->
      NewMDMAppleConfigProfile cp db
      = (Err (existsError "MDMAppleConfigProfile.PayloadIdentifier"
                (CP.Identifier cp) (CP.TeamID cp)), db))
  /\ (GetMDMAppleConfigProfile id db = Err (notFound "MDMAppleConfigProfile")
      <-> ~ profile_with_id db id)
  /\ (profile_with_id db id ->
      exists c, GetMDMAppleConfigProfile id db = Ok c /\ CP.ProfileID c = id)
  /\ (fst (DeleteMDMAppleConfigProfile id db)
      = Some (notFound "MDMAppleConfigProfile")
      <-> ~ profile_with_id db id)
  /\ (profile_with_id db id ->
      fst (DeleteMDMAppleConfigProfile id db) = None)
  /\ ~ profile_with_id (snd (DeleteMDMAppleConfigProfile id db)) id.
Proof.
  intros Hpk Hkey_i Hkey_n.
  apply Contains_occurs in Hkey_i. apply Contains_occurs in Hkey_n.
  destruct (NewMDMAppleConfigProfile_cases cp db Hkey_i Hkey_n)
    as (Hident & Hname & Hnew).
  destruct (DeleteMDMAppleConfigProfile_cases id db Hpk)
    as (Hdel & Hnf & Hgone).
  assert (Hdec_i : same_scope_identifier db cp
                   \/ ~ same_scope_identifier db cp).
  { pose proof (existsb_same_team_identifier (scope_of (CP.TeamID cp))
                  (CP.Identifier cp) (mdm_apple_configuration_profiles db))
      as Hi.
    unfold same_scope_identifier.
    destruct (existsb _ _); [left; apply Hi; reflexivity|].
    right. intros Hx. apply Hi in Hx. discriminate. }
  assert (Hdec_n : same_scope_name db cp \/ ~ same_scope_name db cp).
  { pose proof (existsb_same_team_name (scope_of (CP.TeamID cp))
                  (CP.Name cp) (mdm_apple_configuration_profiles db)) as Hn.
    unfold same_scope_name.
    destruct (existsb _ _); [left; apply Hn; reflexivity|].
    right. intros Hx. apply Hn in Hx. discriminate. }
  assert (Hdec_p : profile_with_id db id \/ ~ profile_with_id db id).
  { pose proof (filter_id_nil id (mdm_apple_configuration_profiles db)) as Hn.
    unfold profile_with_id.
    destruct (filter _ _) as [|r rest]; [right; apply Hn; reflexivity|].
    left. apply Decidable.not_not; [unfold Decidable.decidable|].
    - destruct (existsb (fun r => Macp.profile_id r =? id)
                  (mdm_apple_configuration_profiles db)) eqn:He.
      + left. apply existsb_exists in He. destruct He as (x & Hx & Hid).
        apply N.eqb_eq in Hid. exists x. auto.
      + right. intros (x & Hx & Hid).
        assert (Hy : existsb (fun r => Macp.profile_id r =? id)
                       (mdm_apple_configuration_profiles db) = true)
          by (apply existsb_exists; exists x; split;
              [assumption|apply N.eqb_eq; assumption]).
        congruence.
    - intros Hno. apply Hn in Hno. discriminate. }
  split.
  { split.
    - intros (rt & i & t & Herr).
      destruct Hdec_i as [Hi|Hi]; [left; assumption|].
      destruct Hdec_n as [Hn|Hn]; [right; assumption|].
      destruct (Hnew Hi Hn) as (new & Hok). congruence.
    - intros Hx. destruct Hdec_i as [Hi|Hi].
      + rewrite (Hident Hi). simpl. eexists _, _, _. reflexivity.
      + destruct Hx as [Hx|Hx]; [contradiction|].
        rewrite (Hname Hi Hx). simpl.
        destruct (Contains _ idx_team_identifier);
          eexists _, _, _; reflexivity. }
  split; [exact Hident|].
  split.
  { intros Hi Hn Hc. apply Contains_not_occurs in Hc.
    rewrite (Hname Hi Hn). unfold idx_team_name, idx_team_identifier.
    rewrite Hc. reflexivity. }
  split.
  { intros Hi Hn Hc. apply Contains_occurs in Hc.
    rewrite (Hname Hi Hn). unfold idx_team_name, idx_team_identifier.
    rewrite Hc. reflexivity. }
  pose proof (filter_id_nil id (mdm_apple_configuration_profiles db)) as Hnil.
  split.
  { unfold GetMDMAppleConfigProfile.
    destruct (filter _ _) as [|r rest] eqn:Hf.
    - split; [intros _; apply Hnil; reflexivity|reflexivity].
    - split; [discriminate|]. intros Hx. apply Hnil in Hx. discriminate. }
  split.
  { intros Hp. unfold GetMDMAppleConfigProfile.
    destruct (filter (fun r => Macp.profile_id r =? id)
                (mdm_apple_configuration_profiles db)) as [|r rest] eqn:Hf.
    - exfalso. revert Hp. apply Hnil. reflexivity.
    - exists (scan_profile r). split; [reflexivity|]. simpl.
      assert (Hx : In r (filter (fun r => Macp.profile_id r =? id)
                           (mdm_apple_configuration_profiles db)))
        by (rewrite Hf; left; reflexivity).
      apply filter_In in Hx. destruct Hx as (_ & Hx).
      apply N.eqb_eq in Hx. assumption. }
  split.
  { split.
    - intros Herr Hp. rewrite (Hdel Hp) in Herr. discriminate.
    - intros Hp. rewrite (Hnf Hp). reflexivity. }
  split; [exact Hdel|exact Hgone].
Qed.

Lemma profile_store_errors_witness :
  primary_key (mdm_apple_configuration_profiles (store_with []))
  /\ @NewMDMAppleConfigProfile sample_externals (incoming "I2" "N1" "x")
       (store_with [])
     = (Err (existsError "MDMAppleConfigProfile.PayloadDisplayName" "N1"
               None), store_with [])
  /\ fst (DeleteMDMAppleConfigProfile 1 (store_with [])) = None
  /\ GetMDMAppleConfigProfile 2 (store_with [])
     = Err (notFound "MDMAppleConfigProfile").
Proof.
  assert (Hpk : primary_key (mdm_apple_configuration_profiles (store_with [])))
    by (repeat constructor; simpl; tauto).
  assert (Hkey_i : occurs "idx_mdm_apple_config_prof_team_identifier"
                     (@DuplicateEntryError sample_externals
                        "idx_mdm_apple_config_prof_team_identifier" 0 "I2"))
    by (exists "Error 1062: Duplicate entry '0-I2' for key '", "'";
        reflexivity).
  assert (Hkey_n : occurs "idx_mdm_apple_config_prof_team_name"
                     (@DuplicateEntryError sample_externals
                        "idx_mdm_apple_config_prof_team_name" 0 "N1"))
    by (exists "Error 1062: Duplicate entry '0-N1' for key '", "'";
        reflexivity).
  split; [exact Hpk|].
  destruct (@profile_store_errors sample_externals (incoming "I2" "N1" "x") 1
              (store_with []) Hpk Hkey_i Hkey_n)
    as (_ & _ & Hname & _ & _ & _ & _ & Hdel & _).
  destruct (@profile_store_errors sample_externals (incoming "I2" "N1" "x") 2
              (store_with []) Hpk Hkey_i Hkey_n)
    as (_ & _ & _ & _ & Hget & _).
  split; [|split].
  - apply Hname.
    + intros (r & [<-|[]] & _ & Hid). discriminate.
    + exists profile_N1. split; [left; reflexivity|]. split; reflexivity.
    + apply Contains_not_occurs. reflexivity.
  - apply Hdel. exists profile_N1. split; [left; reflexivity|reflexivity].
  - apply Hget. intros (r & [<-|[]] & Hid). discriminate.
Defined.

(** C9 as stated fails: a profile of the same scope with the same name
    and another identifier also makes [NewMDMAppleConfigProfile] return an
    "already exists" error. *)
Lemma NewMDMAppleConfigProfile_stated_fails :
  ~ (forall (E : Externals) cp db,
       is_exists_error (fst (NewMDMAppleConfigProfile cp db)) <->
       same_scope_identifier db cp).
Proof.
  intros Hclaim.
  destruct (Hclaim sample_externals (incoming "I2" "N1" "x") (store_with []))
    as (Hto & _).
  destruct Hto as (r & [<-|[]] & _ & Hid).
  - vm_compute. eexists _, _, _. reflexivity.
  - discriminate.
Qed.

(** With the text that the sample gives for a duplicate entry, which
    quotes the duplicate value as the server does, a new profile that
    repeats a name in which the name of the identifier index occurs is
    reported as a duplicate of the payload identifier: the function looks
    for the identifier index in the text first. *)
Lemma NewMDMAppleConfigProfile_name_quotes_index :
  @NewMDMAppleConfigProfile sample_externals
    (incoming "I2" "idx_mdm_apple_config_prof_team_identifier" "x")
    (store_with_profiles [profile_named_as_index])
  = (Err (existsError "MDMAppleConfigProfile.PayloadIdentifier" "I2" None),
     store_with_profiles [profile_named_as_index]).
Proof. reflexivity. Qed.

(** ** BatchSetMDMAppleProfiles: the transaction *)

Lemma BatchSetMDMAppleProfiles_unfold `{Externals} range tmID profiles db :
  BatchSetMDMAppleProfiles range tmID profiles db =
  let tm := scope_of tmID in
  let args := keepIdents tm profiles db ++ FleetPayloadIdentifiers in
  if non_empty args then
    match for_each range (exec_insertNewOrEditedProfile tm)
            (deleteProfilesNotInList tm args db) with
    | Ok (_, db') => (None, db')
    | Err e => (Some e, db)
    end
  else (Some (errorString "empty slice passed to 'in' query"), db).
Proof.
  unfold BatchSetMDMAppleProfiles, withRetryTxx, withTx, keepIdents, bind.
  fold (scope_of tmID). simpl.
  destruct (non_empty (map CP.Identifier profiles)); simpl;
    unfold sqlx_In;
    match goal with
    | |- context [non_empty ?l] => destruct (non_empty l); reflexivity
    end.
Qed.

(** A bulk replace that fails leaves the store as it was. *)
Lemma BatchSetMDMAppleProfiles_atomic `{Externals} range tmID profiles db
  e db' :
  BatchSetMDMAppleProfiles range tmID profiles db = (Some e, db') -> db' = db.
Proof.
  rewrite BatchSetMDMAppleProfiles_unfold. simpl.
  destruct (non_empty _); [|intros Heq; inversion Heq; reflexivity].
  destruct (for_each _ _ _) as [[u d]|e']; intros Heq; inversion Heq;
    reflexivity.
Qed.

Lemma insertNewOrEditedProfile_keeps `{Externals} team ident nm mc t t' r :
  insertNewOrEditedProfile team ident nm mc t = Ok t' ->
  In r t -> exists r', In r' t' /\ same_profile r r'.
Proof.
  unfold insertNewOrEditedProfile, update_by_id. intros Hrun Hr.
  assert (Hmap : forall id,
            exists r', In r' (map (fun x => if Macp.profile_id x =? id
                                            then edit_row nm mc x else x) t)
                       /\ same_profile r r').
  { intros id. exists (if Macp.profile_id r =? id then edit_row nm mc r else r).
    split.
    - apply in_map_iff. exists r. auto.
    - destruct (Macp.profile_id r =? id); repeat split. }
  destruct (find (same_team_identifier team ident) t) as [r0|].
  - destruct (existsb _ t); inversion Hrun; subst. apply Hmap.
  - destruct (find (same_team_name team nm) t) as [r0|];
      inversion Hrun; subst.
    + apply Hmap.
    + exists r. split; [apply in_or_app; left; assumption|repeat split].
Qed.

Lemma for_each_insert_keeps `{Externals} team range :
  forall db u db' r,
    for_each range (exec_insertNewOrEditedProfile team) db = Ok (u, db') ->
    In r (mdm_apple_configuration_profiles db) ->
    exists r', In r' (mdm_apple_configuration_profiles db')
               /\ same_profile r r'.
Proof.
  induction range as [|p range IH]; simpl; intros db u db' r Hrun Hr.
  - inversion Hrun; subst. exists r. split; [assumption|repeat split].
  - unfold bind, exec_insertNewOrEditedProfile in Hrun.
    destruct (insertNewOrEditedProfile team (CP.Identifier p) (CP.Name p)
                (CP.Mobileconfig p) (mdm_apple_configuration_profiles db))
      as [t|e] eqn:Hins; [|discriminate].
    destruct (insertNewOrEditedProfile_keeps _ _ _ _ _ _ r Hins Hr)
      as (r1 & Hr1 & Hs1 & Hs2 & Hs3).
    destruct (IH _ _ _ r1 Hrun Hr1) as (r2 & Hr2 & Ht1 & Ht2 & Ht3).
    exists r2. split; [assumption|].
    repeat split; congruence.
Qed.

Lemma in_deleteProfilesNotInList team idents db r :
  In r (mdm_apple_configuration_profiles
          (deleteProfilesNotInList team idents db)) <->
  In r (mdm_apple_configuration_profiles db)
  /\ (Macp.team_id r <> team \/ In (Macp.identifier r) idents).
Proof.
  unfold deleteProfilesNotInList. simpl. rewrite filter_In.
  rewrite negb_true_iff, andb_false_iff, negb_false_iff, N.eqb_neq,
    existsb_string_In. reflexivity.
Qed.

Lemma in_DeleteMDMAppleConfigProfileByTeamAndIdentifier tmID ident db :
  ((exists r, In r (mdm_apple_configuration_profiles db)
              /\ Macp.team_id r = scope_of tmID
              /\ Macp.identifier r = ident) ->
   fst (DeleteMDMAppleConfigProfileByTeamAndIdentifier tmID ident db) = None)
  /\ forall r,
       In r (mdm_apple_configuration_profiles
               (snd (DeleteMDMAppleConfigProfileByTeamAndIdentifier
                       tmID ident db))) ->
       ~ (Macp.team_id r = scope_of tmID /\ Macp.identifier r = ident).
Proof.
  unfold DeleteMDMAppleConfigProfileByTeamAndIdentifier, delete_where.
  fold (scope_of tmID).
  assert (Hgone : forall r,
            In r (filter (fun r => negb (same_team_identifier (scope_of tmID)
                                           ident r))
                    (mdm_apple_configuration_profiles db)) ->
            ~ (Macp.team_id r = scope_of tmID /\ Macp.identifier r = ident)).
  { intros r Hr (Ht & Hi). apply filter_In in Hr. destruct Hr as (_ & Hr).
    unfold same_team_identifier in Hr.
    rewrite Ht, Hi, N.eqb_refl, String.eqb_refl in Hr. discriminate. }
  destruct (filter (same_team_identifier (scope_of tmID) ident)
              (mdm_apple_configuration_profiles db)) as [|r0 rest] eqn:Hf;
    simpl; (split; [|exact Hgone]); [|reflexivity].
  intros (r & Hr & Ht & Hi). exfalso.
  assert (Hx : In r (filter (same_team_identifier (scope_of tmID) ident)
                       (mdm_apple_configuration_profiles db))).
  { apply filter_In. split; [assumption|]. unfold same_team_identifier.
    rewrite Ht, Hi, N.eqb_refl, String.eqb_refl. reflexivity. }
  rewrite Hf in Hx. destruct Hx.
Qed.

(** ** Profiles reserved for Fleet *)

(** C4 (as the datastore has it).  A bulk replace through
    [BatchSetMDMAppleProfiles] never deletes a profile of the scope that
    bears an identifier reserved for Fleet, whether the call succeeds or
    fails.  The two direct deletions do not look at the identifier: for
    such a profile [DeleteMDMAppleConfigProfile] (by id, the primary key)
    and [DeleteMDMAppleConfigProfileByTeamAndIdentifier] return nil and
    the profile is gone. *)
Theorem reserved_profiles `{Externals} (range : list CP.t) (tmID : option N)
  (profiles : list CP.t) (db : Datastore) (r : Macp.row) :
  In r (mdm_apple_configuration_profiles db) ->
  Macp.team_id r = scope_of tmID ->
  In (Macp.identifier r) FleetPayloadIdentifiers ->
  primary_key (mdm_apple_configuration_profiles db) ->
  (exists r',
     In r' (mdm_apple_configuration_profiles
              (snd (BatchSetMDMAppleProfiles range tmID profiles db)))
     /\ same_profile r r')
  /\ (fst (DeleteMDMAppleConfigProfile (Macp.profile_id r) db) = None
      /\ ~ profile_with_id
             (snd (DeleteMDMAppleConfigProfile (Macp.profile_id r) db))
             (Macp.profile_id r))
  /\ (fst (DeleteMDMAppleConfigProfileByTeamAndIdentifier tmID
             (Macp.identifier r) db) = None
      /\ forall x,
           In x (mdm_apple_configuration_profiles
                   (snd (DeleteMDMAppleConfigProfileByTeamAndIdentifier tmID
                           (Macp.identifier r) db))) ->
           ~ (Macp.team_id x = scope_of tmID
              /\ Macp.identifier x = Macp.identifier r)).
Proof.
  intros Hr Hteam Hres Hpk. split; [|split].
  - rewrite BatchSetMDMAppleProfiles_unfold. simpl.
    assert (Hself : exists r', In r' (mdm_apple_configuration_profiles db)
                               /\ same_profile r r')
      by (exists r; split; [assumption|repeat split]).
    destruct (non_empty _); [|exact Hself].
    destruct (for_each range _ _) as [[u db']|e] eqn:Hloop; [|exact Hself].
    simpl. apply (for_each_insert_keeps _ _ _ _ _ r Hloop).
    apply in_deleteProfilesNotInList. split; [assumption|].
    right. apply in_or_app. right. assumption.
  - destruct (DeleteMDMAppleConfigProfile_cases (Macp.profile_id r) db Hpk)
      as (Hdel & _ & Hgone).
    split; [|exact Hgone]. apply Hdel. exists r. auto.
  - destruct (in_DeleteMDMAppleConfigProfileByTeamAndIdentifier tmID
                (Macp.identifier r) db) as (Hdel & Hgone).
    split; [|exact Hgone]. apply Hdel. exists r. auto.
Qed.

Lemma reserved_profiles_witness :
  (exists r',
     In r' (mdm_apple_configuration_profiles
              (snd (@BatchSetMDMAppleProfiles sample_externals
                      [incoming "I3" "N3" "x"] None [incoming "I3" "N3" "x"]
                      (store_with_profiles [profile_N1; filevault_profile]))))
     /\ same_profile filevault_profile r')
  /\ fst (DeleteMDMAppleConfigProfile 2
            (store_with_profiles [profile_N1; filevault_profile])) = None.
Proof.
  destruct (@reserved_profiles sample_externals
              [incoming "I3" "N3" "x"] None [incoming "I3" "N3" "x"]
              (store_with_profiles [profile_N1; filevault_profile])
              filevault_profile) as (Hbatch & (Hdel & _) & _).
  - right; left; reflexivity.
  - reflexivity.
  - right; left; reflexivity.
  - repeat constructor; simpl; intuition discriminate.
  - split; [exact Hbatch|exact Hdel].
Defined.

(** C4 as stated fails: the deletion by id of the FileVault profile is not
    rejected. *)
Lemma reserved_profile_deletion_not_rejected :
  ~ (forall (E : Externals) db r,
       In r (mdm_apple_configuration_profiles db) ->
       In (Macp.identifier r) FleetPayloadIdentifiers ->
       fst (DeleteMDMAppleConfigProfile (Macp.profile_id r) db) <> None).
Proof.
  intros Hclaim.
  apply (Hclaim sample_externals
           (store_with_profiles [profile_N1; filevault_profile])
           filevault_profile).
  - right; left; reflexivity.
  - right; left; reflexivity.
  - reflexivity.
Qed.

(** ** The Go map of the incoming profiles *)

Lemma in_gomap_set {V} k (v : V) m k' v' :
  In (k', v') (gomap_set k v m) -> (k', v') = (k, v) \/ In (k', v') m.
Proof.
  induction m as [|(k0, v0) m IH]; simpl.
  - intros [Heq|[]]. left. congruence.
  - destruct (String.eqb k0 k); simpl.
    + intros [Heq|Hin]; [left; congruence|right; right; assumption].
    + intros [Heq|Hin]; [right; left; assumption|].
      destruct (IH Hin); [left; assumption|right; right; assumption].
Qed.

Lemma gomap_set_keys {V} k (v : V) m k' :
  In k' (map fst (gomap_set k v m)) <-> k' = k \/ In k' (map fst m).
Proof.
  induction m as [|(k0, v0) m IH]; simpl.
  - intuition congruence.
  - destruct (String.eqb_spec k0 k) as [->|Hne]; simpl.
    + intuition congruence.
    + rewrite IH. intuition congruence.
Qed.

Lemma gomap_set_NoDup {V} k (v : V) m :
  NoDup (map fst m) -> NoDup (map fst (gomap_set k v m)).
Proof.
  induction m as [|(k0, v0) m IH]; simpl; intros Hnd.
  - constructor; [intros []|constructor].
  - inversion Hnd as [|x l Hnotin Hnd']; subst.
    destruct (String.eqb_spec k0 k) as [->|Hne]; simpl.
    + constructor; assumption.
    + constructor; [|apply IH; assumption].
      rewrite gomap_set_keys. intros [Heq|Hin]; [congruence|contradiction].
Qed.

Lemma gomap_set_same {V} k (v : V) m : In (k, v) (gomap_set k v m).
Proof.
  induction m as [|(k0, v0) m IH]; simpl; [left; reflexivity|].
  destruct (String.eqb k0 k); [left; reflexivity|right; assumption].
Qed.

Lemma gomap_set_other {V} k (v : V) m k' v' :
  In (k', v') m -> k' <> k -> In (k', v') (gomap_set k v m).
Proof.
  induction m as [|(k0, v0) m IH]; simpl; [intros []|].
  intros [Heq|Hin] Hne.
  - inversion Heq; subst. destruct (String.eqb_spec k' k); [congruence|].
    left; reflexivity.
  - destruct (String.eqb k0 k); right; [assumption|apply IH; assumption].
Qed.

Lemma gomap_get_Some {V} k (m : list (string * V)) :
  (exists v, gomap_get k m = Some v) <-> In k (map fst m).
Proof.
  unfold gomap_get. induction m as [|(k0, v0) m IH]; simpl.
  - split; [intros (v & Hv); discriminate|intros []].
  - destruct (String.eqb_spec k0 k) as [->|Hne]; simpl.
    + split; [intros _; left; reflexivity|intros _; eexists; reflexivity].
    + rewrite IH. intuition congruence.
Qed.

Lemma incomingProfs_fold profiles :
  forall acc,
    NoDup (map fst acc) ->
    (forall k v, In (k, v) acc -> k = CP.Identifier v) ->
    let m := fold_left (fun m p => gomap_set (CP.Identifier p) p m)
               profiles acc in
    NoDup (map fst m)
    /\ (forall k v, In (k, v) m ->
          k = CP.Identifier v /\ (In (k, v) acc \/ In v profiles))
    /\ (forall i, In i (map fst m) <->
                  In i (map fst acc) \/ In i (map CP.Identifier profiles))
    /\ (forall k v, In (k, v) acc ->
          ~ In k (map CP.Identifier profiles) -> In (k, v) m)
    /\ (forall p, last_with_identifier profiles p ->
                  In (CP.Identifier p, p) m).
Proof.
  induction profiles as [|a l IH]; simpl; intros acc Hnd Hkeys.
  - repeat split; auto.
    + intros [Hi|[]]. assumption.
    + intros p (l1 & l2 & Heq & _). destruct l1; discriminate.
  - destruct (IH (gomap_set (CP.Identifier a) a acc)) as
      (Hnd' & Hent & Hk & Hkeep & Hlast).
    + apply gomap_set_NoDup. assumption.
    + intros k v Hin. apply in_gomap_set in Hin.
      destruct Hin as [Heq|Hin]; [inversion Heq; reflexivity|].
      apply Hkeys. assumption.
    + split; [assumption|]. split; [|split; [|split]].
      * intros k v Hin. destruct (Hent k v Hin) as (Hkv & [Hx|Hx]).
        -- split; [assumption|]. apply in_gomap_set in Hx.
           destruct Hx as [Heq|Hx]; [|left; assumption].
           inversion Heq; subst. right; left; reflexivity.
        -- split; [assumption|]. right; right; assumption.
      * intros i. rewrite Hk, gomap_set_keys. intuition congruence.
      * intros k v Hin Hnot. apply Hkeep.
        -- apply gomap_set_other; [assumption|]. intros Heq. apply Hnot.
           left. congruence.
        -- intros Hx. apply Hnot. right. assumption.
      * intros p (l1 & l2 & Heq & Hno). destruct l1 as [|b l1]; simpl in Heq.
        -- inversion Heq; subst. apply Hkeep; [apply gomap_set_same|].
           assumption.
        -- inversion Heq; subst. apply Hlast. exists l1, l2. auto.
Qed.

(** The values that the loop of the bulk replace visits: incoming
    profiles, one for each incoming identifier, the last of the list with
    it. *)
Lemma range_values_spec profiles :
  NoDup (map CP.Identifier (range_values profiles))
  /\ (forall p, In p (range_values profiles) -> In p profiles)
  /\ (forall i, In i (map CP.Identifier (range_values profiles)) <->
                In i (map CP.Identifier profiles))
  /\ (forall p, last_with_identifier profiles p ->
                In p (range_values profiles))
  /\ (forall i, (exists v, gomap_get i (incomingProfs profiles) = Some v) <->
                In i (map CP.Identifier profiles)).
Proof.
  unfold range_values, incomingProfs.
  destruct (incomingProfs_fold profiles [])
    as (Hnd & Hent & Hk & _ & Hlast); [constructor|intros k v []|].
  simpl in *.
  set (m := fold_left (fun m p => gomap_set (CP.Identifier p) p m)
              profiles []) in *.
  assert (Hids : map CP.Identifier (map snd m) = map fst m).
  { rewrite map_map. apply map_ext_in. intros (k, v) Hin. simpl.
    symmetry. apply (Hent k v Hin). }
  rewrite Hids. split; [assumption|]. split; [|split; [|split]].
  - intros p Hp. apply in_map_iff in Hp. destruct Hp as ((k, v) & <- & Hin).
    destruct (Hent k v Hin) as (_ & [[]|Hx]). assumption.
  - intros i. rewrite Hk. tauto.
  - intros p Hp. apply in_map_iff. exists (CP.Identifier p, p).
    split; [reflexivity|apply Hlast; assumption].
  - intros i. rewrite gomap_get_Some, Hk. tauto.
Qed.

(** ** One INSERT ... ON DUPLICATE KEY UPDATE of the bulk replace *)

Lemma NoDup_map_injective {A B} (f : A -> B) l a b :
  NoDup (map f l) -> In a l -> In b l -> f a = f b -> a = b.
Proof.
  induction l as [|x l IH]; simpl; intros Hnd Ha Hb Hf; [destruct Ha|].
  inversion Hnd as [|y l' Hnotin Hnd']; subst.
  destruct Ha as [->|Ha], Hb as [->|Hb]; auto.
  - exfalso. apply Hnotin. rewrite Hf. apply in_map. assumption.
  - exfalso. apply Hnotin. rewrite <- Hf. apply in_map. assumption.
Qed.

Lemma next_profile_id_above t r :
  In r t -> Macp.profile_id r < next_profile_id t.
Proof.
  unfold next_profile_id. induction t as [|x t IH]; simpl; [intros []|].
  intros [->|Hr]; [lia|]. specialize (IH Hr). lia.
Qed.

Lemma wf_profiles_map (g : Macp.row -> Macp.row) t :
  (forall x, same_profile x (g x)) -> wf_profiles t -> wf_profiles (map g t).
Proof.
  intros Hg (Hpk & Huniq). split.
  - unfold primary_key in *. rewrite map_map.
    rewrite (map_ext _ Macp.profile_id); [assumption|].
    intros x. apply (Hg x).
  - intros r1 r2 H1 H2 Ht Hi.
    apply in_map_iff in H1, H2.
    destruct H1 as (y1 & <- & H1), H2 as (y2 & <- & H2).
    destruct (Hg y1) as (_ & Ht1 & Hi1), (Hg y2) as (_ & Ht2 & Hi2).
    rewrite (Huniq y1 y2 H1 H2); congruence.
Qed.

Lemma wf_profiles_filter (w : Macp.row -> bool) t :
  wf_profiles t -> wf_profiles (filter w t).
Proof.
  intros (Hpk & Huniq). split.
  - unfold primary_key in *. clear Huniq.
    induction t as [|x t IH]; simpl; [constructor|].
    inversion Hpk as [|y l Hnotin Hnd]; subst.
    destruct (w x); simpl; [|apply IH; assumption].
    constructor; [|apply IH; assumption].
    intros Hin. apply Hnotin. apply in_map_iff in Hin.
    destruct Hin as (z & Hz & Hin). apply filter_In in Hin.
    rewrite <- Hz. apply in_map. tauto.
  - intros r1 r2 H1 H2. apply filter_In in H1, H2.
    apply Huniq; tauto.
Qed.

Lemma wf_profiles_new `{Externals} t team ident nm mc :
  wf_profiles t ->
  (forall r, In r t ->
             ~ (Macp.team_id r = team /\ Macp.identifier r = ident)) ->
  wf_profiles (t ++ [new_row t team ident nm mc]).
Proof.
  intros (Hpk & Huniq) Hno. split.
  - unfold primary_key in *. rewrite map_app. simpl.
    apply NoDup_app; [assumption|repeat constructor; intros []|].
    intros id Hin [<-|[]]. apply in_map_iff in Hin.
    destruct Hin as (r & Hid & Hr).
    pose proof (next_profile_id_above t r Hr). lia.
  - intros r1 r2 H1 H2 Ht Hi. apply in_app_or in H1, H2.
    destruct H1 as [H1|[<-|[]]], H2 as [H2|[<-|[]]]; auto.
    + exfalso. apply (Hno r1 H1). simpl in *. auto.
    + exfalso. apply (Hno r2 H2). simpl in *. auto.
Qed.

Lemma edit_row_same `{Externals} id nm mc x :
  same_profile x (if Macp.profile_id x =? id then edit_row nm mc x else x).
Proof. destruct (Macp.profile_id x =? id); repeat split. Qed.

Lemma holds_same_team_identifier team p r :
  same_team_identifier team (CP.Identifier p) r = true <-> matches team p r.
Proof.
  unfold same_team_identifier, matches.
  rewrite andb_true_iff, N.eqb_eq, String.eqb_eq. reflexivity.
Qed.

Lemma insert_step `{Externals} team p t :
  wf_profiles t ->
  (forall r, In r t -> Macp.team_id r = team -> Macp.name r = CP.Name p ->
             Macp.identifier r = CP.Identifier p) ->
  exists t',
    insertNewOrEditedProfile team (CP.Identifier p) (CP.Name p)
      (CP.Mobileconfig p) t = Ok t'
    /\ wf_profiles t'
    /\ forall x,
         In x t' <->
         (In x t /\ ~ matches team p x)
         \/ (exists r, In r t /\ matches team p r
                       /\ x = edit_row (CP.Name p) (CP.Mobileconfig p) r)
         \/ (no_match team p t
             /\ x = new_row t team (CP.Identifier p) (CP.Name p)
                      (CP.Mobileconfig p)).
Proof.
  intros Hwf Hname. pose proof Hwf as (Hpk & Huniq).
  unfold insertNewOrEditedProfile.
  destruct (find (same_team_identifier team (CP.Identifier p)) t)
    as [r|] eqn:Hfind.
  - apply find_some in Hfind. destruct Hfind as (Hr & Hm).
    apply holds_same_team_identifier in Hm.
    assert (Hone : forall x, In x t -> matches team p x -> x = r).
    { intros x Hx (Hxt & Hxi). destruct Hm as (Hrt & Hri).
      apply Huniq; congruence. }
    assert (Hex : existsb (fun x => same_team_name team (CP.Name p) x
                             && negb (Macp.profile_id x =? Macp.profile_id r))
                    t = false).
    { destruct (existsb _ t) eqn:He; [|reflexivity]. exfalso.
      apply existsb_exists in He. destruct He as (x & Hx & Hc).
      apply andb_prop in Hc. destruct Hc as (Hn & Hid).
      unfold same_team_name in Hn. apply andb_prop in Hn.
      destruct Hn as (Hxt & Hxn). apply N.eqb_eq in Hxt.
      apply String.eqb_eq in Hxn.
      assert (x = r) by (apply Hone; [assumption|split; auto]).
      subst x. rewrite N.eqb_refl in Hid. discriminate. }
    rewrite Hex. eexists. split; [reflexivity|]. split.
    + apply wf_profiles_map; [|assumption]. intros x. apply edit_row_same.
    + intros x. unfold update_by_id. rewrite in_map_iff. split.
      * intros (y & Hy & Hin).
        destruct (N.eqb_spec (Macp.profile_id y) (Macp.profile_id r))
          as [Heq|Hne].
        -- assert (y = r)
             by (apply (NoDup_map_injective Macp.profile_id t); assumption).
           subst y. right. left. exists r. auto.
        -- subst x. left. split; [assumption|]. intros Hmy.
           apply Hne. rewrite (Hone y Hin Hmy). reflexivity.
      * intros [(Hx & Hnm)|[(r' & Hr' & Hm' & ->)|(Hno & _)]].
        -- exists x. split; [|assumption].
           destruct (N.eqb_spec (Macp.profile_id x) (Macp.profile_id r))
             as [Heq|Hne]; [|reflexivity].
           exfalso. apply Hnm.
           rewrite (NoDup_map_injective Macp.profile_id t x r Hpk Hx Hr Heq).
           assumption.
        -- rewrite (Hone r' Hr' Hm'). exists r.
           rewrite N.eqb_refl. auto.
        -- exfalso. exact (Hno r Hr Hm).
  - assert (Hno : no_match team p t).
    { intros r Hr Hm. apply holds_same_team_identifier in Hm.
      rewrite (find_none _ _ Hfind r Hr) in Hm. discriminate. }
    destruct (find (same_team_name team (CP.Name p)) t) as [r|] eqn:Hfn.
    + exfalso. apply find_some in Hfn. destruct Hfn as (Hr & Hn).
      unfold same_team_name in Hn. apply andb_prop in Hn.
      destruct Hn as (Hrt & Hrn). apply N.eqb_eq in Hrt.
      apply String.eqb_eq in Hrn.
      apply (Hno r Hr). split; [assumption|]. apply Hname; assumption.
    + eexists. split; [reflexivity|]. split.
      * apply wf_profiles_new; [assumption|]. exact Hno.
      * intros x. rewrite in_app_iff. simpl. split.
        -- intros [Hx|[<-|[]]].
           ++ left. split; [assumption|apply Hno; assumption].
           ++ right. right. split; [assumption|reflexivity].
        -- intros [(Hx & _)|[(r & Hr & Hm & _)|(_ & ->)]].
           ++ left. assumption.
           ++ exfalso. exact (Hno r Hr Hm).
           ++ right. left. reflexivity.
Qed.

(** ** The loop of the bulk replace *)

Lemma row_of_edit `{Externals} team p r :
  matches team p r ->
  row_of team p (edit_row (CP.Name p) (CP.Mobileconfig p) r).
Proof. intros (Ht & Hi). repeat split; assumption. Qed.

Lemma row_of_new `{Externals} team p t :
  row_of team p
    (new_row t team (CP.Identifier p) (CP.Name p) (CP.Mobileconfig p)).
Proof. repeat split. Qed.

Lemma insert_all_spec `{Externals} team :
  forall range t,
    wf_profiles t ->
    NoDup (map CP.Identifier range) ->
    (forall p q, In p range -> In q range -> CP.Name p = CP.Name q ->
                 CP.Identifier p = CP.Identifier q) ->
    (forall p r, In p range -> In r t -> Macp.team_id r = team ->
                 Macp.name r = CP.Name p ->
                 Macp.identifier r = CP.Identifier p) ->
    exists t',
      insert_all team range t = Ok t'
      /\ wf_profiles t'
      /\ (forall x, In x t' ->
            (In x t /\ ~ (Macp.team_id x = team
                          /\ In (Macp.identifier x)
                               (map CP.Identifier range)))
            \/ (exists p r, In p range /\ In r t /\ matches team p r
                  /\ x = edit_row (CP.Name p) (CP.Mobileconfig p) r)
            \/ (exists p, In p range /\ no_match team p t
                          /\ row_of team p x))
      /\ (forall x, In x t ->
            ~ (Macp.team_id x = team
               /\ In (Macp.identifier x) (map CP.Identifier range)) ->
            In x t')
      /\ (forall p r, In p range -> In r t -> matches team p r ->
            In (edit_row (CP.Name p) (CP.Mobileconfig p) r) t')
      /\ (forall p, In p range -> no_match team p t ->
            exists x, In x t' /\ row_of team p x).
Proof.
  induction range as [|p rest IH]; intros t Hwf Hnd Hn1 Hn2; simpl.
  - exists t. split; [reflexivity|]. split; [assumption|].
    split; [|split; [|split]].
    + intros x Hx. left. split; [assumption|]. intros (_ & []).
    + auto.
    + intros p r [].
    + intros p [].
  - inversion Hnd as [|i l Hnotin Hnd']; subst.
    destruct (insert_step team p t Hwf) as (t2 & Hrun & Hwf2 & Hstep).
    { intros r Hr Ht Hn. apply (Hn2 p r); auto. left; reflexivity. }
    rewrite Hrun.
    assert (Hdiff : forall q, In q rest ->
                              CP.Identifier q <> CP.Identifier p).
    { intros q Hq Heq. apply Hnotin. rewrite <- Heq. apply in_map.
      assumption. }
    destruct (IH t2 Hwf2 Hnd') as (t' & Hall & Hwf' & HA & HB1 & HB2 & HB3).
    { intros a b Ha Hb. apply Hn1; right; assumption. }
    { intros q r Hq Hr Ht Hn. apply Hstep in Hr.
      destruct Hr as [(Hr & _)|[(r0 & Hr0 & (_ & Hi0) & ->)|(_ & ->)]].
      - apply (Hn2 q r); auto. right; assumption.
      - simpl in *. rewrite Hi0.
        apply (Hn1 p q (or_introl eq_refl) (or_intror Hq) Hn).
      - simpl in *.
        apply (Hn1 p q (or_introl eq_refl) (or_intror Hq) Hn). }
    exists t'. split; [assumption|]. split; [assumption|].
    split; [|split; [|split]].
    + intros x Hx. apply HA in Hx.
      destruct Hx as [(Hx & Hnot)|[(q & r & Hq & Hr & Hm & ->)
                                  |(q & Hq & Hno & Hrow)]].
      * apply Hstep in Hx.
        destruct Hx as [(Hx & Hnm)|[(r0 & Hr0 & Hm0 & ->)|(Hno & ->)]].
        -- left. split; [assumption|]. intros (Ht & [Hi|Hi]).
           ++ apply Hnm. split; congruence.
           ++ apply Hnot. auto.
        -- right. left. exists p, r0. split; [left; reflexivity|auto].
        -- right. right. exists p. split; [left; reflexivity|].
           split; [assumption|apply row_of_new].
      * apply Hstep in Hr.
        destruct Hr as [(Hr & _)|[(r0 & Hr0 & (_ & Hi0) & ->)|(_ & ->)]].
        -- right. left. exists q, r. split; [right; assumption|auto].
        -- exfalso. destruct Hm as (_ & Hmi). simpl in Hmi.
           apply (Hdiff q Hq). congruence.
        -- exfalso. destruct Hm as (_ & Hmi). simpl in Hmi.
           apply (Hdiff q Hq). congruence.
      * right. right. exists q. split; [right; assumption|].
        split; [|assumption].
        intros r Hr Hm. apply (Hno r); [|assumption].
        apply Hstep. left. split; [assumption|].
        intros (_ & Hi). destruct Hm as (_ & Hmi).
        apply (Hdiff q Hq). congruence.
    + intros x Hx Hnot. apply HB1.
      * apply Hstep. left. split; [assumption|].
        intros (Ht & Hi). apply Hnot. split; [assumption|].
        left. congruence.
      * intros (Ht & Hi). apply Hnot. split; [assumption|].
        right. assumption.
    + intros q r [<-|Hq] Hr Hm.
      * apply HB1.
        -- apply Hstep. right. left. exists r. auto.
        -- intros (_ & Hi). simpl in Hi. destruct Hm as (_ & Hmi).
           apply Hnotin. rewrite <- Hmi. assumption.
      * apply HB2; [assumption| |assumption].
        apply Hstep. left. split; [assumption|].
        intros (_ & Hi). destruct Hm as (_ & Hmi).
        apply (Hdiff q Hq). congruence.
    + intros q [<-|Hq] Hno.
      * exists (new_row t team (CP.Identifier p) (CP.Name p)
                  (CP.Mobileconfig p)).
        split; [|apply row_of_new].
        apply HB1.
        -- apply Hstep. right. right. split; [assumption|reflexivity].
        -- intros (_ & Hi). simpl in Hi. apply Hnotin. assumption.
      * apply HB3; [assumption|].
        intros r Hr Hm. apply Hstep in Hr.
        destruct Hr as [(Hr & _)|[(r0 & Hr0 & (_ & Hi0) & ->)|(_ & ->)]].
        -- exact (Hno r Hr Hm).
        -- destruct Hm as (_ & Hmi). simpl in Hmi.
           apply (Hdiff q Hq). congruence.
        -- destruct Hm as (_ & Hmi). simpl in Hmi.
           apply (Hdiff q Hq). congruence.
Qed.

Lemma set_profiles_same db :
  set_profiles (mdm_apple_configuration_profiles db) db = db.
Proof. destruct db; reflexivity. Qed.

Lemma for_each_insert_all `{Externals} team range :
  forall db,
    for_each range (exec_insertNewOrEditedProfile team) db =
    match insert_all team range (mdm_apple_configuration_profiles db) with
    | Ok t => Ok (tt, set_profiles t db)
    | Err e => Err e
    end.
Proof.
  induction range as [|p rest IH]; intros db; simpl.
  - unfold ret. rewrite set_profiles_same. reflexivity.
  - unfold bind, exec_insertNewOrEditedProfile.
    destruct (insertNewOrEditedProfile team (CP.Identifier p) (CP.Name p)
                (CP.Mobileconfig p) (mdm_apple_configuration_profiles db))
      as [t|e]; [|reflexivity].
    rewrite IH. simpl. destruct (insert_all team rest t); reflexivity.
Qed.

(** ** BatchSetMDMAppleProfiles *)

Lemma in_keepIdents team profiles db i :
  In i (keepIdents team profiles db) <->
  In i (map CP.Identifier profiles)
  /\ exists r, In r (mdm_apple_configuration_profiles db)
               /\ Macp.team_id r = team /\ Macp.identifier r = i.
Proof.
  destruct (range_values_spec profiles) as (_ & _ & _ & _ & Hget).
  unfold keepIdents. rewrite in_flat_map. split.
  - intros (r & Hr & Hin).
    destruct (gomap_get (Macp.identifier r) (incomingProfs profiles))
      as [v|] eqn:Hg; [|destruct Hin].
    destruct Hin as [<-|[]].
    split; [apply Hget; exists v; assumption|].
    destruct (non_empty (map CP.Identifier profiles)); [|destruct Hr].
    unfold loadExistingProfiles in Hr. apply filter_In in Hr.
    destruct Hr as (Hr & Hc). apply andb_prop in Hc. destruct Hc as (Ht & _).
    apply N.eqb_eq in Ht. exists r. auto.
  - intros (Hi & r & Hr & Ht & <-). exists r. split.
    + destruct (map CP.Identifier profiles) as [|a l] eqn:Hm; [destruct Hi|].
      simpl. unfold loadExistingProfiles. apply filter_In.
      split; [assumption|]. rewrite Ht, N.eqb_refl.
      apply existsb_string_In. assumption.
    + apply Hget in Hi. destruct Hi as (v & ->). left; reflexivity.
Qed.

Lemma non_empty_app_r {A} (a b : list A) : b <> [] -> non_empty (a ++ b) = true.
Proof.
  intros Hb. destruct a; simpl; [|reflexivity].
  destruct b; [congruence|reflexivity].
Qed.

(** The bulk replace on the values of the map of incoming profiles, in
    the order [range] of the loop. *)
Lemma BatchSetMDMAppleProfiles_loop `{Externals} (range : list CP.t)
  (tmID : option N) (profiles : list CP.t) (db : Datastore) :
  Permutation range (range_values profiles) ->
  wf_profiles (mdm_apple_configuration_profiles db) ->
  FleetPayloadIdentifiers <> [] ->
  names_free (scope_of tmID) range (mdm_apple_configuration_profiles db) ->
  let tm := scope_of tmID in
  let t := mdm_apple_configuration_profiles db in
  let idents := map CP.Identifier profiles in
  let kept_as_is x :=
    Macp.team_id x <> tm
    \/ (In (Macp.identifier x) FleetPayloadIdentifiers
        /\ ~ In (Macp.identifier x) idents) in
  exists db',
    BatchSetMDMAppleProfiles range tmID profiles db = (None, db')
    /\ set_profiles t db' = db
    /\ wf_profiles (mdm_apple_configuration_profiles db')
    /\ (forall x, In x (mdm_apple_configuration_profiles db') ->
          (In x t /\ kept_as_is x)
          \/ (exists p r, In p range /\ In r t /\ matches tm p r
                /\ x = edit_row (CP.Name p) (CP.Mobileconfig p) r)
          \/ (exists p, In p range /\ no_match tm p t /\ row_of tm p x))
    /\ (forall x, In x t -> kept_as_is x ->
          In x (mdm_apple_configuration_profiles db'))
    /\ (forall p r, In p range -> In r t -> matches tm p r ->
          In (edit_row (CP.Name p) (CP.Mobileconfig p) r)
            (mdm_apple_configuration_profiles db'))
    /\ (forall p, In p range -> no_match tm p t ->
          exists x, In x (mdm_apple_configuration_profiles db')
                    /\ row_of tm p x)
    /\ (forall r, In r t -> Macp.team_id r = tm ->
          ~ In (Macp.identifier r) idents ->
          ~ In (Macp.identifier r) FleetPayloadIdentifiers ->
          forall x, In x (mdm_apple_configuration_profiles db') ->
                    ~ (Macp.team_id x = tm
                       /\ Macp.identifier x = Macp.identifier r)).
Proof.
  intros Hperm Hwf Hfleet (Hn1 & Hn2) tm t idents kept_as_is.
  destruct (range_values_spec profiles) as (Hnd & _ & Hids & _ & _).
  assert (Hnd_range : NoDup (map CP.Identifier range)).
  { apply (Permutation_NoDup (l := map CP.Identifier (range_values profiles)));
      [|assumption].
    apply Permutation_map. apply Permutation_sym. assumption. }
  assert (Hidents : forall i, In i (map CP.Identifier range) <-> In i idents).
  { intros i. unfold idents. rewrite <- Hids. split; apply Permutation_in;
      apply Permutation_map; [|apply Permutation_sym]; assumption. }
  rewrite BatchSetMDMAppleProfiles_unfold. simpl.
  rewrite (non_empty_app_r _ _ Hfleet), for_each_insert_all.
  fold tm.
  set (args := keepIdents tm profiles db ++ FleetPayloadIdentifiers).
  set (db1 := deleteProfilesNotInList tm args db).
  assert (Ht1 : forall x,
            In x (mdm_apple_configuration_profiles db1) <->
            In x t /\ (Macp.team_id x <> tm \/ In (Macp.identifier x) idents
                       \/ In (Macp.identifier x) FleetPayloadIdentifiers)).
  { intros x. unfold db1. rewrite in_deleteProfilesNotInList. unfold args.
    rewrite in_app_iff, in_keepIdents. fold t idents. split.
    - intros (Hx & [Hne|[(Hi & _)|Hf]]); auto.
    - intros (Hx & [Hne|[Hi|Hf]]); split; auto.
      destruct (N.eq_dec (Macp.team_id x) tm) as [Heq|Hne]; [|auto].
      right. left. split; [assumption|]. exists x. auto. }
  assert (Hin1 : forall p r, In p range -> In r t -> matches tm p r ->
                             In r (mdm_apple_configuration_profiles db1)).
  { intros p r Hp Hr (Ht & Hi). apply Ht1. split; [assumption|].
    right. left. apply Hidents. rewrite Hi. apply in_map. assumption. }
  destruct (insert_all_spec tm range (mdm_apple_configuration_profiles db1))
    as (t' & Hrun & Hwf' & HA & HB1 & HB2 & HB3).
  { unfold db1, deleteProfilesNotInList. simpl.
    apply wf_profiles_filter. assumption. }
  { assumption. }
  { assumption. }
  { intros p r Hp Hr Ht Hn. apply Ht1 in Hr. destruct Hr as (Hr & Hc).
    apply (Hn2 p r); auto.
    destruct Hc as [Hne|[Hi|Hf]]; [contradiction| |right; assumption].
    left. apply Hidents. assumption. }
  rewrite Hrun. exists (set_profiles t' db1).
  split; [reflexivity|]. split; [destruct db; reflexivity|].
  simpl. split; [assumption|].
  assert (HA' : forall x, In x t' ->
            (In x t /\ kept_as_is x)
            \/ (exists p r, In p range /\ In r t /\ matches tm p r
                  /\ x = edit_row (CP.Name p) (CP.Mobileconfig p) r)
            \/ (exists p, In p range /\ no_match tm p t /\ row_of tm p x)).
  { intros x Hx. apply HA in Hx.
    destruct Hx as [(Hx & Hnot)|[(p & r & Hp & Hr & Hm & ->)
                                |(p & Hp & Hno & Hrow)]].
    - apply Ht1 in Hx. destruct Hx as (Hx & Hc). left.
      split; [assumption|]. unfold kept_as_is.
      destruct (N.eq_dec (Macp.team_id x) tm) as [Heq|Hne]; [|auto].
      right. assert (Hni : ~ In (Macp.identifier x) idents).
      { intros Hi. apply Hnot. split; [assumption|].
        apply Hidents. assumption. }
      split; [|assumption]. destruct Hc as [Hne|[Hi|Hf]]; tauto.
    - right. left. exists p, r. apply Ht1 in Hr. tauto.
    - right. right. exists p. split; [assumption|]. split; [|assumption].
      intros r Hr Hm. apply (Hno r); [|assumption].
      apply (Hin1 p); assumption. }
  split; [exact HA'|]. split; [|split; [|split]].
  - intros x Hx Hk. apply HB1.
    + apply Ht1. split; [assumption|]. destruct Hk as [Hne|(Hf & _)]; auto.
    + intros (Ht & Hi). apply Hidents in Hi.
      destruct Hk as [Hne|(_ & Hni)]; contradiction.
  - intros p r Hp Hr Hm. apply HB2; auto. apply (Hin1 p); assumption.
  - intros p Hp Hno. apply HB3; [assumption|].
    intros r Hr. apply Ht1 in Hr. apply Hno. tauto.
  - intros r Hr Ht Hni Hnf x Hx (Hxt & Hxi). apply HA' in Hx.
    destruct Hx as [(_ & [Hne|(Hf & _)])|[(p & r0 & Hp & _ & (_ & Hi0) & ->)
                                         |(p & Hp & _ & (_ & Hi & _))]].
    + contradiction.
    + apply Hnf. rewrite <- Hxi. assumption.
    + simpl in Hxi. apply Hni. rewrite <- Hxi, Hi0. apply Hidents.
      apply in_map. assumption.
    + apply Hni. rewrite <- Hxi, Hi. apply Hidents. apply in_map.
      assumption.
Qed.

(** A profile row edited to an incoming profile, as a record and by its
    fields. *)
Lemma edited_with_edit_row `{Externals} p r x :
  edited_with p r x <-> x = edit_row (CP.Name p) (CP.Mobileconfig p) r.
Proof.
  unfold edited_with, edit_row. destruct x; simpl. split.
  - intros (-> & -> & -> & -> & -> & ->). reflexivity.
  - intros Heq. inversion Heq. repeat split.
Qed.

Lemma NoDup_fst_functional {V} (m : list (string * V)) k v1 v2 :
  NoDup (map fst m) -> In (k, v1) m -> In (k, v2) m -> v1 = v2.
Proof.
  induction m as [|(k0, v0) m IH]; simpl; intros Hnd H1 H2; [destruct H1|].
  inversion Hnd as [|x l Hnotin Hnd']; subst.
  destruct H1 as [H1|H1], H2 as [H2|H2].
  - congruence.
  - inversion H1; subst. exfalso. apply Hnotin.
    apply in_map_iff. exists (k, v2). auto.
  - inversion H2; subst. exfalso. apply Hnotin.
    apply in_map_iff. exists (k, v1). auto.
  - apply IH; assumption.
Qed.

Lemma last_with_identifier_In profiles p :
  last_with_identifier profiles p -> In p profiles.
Proof.
  intros (l1 & l2 & -> & _). apply in_or_app. right. left. reflexivity.
Qed.

Lemma last_with_identifier_exists profiles i :
  In i (map CP.Identifier profiles) ->
  exists q, last_with_identifier profiles q /\ CP.Identifier q = i.
Proof.
  induction profiles as [|a l IH]; simpl; [intros []|].
  intros Hin.
  destruct (in_dec string_dec i (map CP.Identifier l)) as [Hl|Hl].
  - destruct (IH Hl) as (q & (l1 & l2 & -> & Hno) & Hq).
    exists q. split; [|assumption]. exists (a :: l1), l2. auto.
  - destruct Hin as [Ha|Hin]; [|contradiction].
    exists a. split; [|assumption]. exists [], l. split; [reflexivity|].
    rewrite Ha. assumption.
Qed.

(** The values of the map of incoming profiles: for every identifier, the
    last profile of the list that has it. *)
Lemma range_values_last profiles p :
  In p (range_values profiles) <-> last_with_identifier profiles p.
Proof.
  split; [|apply range_values_spec].
  unfold range_values, incomingProfs.
  destruct (incomingProfs_fold profiles [])
    as (Hnd & Hent & Hk & _ & Hlast); [constructor|intros k v []|].
  simpl in *. intros Hp. apply in_map_iff in Hp.
  destruct Hp as ((k, v) & <- & Hin). simpl.
  destruct (Hent k v Hin) as (Hkv & [[]|Hv]).
  destruct (last_with_identifier_exists profiles k) as (q & Hq & Hqk).
  { rewrite Hkv. apply in_map. assumption. }
  pose proof (Hlast q Hq) as Hqin. rewrite Hqk in Hqin.
  rewrite (NoDup_fst_functional _ k v q Hnd Hin Hqin). exact Hq.
Qed.

(** C3 (with the names of the scope kept apart).  Of the incoming
    profiles the one that counts for an identifier is the last of the list
    with it.  For a table that has its keys, identifiers reserved for
    Fleet, and incoming profiles none of whose names is the name of a
    profile with another identifier (among them and among the profiles
    the scope keeps), and for every order in which the loop over the
    incoming profiles runs: [BatchSetMDMAppleProfiles] returns nil in its
    one transaction; the profiles of other scopes and the reserved
    profiles of the scope that are not incoming stay as they are; every
    other profile of the scope whose identifier is not incoming is
    deleted; a profile of the scope with an incoming identifier is edited
    in place: the row keeps its id, team and identifier and has the
    incoming name and payload and the checksum of that payload; an
    incoming profile with no such row is inserted with its identifier,
    name, payload and that checksum; the table holds nothing else, keeps
    its keys, and no other table changes. *)
Theorem BatchSetMDMAppleProfiles_replaces `{Externals} (range : list CP.t)
  (tmID : option N) (profiles : list CP.t) (db : Datastore) :
  Permutation range (range_values profiles) ->
  wf_profiles (mdm_apple_configuration_profiles db) ->
  FleetPayloadIdentifiers <> [] ->
  names_apart (scope_of tmID) profiles (mdm_apple_configuration_profiles db) ->
  let tm := scope_of tmID in
  let t := mdm_apple_configuration_profiles db in
  let idents := map CP.Identifier profiles in
  let kept_as_is x :=
    Macp.team_id x <> tm
    \/ (In (Macp.identifier x) FleetPayloadIdentifiers
        /\ ~ In (Macp.identifier x) idents) in
  let counts p := last_with_identifier profiles p in
  exists db',
    BatchSetMDMAppleProfiles range tmID profiles db = (None, db')
    /\ set_profiles t db' = db
    /\ wf_profiles (mdm_apple_configuration_profiles db')
    /\ (forall x, In x (mdm_apple_configuration_profiles db') ->
          (In x t /\ kept_as_is x)
          \/ (exists p r, counts p /\ In r t /\ matches tm p r
                /\ edited_with p r x)
          \/ (exists p, counts p /\ no_match tm p t /\ row_of tm p x))
    /\ (forall x, In x t -> kept_as_is x ->
          In x (mdm_apple_configuration_profiles db'))
    /\ (forall p r, counts p -> In r t -> matches tm p r ->
          exists x, In x (mdm_apple_configuration_profiles db')
                    /\ edited_with p r x)
    /\ (forall p, counts p -> no_match tm p t ->
          exists x, In x (mdm_apple_configuration_profiles db')
                    /\ row_of tm p x)
    /\ (forall r, In r t -> Macp.team_id r = tm ->
          ~ In (Macp.identifier r) idents ->
          ~ In (Macp.identifier r) FleetPayloadIdentifiers ->
          forall x, In x (mdm_apple_configuration_profiles db') ->
                    ~ (Macp.team_id x = tm
                       /\ Macp.identifier x = Macp.identifier r)).
Proof.
  intros Hperm Hwf Hfleet (Hn1 & Hn2) tm t idents kept_as_is counts.
  assert (Hlast : forall p, In p range <-> last_with_identifier profiles p).
  { intros p. rewrite <- range_values_last. split; apply Permutation_in;
      [|apply Permutation_sym]; assumption. }
  assert (Hidents : forall i, In i (map CP.Identifier range) <-> In i idents).
  { destruct (range_values_spec profiles) as (_ & _ & Hids & _ & _).
    intros i. unfold idents. rewrite <- Hids. split; apply Permutation_in;
      apply Permutation_map; [|apply Permutation_sym]; assumption. }
  assert (Hfree : names_free (scope_of tmID) range
                    (mdm_apple_configuration_profiles db)).
  { split.
    - intros p q Hp Hq. apply Hn1; apply Hlast; assumption.
    - intros p r Hp Hr Ht Hor. apply (Hn2 p r); auto.
      + apply Hlast. assumption.
      + destruct Hor as [Hi|Hf]; [left; apply Hidents; assumption|].
        right. assumption. }
  destruct (BatchSetMDMAppleProfiles_loop range tmID profiles db Hperm Hwf
              Hfleet Hfree)
    as (db' & Hrun & Hset & Hwf' & Honly & Hkept & Hedit & Hnew & Hgone).
  exists db'. split; [exact Hrun|]. split; [exact Hset|].
  split; [exact Hwf'|]. split; [|split; [exact Hkept|split; [|split]]].
  - intros x Hx.
    destruct (Honly x Hx) as [Hk|[(p & r & Hp & Hr & Hm & Hxe)
                                  |(p & Hp & Hno & Hrow)]].
    + left. exact Hk.
    + right. left. exists p, r. split; [apply Hlast; assumption|].
      split; [assumption|]. split; [assumption|].
      apply edited_with_edit_row. assumption.
    + right. right. exists p. split; [apply Hlast; assumption|]. auto.
  - intros p r Hp Hr Hm.
    exists (edit_row (CP.Name p) (CP.Mobileconfig p) r).
    split; [|apply edited_with_edit_row; reflexivity].
    apply Hedit; [apply Hlast; assumption|assumption|assumption].
  - intros p Hp Hno. apply Hnew; [apply Hlast; assumption|assumption].
  - exact Hgone.
Qed.

Lemma BatchSetMDMAppleProfiles_replaces_witness :
  exists db',
    @BatchSetMDMAppleProfiles sample_externals incoming_edit_and_new None
      incoming_edit_and_new
      (store_with_profiles [profile_N1; filevault_profile; profile_I9])
    = (None, db')
    /\ In {| Macp.profile_id := 1; Macp.team_id := 0;
             Macp.identifier := "I1"; Macp.name := "N1 v2";
             Macp.mobileconfig := "<plist>b</plist>";
             Macp.checksum := "md5:<plist>b</plist>" |}
         (mdm_apple_configuration_profiles db')
    /\ In filevault_profile (mdm_apple_configuration_profiles db')
    /\ ~ In profile_I9 (mdm_apple_configuration_profiles db').
Proof.
  destruct (@BatchSetMDMAppleProfiles_replaces sample_externals
              incoming_edit_and_new None incoming_edit_and_new
              (store_with_profiles [profile_N1; filevault_profile; profile_I9]))
    as (db' & Hrun & _ & _ & _ & Hkept & Hedit & _ & Hgone).
  - apply Permutation_refl.
  - split.
    + repeat constructor; simpl; intuition discriminate.
    + intros r1 r2 [<-|[<-|[<-|[]]]] [<-|[<-|[<-|[]]]]; simpl; intros;
        try reflexivity; discriminate.
  - discriminate.
  - split.
    + intros p q Hp Hq.
      apply last_with_identifier_In in Hp. apply last_with_identifier_In in Hq.
      revert Hp Hq.
      intros [<-|[<-|[]]] [<-|[<-|[]]]; simpl; intros;
        try reflexivity; discriminate.
    + intros p r Hp. apply last_with_identifier_In in Hp. revert Hp.
      intros [<-|[<-|[]]] [<-|[<-|[<-|[]]]]; simpl; intros;
        try reflexivity; discriminate.
  - exists db'. split; [exact Hrun|]. split; [|split].
    + destruct (Hedit (incoming "I1" "N1 v2" "<plist>b</plist>") profile_N1)
        as (x & Hx & H1 & H2 & H3 & H4 & H5 & H6).
      * exists [], [incoming "I3" "N3" "<plist>c</plist>"].
        split; [reflexivity|]. simpl. intuition discriminate.
      * left; reflexivity.
      * split; reflexivity.
      * destruct x; simpl in *; subst. exact Hx.
    + apply Hkept.
      * right; left; reflexivity.
      * right. split; [right; left; reflexivity|].
        simpl. intuition discriminate.
    + intros Hin. apply (Hgone profile_I9) with (x := profile_I9).
      * right; right; left; reflexivity.
      * reflexivity.
      * simpl. intuition discriminate.
      * simpl. intuition discriminate.
      * exact Hin.
      * split; reflexivity.
Defined.

(** C3 as stated fails: of two incoming profiles with one name and two
    identifiers the second is not inserted; its payload is written to the
    row of the first. *)
Lemma BatchSetMDMAppleProfiles_stated_fails : ~ replace_stated.
Proof.
  intros Hclaim.
  destruct (Hclaim sample_externals incoming_same_name None
              incoming_same_name (store_with_profiles [])
              (store_with_profiles
                 [ {| Macp.profile_id := 1; Macp.team_id := 0;
                      Macp.identifier := "I1"; Macp.name := "N";
                      Macp.mobileconfig := "<plist>b</plist>";
                      Macp.checksum := "md5:<plist>b</plist>" |} ])
              (Permutation_refl _))
    with (p := incoming "I2" "N" "<plist>b</plist>")
    as (x & Hx & Hrow).
  - split; [constructor|intros r1 r2 []].
  - reflexivity.
  - right; left; reflexivity.
  - destruct Hx as [<-|[]]. destruct Hrow as (_ & Hi & _). discriminate.
Qed.

(** ** Two reconciliation passes *)

(** C8 does not hold of [BulkUpsertMDMAppleHostProfiles]: on a duplicate
    key it writes the status, the operation type and the command UUID and
    leaves the checksum of the row.  A pair returned because the checksum
    of its row is not the one of the profile is Pending after the pass,
    still with the old checksum, and the second pass returns it again. *)
Theorem reconcile_pass_returns_stale_checksum_again :
  ListMDMAppleProfilesToInstall store_stale_checksum = [pair_H_N1]
  /\ ListMDMAppleProfilesToRemove store_stale_checksum = []
  /\ host_mdm_apple_profiles (reconcile_pass (fun _ => "cmd-2") store_stale_checksum)
     = [ {| Hmap.profile_id := 1; Hmap.host_uuid := "H";
            Hmap.profile_identifier := "I1"; Hmap.profile_name := "N1";
            Hmap.checksum := "c0";
            Hmap.operation_type := Some MDMAppleOperationTypeInstall;
            Hmap.status := Some MDMAppleDeliveryPending;
            Hmap.command_uuid := "cmd-2"; Hmap.detail := None |} ]
  /\ ListMDMAppleProfilesToInstall
       (reconcile_pass (fun _ => "cmd-2") store_stale_checksum) = [pair_H_N1].
Proof. repeat split. Qed.

(** The sibling [BulkSetPendingMDMAppleHostProfiles] writes the checksum
    of the profile on the same store, and two passes after it the lists
    are empty. *)
Lemma BulkSetPendingMDMAppleHostProfiles_writes_checksum :
  let db := snd (BulkSetPendingMDMAppleHostProfiles [] [] [] ["H"]
                   store_stale_checksum) in
  map Hmap.checksum (host_mdm_apple_profiles db) = ["c1"]
  /\ ListMDMAppleProfilesToInstall db = [pair_H_N1]
  /\ ListMDMAppleProfilesToInstall (reconcile_pass (fun _ => "cmd-2") db) = []
  /\ ListMDMAppleProfilesToRemove (reconcile_pass (fun _ => "cmd-2") db) = [].
Proof. repeat split. Qed.

(** *** What a pass leaves in the ledger *)

Lemma holds_same_hmap_key v r :
  same_hmap_key v r = true <->
  Hmap.host_uuid v = Hmap.host_uuid r /\ Hmap.profile_id v = Hmap.profile_id r.
Proof.
  unfold same_hmap_key. rewrite andb_true_iff, String.eqb_eq, N.eqb_eq.
  reflexivity.
Qed.

Lemma bulk_upsert_on_dup_self v : bulk_upsert_on_dup v v = v.
Proof. destruct v; reflexivity. Qed.

(** A row of the ledger after the upsert of [vs]: a row that no value of
    [vs] has the key of, as it was, or a row of the table or of [vs] with
    the status, operation type and command UUID of a value of its key. *)
Lemma in_fold_upsert vs :
  forall t r',
    In r' (fold_left (upsert_hmap bulk_upsert_on_dup) vs t) ->
    (In r' t /\ forall v, In v vs -> same_hmap_key v r' = false)
    \/ exists v base,
         In v vs /\ (In base t \/ In base vs)
         /\ same_hmap_key v base = true
         /\ r' = bulk_upsert_on_dup v base.
Proof.
  induction vs as [|v vs IH]; simpl; intros t r' Hin.
  - left. split; [assumption|intros v []].
  - apply IH in Hin. unfold upsert_hmap in Hin.
    destruct Hin as [(Hin & Hun)|(v' & base & Hv' & Hbase & Hk & ->)].
    + destruct (existsb (same_hmap_key v) t) eqn:He.
      * apply in_map_iff in Hin. destruct Hin as (r & Heq & Hr).
        destruct (same_hmap_key v r) eqn:Hk; subst r'.
        -- right. exists v, r. auto.
        -- left. split; [assumption|]. intros v0 [<-|Hv0]; auto.
      * apply in_app_or in Hin. destruct Hin as [Hin|[<-|[]]].
        -- left. split; [assumption|]. intros v0 [<-|Hv0]; auto.
           destruct (same_hmap_key v r') eqn:Hk; [|reflexivity].
           assert (Hx : existsb (same_hmap_key v) t = true)
             by (apply existsb_exists; exists r'; auto).
           congruence.
        -- right. exists v, v. repeat split; auto.
           ++ apply holds_same_hmap_key. auto.
           ++ symmetry. apply bulk_upsert_on_dup_self.
    + right. destruct Hbase as [Hbase|Hbase].
      * destruct (existsb (same_hmap_key v) t) eqn:He.
        -- apply in_map_iff in Hbase. destruct Hbase as (r & Heq & Hr).
           destruct (same_hmap_key v r) eqn:Hkr; subst base.
           ++ exists v', r. repeat split; auto.
           ++ exists v', r. repeat split; auto.
        -- apply in_app_or in Hbase. destruct Hbase as [Hbase|[<-|[]]].
           ++ exists v', base. repeat split; auto.
           ++ exists v', v. repeat split; auto.
      * exists v', base. repeat split; auto.
Qed.

(** The upsert deletes no key and leaves a row for every value. *)
Lemma fold_upsert_keeps_keys vs :
  forall t k,
    In k t \/ In k vs ->
    exists r', In r' (fold_left (upsert_hmap bulk_upsert_on_dup) vs t)
               /\ Hmap.host_uuid r' = Hmap.host_uuid k
               /\ Hmap.profile_id r' = Hmap.profile_id k.
Proof.
  induction vs as [|v vs IH]; simpl; intros t k Hk.
  - destruct Hk as [Hk|[]]. exists k. auto.
  - assert (Hstep : forall r, In r t ->
              exists r1, In r1 (upsert_hmap bulk_upsert_on_dup t v)
                         /\ Hmap.host_uuid r1 = Hmap.host_uuid r
                         /\ Hmap.profile_id r1 = Hmap.profile_id r).
    { intros r Hr. unfold upsert_hmap.
      destruct (existsb (same_hmap_key v) t).
      - exists (if same_hmap_key v r then bulk_upsert_on_dup v r else r).
        split; [apply in_map_iff; exists r; auto|].
        destruct (same_hmap_key v r); auto.
      - exists r. split; [apply in_or_app; left; assumption|auto]. }
    assert (Hval : exists r1, In r1 (upsert_hmap bulk_upsert_on_dup t v)
                              /\ Hmap.host_uuid r1 = Hmap.host_uuid v
                              /\ Hmap.profile_id r1 = Hmap.profile_id v).
    { unfold upsert_hmap.
      destruct (existsb (same_hmap_key v) t) eqn:He.
      - apply existsb_exists in He. destruct He as (r & Hr & Hkr).
        exists (bulk_upsert_on_dup v r). split.
        + apply in_map_iff. exists r. rewrite Hkr. auto.
        + apply holds_same_hmap_key in Hkr. simpl. destruct Hkr; auto.
      - exists v. split; [apply in_or_app; right; left; reflexivity|auto]. }
    destruct Hk as [Hk|[<-|Hk]].
    + destruct (Hstep k Hk) as (r1 & Hr1 & Hu & Hp).
      destruct (IH _ r1 (or_introl Hr1)) as (r' & Hr' & Hu' & Hp').
      exists r'. split; [assumption|]. split; congruence.
    + destruct Hval as (r1 & Hr1 & Hu & Hp).
      destruct (IH _ r1 (or_introl Hr1)) as (r' & Hr' & Hu' & Hp').
      exists r'. split; [assumption|]. split; congruence.
    + apply IH. right. assumption.
Qed.

Lemma reconcile_pass_tables cmd db :
  mdm_apple_configuration_profiles (reconcile_pass cmd db)
  = mdm_apple_configuration_profiles db
  /\ hosts (reconcile_pass cmd db) = hosts db
  /\ nano_enrollments (reconcile_pass cmd db) = nano_enrollments db
  /\ host_mdm_apple_profiles (reconcile_pass cmd db)
     = fold_left (upsert_hmap bulk_upsert_on_dup)
         (map bulk_upsert_values
            (map (pending_payload MDMAppleOperationTypeInstall cmd)
               (ListMDMAppleProfilesToInstall db)
             ++ map (pending_payload MDMAppleOperationTypeRemove cmd)
                  (ListMDMAppleProfilesToRemove db)))
         (host_mdm_apple_profiles db).
Proof.
  unfold reconcile_pass, BulkUpsertMDMAppleHostProfiles.
  destruct (map _ _ ++ map _ _) as [|b bs]; simpl; auto.
Qed.

Lemma desired_reconcile_pass cmd db d :
  desired (reconcile_pass cmd db) d <-> desired db d.
Proof.
  destruct (reconcile_pass_tables cmd db) as (Hp & Hh & Hn & _).
  unfold desired, enrolled_darwin. rewrite Hp, Hh, Hn. reflexivity.
Qed.

(** The values of a pass: an Install for a pair to install, a Remove for a
    row to remove, both Pending. *)
Lemma in_pass_values cmd db v :
  In v (map bulk_upsert_values
          (map (pending_payload MDMAppleOperationTypeInstall cmd)
             (ListMDMAppleProfilesToInstall db)
           ++ map (pending_payload MDMAppleOperationTypeRemove cmd)
                (ListMDMAppleProfilesToRemove db))) <->
  (exists d, to_install_rule db d
             /\ v = bulk_upsert_values
                      (pending_payload MDMAppleOperationTypeInstall cmd d))
  \/ (exists r, In r (host_mdm_apple_profiles db)
                /\ ~ still_desired db r /\ ~ removal_in_flight r
                /\ v = bulk_upsert_values
                         (pending_payload MDMAppleOperationTypeRemove cmd
                            (payload_of_hmap r))).
Proof.
  rewrite map_app, in_app_iff, !map_map, !in_map_iff. split.
  - intros [(d & <- & Hd)|(x & <- & Hx)].
    + left. exists d. split; [|reflexivity].
      apply in_ListMDMAppleProfilesToInstall. assumption.
    + right. apply in_ListMDMAppleProfilesToRemove in Hx.
      destruct Hx as (r & Hr & -> & Hnd & Hnf). exists r. auto.
  - intros [(d & Hd & ->)|(r & Hr & Hnd & Hnf & ->)].
    + left. exists d. split; [reflexivity|].
      apply in_ListMDMAppleProfilesToInstall. assumption.
    + right. exists (payload_of_hmap r). split; [reflexivity|].
      apply in_ListMDMAppleProfilesToRemove. exists r. auto.
Qed.

Lemma desired_checksum_by_id db d d' :
  primary_key (mdm_apple_configuration_profiles db) ->
  desired db d -> desired db d' ->
  PP.ProfileID d = PP.ProfileID d' -> PP.Checksum d = PP.Checksum d'.
Proof.
  intros Hpk (p & hr & Hp & _ & _ & _ & ->) (p' & hr' & Hp' & _ & _ & _ & ->).
  simpl. intros Hid.
  rewrite (NoDup_map_injective Macp.profile_id _ p p' Hpk Hp Hp' Hid).
  reflexivity.
Qed.

Lemma row_for_dec db d :
  (exists r, In r (host_mdm_apple_profiles db) /\ row_for d r) \/ no_row db d.
Proof.
  destruct (existsb (fun r => SQL.holds (hmap_on d r))
              (host_mdm_apple_profiles db)) eqn:He.
  - left. apply existsb_exists in He. destruct He as (r & Hr & Hon).
    exists r. split; [assumption|apply holds_hmap_on; assumption].
  - right. intros r Hr Hfor. apply holds_hmap_on in Hfor.
    assert (Hx : existsb (fun r => SQL.holds (hmap_on d r))
                   (host_mdm_apple_profiles db) = true)
      by (apply existsb_exists; exists r; auto).
    congruence.
Qed.

Lemma empty_list {A} (l : list A) : (forall x, ~ In x l) -> l = [].
Proof.
  destruct l as [|a l]; [reflexivity|]. intros Hno. exfalso.
  apply (Hno a). left; reflexivity.
Qed.

(** Apart from rows with a checksum that is not the one of the profile,
    one pass leaves nothing to install and nothing to remove. *)
Lemma reconcile_pass_converges cmd db :
  primary_key (mdm_apple_configuration_profiles db) ->
  no_stale_checksum db ->
  ListMDMAppleProfilesToInstall (reconcile_pass cmd db) = []
  /\ ListMDMAppleProfilesToRemove (reconcile_pass cmd db) = [].
Proof.
  intros Hpk Hfresh.
  destruct (reconcile_pass_tables cmd db) as (_ & _ & _ & Hledger).
  set (vs := map bulk_upsert_values
               (map (pending_payload MDMAppleOperationTypeInstall cmd)
                  (ListMDMAppleProfilesToInstall db)
                ++ map (pending_payload MDMAppleOperationTypeRemove cmd)
                     (ListMDMAppleProfilesToRemove db))) in *.
  (* a value of the key of a desired pair is an Install of its checksum *)
  assert (Hval : forall d v, desired db d -> In v vs ->
            Hmap.profile_id v = PP.ProfileID d ->
            Hmap.host_uuid v = PP.HostUUID d ->
            Hmap.operation_type v = Some MDMAppleOperationTypeInstall
            /\ Hmap.checksum v = PP.Checksum d).
  { intros d v Hd Hv Hid Hu. apply in_pass_values in Hv.
    destruct Hv as [(d0 & (Hd0 & _) & ->)|(r & Hr & Hnd & _ & ->)].
    - simpl in *. split; [reflexivity|].
      apply (desired_checksum_by_id db d0 d); assumption.
    - exfalso. apply Hnd. exists d. split; [assumption|]. split; assumption. }
  assert (Hpending : forall v, In v vs ->
            Hmap.status v = Some MDMAppleDeliveryPending
            /\ Hmap.operation_type v <> None).
  { intros v Hv. apply in_pass_values in Hv.
    destruct Hv as [(d0 & _ & ->)|(r & _ & _ & _ & ->)]; simpl;
      split; congruence. }
  split; apply empty_list.
  - intros d Hin. apply in_ListMDMAppleProfilesToInstall in Hin.
    destruct Hin as (Hd & Hrows). apply desired_reconcile_pass in Hd.
    unfold no_row in Hrows. rewrite Hledger in Hrows.
    destruct Hrows as [Hnone|(r' & Hr' & (Hid & Hu) & Hcase)].
    + (* the pair has a row after the pass *)
      assert (Hk : exists k, (In k (host_mdm_apple_profiles db) \/ In k vs)
                             /\ Hmap.host_uuid k = PP.HostUUID d
                             /\ Hmap.profile_id k = PP.ProfileID d).
      { destruct (row_for_dec db d) as [(r & Hr & Hpid & Hhu)|Hno].
        - exists r. auto.
        - exists (bulk_upsert_values
                    (pending_payload MDMAppleOperationTypeInstall cmd d)).
          split; [|split; reflexivity]. right. apply in_pass_values.
          left. exists d. split; [|reflexivity]. split; [assumption|].
          left. assumption. }
      destruct Hk as (k & Hk & Hku & Hkp).
      destruct (fold_upsert_keeps_keys vs _ k Hk) as (r' & Hr' & Hu & Hp).
      apply (Hnone r' Hr'). split; congruence.
    + apply in_fold_upsert in Hr'.
      destruct Hr' as [(Hr' & Hun)|(v & base & Hv & Hbase & Hk & ->)].
      * (* an untouched row was not a reason to install *)
        assert (Hrule : to_install_rule db d).
        { split; [assumption|]. right. exists r'. repeat split; auto. }
        assert (Hv : In (bulk_upsert_values
                           (pending_payload MDMAppleOperationTypeInstall
                              cmd d)) vs)
          by (apply in_pass_values; left; exists d; auto).
        specialize (Hun _ Hv).
        assert (Hx : same_hmap_key
                       (bulk_upsert_values
                          (pending_payload MDMAppleOperationTypeInstall
                             cmd d)) r' = true)
          by (apply holds_same_hmap_key; simpl; split; congruence).
        congruence.
      * apply holds_same_hmap_key in Hk. destruct Hk as (Hku & Hkp).
        simpl in Hid, Hu, Hcase.
        destruct (Hval d v Hd Hv) as (Hop & _); [congruence|congruence|].
        destruct (Hpending v Hv) as (Hst & _).
        destruct Hcase as [Hc|[Hc|[(_ & Hc)|Hc]]]; try congruence.
        apply Hc. destruct Hbase as [Hbase|Hbase].
        -- apply Hfresh; [assumption|assumption|split; assumption].
        -- apply (Hval d base Hd Hbase); assumption.
  - intros x Hin. apply in_ListMDMAppleProfilesToRemove in Hin.
    destruct Hin as (r' & Hr' & _ & Hnd & Hnf). rewrite Hledger in Hr'.
    assert (Hnd' : ~ still_desired db r').
    { intros (d & Hd & Hfor). apply Hnd. exists d.
      split; [apply desired_reconcile_pass; assumption|assumption]. }
    apply in_fold_upsert in Hr'.
    destruct Hr' as [(Hr' & Hun)|(v & base & Hv & Hbase & Hk & ->)].
    + assert (Hv : In (bulk_upsert_values
                         (pending_payload MDMAppleOperationTypeRemove cmd
                            (payload_of_hmap r'))) vs)
        by (apply in_pass_values; right; exists r'; auto).
      specialize (Hun _ Hv).
      assert (Hx : same_hmap_key
                     (bulk_upsert_values
                        (pending_payload MDMAppleOperationTypeRemove cmd
                           (payload_of_hmap r'))) r' = true)
        by (apply holds_same_hmap_key; simpl; split; reflexivity).
      congruence.
    + apply holds_same_hmap_key in Hk. destruct Hk as (Hku & Hkp).
      apply in_pass_values in Hv.
      destruct Hv as [(d0 & (Hd0 & _) & ->)|(r & _ & _ & _ & ->)].
      * apply Hnd'. exists d0. split; [assumption|].
        unfold row_for. simpl in *. split; congruence.
      * apply Hnf. unfold removal_in_flight. simpl. split; congruence.
Qed.

(** ** The scenario of the specification *)

(** After the first pass the ledger has a Pending Install for I1 and for
    I2; the results make I1 Verifying and I2 Failed with the detail of the
    error; the second pass finds nothing to install or remove and leaves
    the ledger as it is. *)
Lemma scenario_two_passes :
  ledger_view scenario_first_pass
  = [("I1", Some MDMAppleOperationTypeInstall,
      Some MDMAppleDeliveryPending, None);
     ("I2", Some MDMAppleOperationTypeInstall,
      Some MDMAppleDeliveryPending, None)]
  /\ ledger_view scenario_results
     = [("I1", Some MDMAppleOperationTypeInstall,
         Some MDMAppleDeliveryVerifying, Some "");
        ("I2", Some MDMAppleOperationTypeInstall,
         Some MDMAppleDeliveryFailed, Some "Unknown command")]
  /\ ListMDMAppleProfilesToInstall scenario_results = []
  /\ ListMDMAppleProfilesToRemove scenario_results = []
  /\ reconcile_pass scenario_cmd scenario_results = scenario_results.
Proof. repeat split. Qed.

(** * More of the datastore *)

(** ** ListMDMAppleConfigProfiles *)

Lemma in_insert_by {R} le (key : R -> string) x l y :
  In y (insert_by le key x l) <-> y = x \/ In y l.
Proof.
  induction l as [|z l IH]; simpl.
  - intuition.
  - destruct (le (key x) (key z)); simpl; [intuition|].
    rewrite IH. intuition.
Qed.

Lemma in_order_by {R} le (key : R -> string) l y :
  In y (order_by le key l) <-> In y l.
Proof.
  unfold order_by. induction l as [|x l IH]; simpl; [reflexivity|].
  rewrite in_insert_by, IH. intuition.
Qed.

Lemma insert_by_sorted {R} le (key : R -> string) x l :
  (forall a b, le a b = true \/ le b a = true) ->
  Sorted (fun a b => le (key a) (key b) = true) l ->
  Sorted (fun a b => le (key a) (key b) = true) (insert_by le key x l).
Proof.
  intros Htot Hs. induction Hs as [|z l Hs IH Hhd]; simpl.
  - constructor; constructor.
  - destruct (le (key x) (key z)) eqn:Hle.
    + constructor; [constructor; assumption|constructor; assumption].
    + constructor; [assumption|].
      assert (Hzx : le (key z) (key x) = true)
        by (destruct (Htot (key x) (key z)); congruence).
      destruct l as [|w l]; simpl; [constructor; assumption|].
      inversion Hhd; subst.
      destruct (le (key x) (key w)); constructor; assumption.
Qed.

Lemma order_by_sorted {R} le (key : R -> string) l :
  (forall a b, le a b = true \/ le b a = true) ->
  Sorted (fun a b => le (key a) (key b) = true) (order_by le key l).
Proof.
  intros Htot. unfold order_by. induction l as [|x l IH]; simpl.
  - constructor.
  - apply insert_by_sorted; assumption.
Qed.

Lemma Sorted_map {A B} (f : A -> B) (R : B -> B -> Prop) l :
  Sorted (fun a b => R (f a) (f b)) l -> Sorted R (map f l).
Proof.
  induction 1 as [|x l Hs IH Hhd]; simpl; constructor; [assumption|].
  destruct Hhd; simpl; constructor. assumption.
Qed.

(** X1.  With identifiers reserved for Fleet, [ListMDMAppleConfigProfiles]
    returns the profiles of the scope (team 0 for a nil team) whose
    identifier is not reserved, and only those: a reserved profile is never
    listed.  For a total order of the collation the list is in the order
    of the names. *)
Theorem ListMDMAppleConfigProfiles_lists `{Externals}
  (collation : string -> string -> bool) (teamID : option N)
  (db : Datastore) :
  FleetPayloadIdentifiers <> [] ->
  (forall a b, collation a b = true \/ collation b a = true) ->
  exists l,
    ListMDMAppleConfigProfiles collation teamID db = Ok l
    /\ (forall c, In c l <->
          exists r, In r (mdm_apple_configuration_profiles db)
                    /\ Macp.team_id r = scope_of teamID
                    /\ ~ In (Macp.identifier r) FleetPayloadIdentifiers
                    /\ c = scan_profile r)
    /\ Sorted (fun a b => collation (CP.Name a) (CP.Name b) = true) l.
Proof.
  intros Hfleet Htot. unfold ListMDMAppleConfigProfiles.
  fold (scope_of teamID).
  assert (Hne : non_empty FleetPayloadIdentifiers = true)
    by (destruct FleetPayloadIdentifiers; [congruence|reflexivity]).
  rewrite Hne. eexists. split; [reflexivity|]. split.
  - intros c. rewrite in_map_iff. split.
    + intros (r & <- & Hr). apply in_order_by in Hr. apply filter_In in Hr.
      destruct Hr as (Hr & Hc). apply andb_prop in Hc.
      destruct Hc as (Ht & Hn). apply N.eqb_eq in Ht.
      apply negb_true_iff in Hn. exists r. repeat split; auto.
      intros Hin. apply existsb_string_In in Hin. congruence.
    + intros (r & Hr & Ht & Hn & ->). exists r. split; [reflexivity|].
      apply in_order_by. apply filter_In. split; [assumption|].
      apply andb_true_intro. split; [apply N.eqb_eq; assumption|].
      apply negb_true_iff.
      destruct (existsb (String.eqb (Macp.identifier r))
                  FleetPayloadIdentifiers) eqn:He; [|reflexivity].
      exfalso. apply Hn. apply existsb_string_In. assumption.
  - apply Sorted_map. simpl.
    apply (order_by_sorted collation Macp.name). assumption.
Qed.

Lemma ListMDMAppleConfigProfiles_lists_witness :
  @ListMDMAppleConfigProfiles sample_externals String.leb None
    (store_with_profiles [profile_I9; filevault_profile; profile_N1])
  = Ok [scan_profile profile_N1; scan_profile profile_I9].
Proof.
  destruct (@ListMDMAppleConfigProfiles_lists sample_externals String.leb None
              (store_with_profiles [profile_I9; filevault_profile; profile_N1]))
    as (l & Hrun & _).
  - discriminate.
  - apply String.leb_total.
  - rewrite Hrun. vm_compute in Hrun. inversion Hrun. reflexivity.
Defined.

(** ** GetHostMDMProfiles *)


(** ** GetMDMAppleProfilesContents *)

Lemma uintmap_get_set {V} k k' (v : V) m :
  uintmap_get k (uintmap_set k' v m)
  = if k' =? k then Some v else uintmap_get k m.
Proof.
  unfold uintmap_get. induction m as [|(k0, v0) m IH]; simpl.
  - destruct (k' =? k); reflexivity.
  - destruct (N.eqb_spec k0 k') as [->|Hne]; simpl.
    + destruct (k' =? k); reflexivity.
    + destruct (N.eqb_spec k0 k) as [->|Hne0]; simpl.
      * destruct (N.eqb_spec k' k); [congruence|reflexivity].
      * exact IH.
Qed.

Lemma primary_key_filter (w : Macp.row -> bool) t :
  primary_key t -> primary_key (filter w t).
Proof.
  unfold primary_key. induction t as [|x t IH]; simpl; intros Hpk;
    [constructor|].
  inversion Hpk as [|y l Hnotin Hnd]; subst.
  destruct (w x); simpl; [|apply IH; assumption].
  constructor; [|apply IH; assumption].
  intros Hin. apply Hnotin. apply in_map_iff in Hin.
  destruct Hin as (z & Hz & Hin). apply filter_In in Hin.
  rewrite <- Hz. apply in_map. tauto.
Qed.

Lemma fold_uintmap_set k rows :
  forall acc,
    NoDup (map Macp.profile_id rows) ->
    (forall r, In r rows -> Macp.profile_id r = k ->
       uintmap_get k
         (fold_left (fun results r =>
                       uintmap_set (Macp.profile_id r) (Macp.mobileconfig r)
                         results) rows acc)
       = Some (Macp.mobileconfig r))
    /\ ((forall r, In r rows -> Macp.profile_id r <> k) ->
        uintmap_get k
          (fold_left (fun results r =>
                        uintmap_set (Macp.profile_id r) (Macp.mobileconfig r)
                          results) rows acc)
        = uintmap_get k acc).
Proof.
  induction rows as [|x rows IH]; simpl; intros acc Hnd.
  - split; [intros r []|reflexivity].
  - inversion Hnd as [|y l Hnotin Hnd']; subst.
    destruct (IH (uintmap_set (Macp.profile_id x) (Macp.mobileconfig x) acc)
                Hnd') as (Hhit & Hmiss).
    split.
    + intros r [<-|Hr] Hid.
      * rewrite Hmiss.
        -- rewrite uintmap_get_set, Hid, N.eqb_refl. reflexivity.
        -- intros r Hr Hid'. apply Hnotin. rewrite Hid, <- Hid'.
           apply in_map. assumption.
      * apply Hhit; assumption.
    + intros Hno. rewrite Hmiss.
      * rewrite uintmap_get_set.
        destruct (N.eqb_spec (Macp.profile_id x) k) as [Heq|Hne];
          [|reflexivity].
        exfalso. apply (Hno x); [left; reflexivity|assumption].
      * intros r Hr. apply Hno. right. assumption.
Qed.

(** X3.  With [profile_id] the primary key,
    [GetMDMAppleProfilesContents] maps the id of every profile that is
    asked for and is in the table to its payload, and has no entry for an
    id that is not asked for or that no profile has; for no ids it returns
    the empty map. *)
Theorem GetMDMAppleProfilesContents_lookup (ids : list N) (db : Datastore) :
  primary_key (mdm_apple_configuration_profiles db) ->
  (forall r, In r (mdm_apple_configuration_profiles db) ->
     In (Macp.profile_id r) ids ->
     uintmap_get (Macp.profile_id r) (GetMDMAppleProfilesContents ids db)
     = Some (Macp.mobileconfig r))
  /\ (forall id, ~ In id ids \/ ~ profile_with_id db id ->
        uintmap_get id (GetMDMAppleProfilesContents ids db) = None)
  /\ GetMDMAppleProfilesContents [] db = [].
Proof.
  intros Hpk. unfold GetMDMAppleProfilesContents.
  set (rows := filter (fun r => existsb (N.eqb (Macp.profile_id r)) ids)
                 (mdm_apple_configuration_profiles db)).
  assert (Hnd : NoDup (map Macp.profile_id rows))
    by (apply primary_key_filter; assumption).
  split; [|split; [|reflexivity]].
  - intros r Hr Hin. destruct ids as [|i ids']; [destruct Hin|].
    simpl non_empty. cbv iota beta. simpl negb. cbv iota.
    apply (fold_uintmap_set (Macp.profile_id r) rows [] Hnd); [|reflexivity].
    apply filter_In. split; [assumption|]. apply existsb_N_In. assumption.
  - intros id Hno. destruct (non_empty ids); simpl; [|reflexivity].
    destruct (fold_uintmap_set id rows [] Hnd) as (_ & Hmiss).
    rewrite Hmiss; [reflexivity|].
    intros r Hr Hid. apply filter_In in Hr. destruct Hr as (Hr & Hc).
    apply existsb_N_In in Hc. destruct Hno as [Hno|Hno]; apply Hno.
    + rewrite <- Hid. assumption.
    + exists r. auto.
Qed.

Lemma GetMDMAppleProfilesContents_lookup_witness :
  uintmap_get 3
    (GetMDMAppleProfilesContents [3; 8]
       (store_with_profiles [profile_N1; filevault_profile; profile_I9]))
  = Some "<plist>z</plist>"
  /\ uintmap_get 8
       (GetMDMAppleProfilesContents [3; 8]
          (store_with_profiles [profile_N1; filevault_profile; profile_I9]))
     = None.
Proof.
  destruct (GetMDMAppleProfilesContents_lookup [3; 8]
              (store_with_profiles [profile_N1; filevault_profile; profile_I9]))
    as (Hhit & Hmiss & _).
  - repeat constructor; simpl; intuition discriminate.
  - split.
    + apply (Hhit profile_I9).
      * right; right; left; reflexivity.
      * left; reflexivity.
    + apply Hmiss. right. intros (r & [<-|[<-|[<-|[]]]] & Hid); discriminate.
Defined.

(** ** A new profile, read back *)

Lemma filter_id_above id t :
  (forall r, In r t -> Macp.profile_id r < id) ->
  filter (fun r => Macp.profile_id r =? id) t = [].
Proof.
  intros Hlt. apply filter_id_nil. intros (r & Hr & Hid).
  specialize (Hlt r Hr). lia.
Qed.

(** X4.  A profile that [NewMDMAppleConfigProfile] has created is read
    back by [GetMDMAppleConfigProfile] under the id returned, with the
    identifier, name and payload given; the team read back is never nil:
    it is 0 for a profile created with a nil team.  The profiles that were
    in the table are still there. *)
Theorem NewMDMAppleConfigProfile_then_Get `{Externals} (cp c : CP.t)
  (db db' : Datastore) :
  NewMDMAppleConfigProfile cp db = (Ok c, db') ->
  GetMDMAppleConfigProfile (CP.ProfileID c) db'
  = Ok {| CP.ProfileID := CP.ProfileID c;
          CP.TeamID := Some (scope_of (CP.TeamID cp));
          CP.Identifier := CP.Identifier cp;
          CP.Name := CP.Name cp;
          CP.Mobileconfig := CP.Mobileconfig cp |}
  /\ (forall r, In r (mdm_apple_configuration_profiles db) ->
        In r (mdm_apple_configuration_profiles db')
        /\ Macp.profile_id r <> CP.ProfileID c).
Proof.
  unfold NewMDMAppleConfigProfile, insert_profile.
  fold (scope_of (CP.TeamID cp)).
  destruct (existsb (same_team_identifier _ _) _); [discriminate|].
  destruct (existsb (same_team_name _ _) _); [discriminate|].
  simpl. intros Heq. inversion Heq; subst; clear Heq. simpl. split.
  - unfold GetMDMAppleConfigProfile. simpl. rewrite filter_app. simpl.
    rewrite N.eqb_refl.
    rewrite (filter_id_above _ _
               (next_profile_id_above (mdm_apple_configuration_profiles db))).
    reflexivity.
  - intros r Hr. split; [apply in_or_app; left; assumption|].
    pose proof (next_profile_id_above _ r Hr). lia.
Qed.

Lemma NewMDMAppleConfigProfile_then_Get_witness :
  exists c db',
    @NewMDMAppleConfigProfile sample_externals (incoming "I3" "N3" "x")
      (store_with_profiles [profile_N1]) = (Ok c, db')
    /\ GetMDMAppleConfigProfile (CP.ProfileID c) db'
       = Ok {| CP.ProfileID := 2; CP.TeamID := Some 0;
               CP.Identifier := "I3"; CP.Name := "N3";
               CP.Mobileconfig := "x" |}.
Proof.
  eexists _, _. split; [reflexivity|].
  exact (proj1 (@NewMDMAppleConfigProfile_then_Get sample_externals
                  (incoming "I3" "N3" "x") _
                  (store_with_profiles [profile_N1]) _ eq_refl)).
Defined.

(** ** The checksum of a profile row *)

Lemma checksums_update_by_id `{Externals} id f t :
  (forall r, Macp.checksum (f r) = MD5 (Macp.mobileconfig (f r))) ->
  checksums_current t -> checksums_current (update_by_id id f t).
Proof.
  intros Hf Ht r Hr. unfold update_by_id in Hr. apply in_map_iff in Hr.
  destruct Hr as (x & <- & Hx).
  destruct (Macp.profile_id x =? id); [apply Hf|apply Ht; assumption].
Qed.

Lemma checksums_new `{Externals} t team ident nm mc :
  checksums_current t ->
  checksums_current (t ++ [new_row t team ident nm mc]).
Proof.
  intros Ht r Hr. apply in_app_or in Hr.
  destruct Hr as [Hr|[<-|[]]]; [apply Ht; assumption|reflexivity].
Qed.

Lemma checksums_filter `{Externals} (w : Macp.row -> bool) t :
  checksums_current t -> checksums_current (filter w t).
Proof. intros Ht r Hr. apply filter_In in Hr. apply Ht. tauto. Qed.

Lemma checksums_insertNewOrEditedProfile `{Externals} team ident nm mc t t' :
  insertNewOrEditedProfile team ident nm mc t = Ok t' ->
  checksums_current t -> checksums_current t'.
Proof.
  unfold insertNewOrEditedProfile. intros Hrun Ht.
  destruct (find (same_team_identifier team ident) t) as [r0|].
  - destruct (existsb _ t); inversion Hrun; subst.
    apply checksums_update_by_id; [reflexivity|assumption].
  - destruct (find (same_team_name team nm) t) as [r0|];
      inversion Hrun; subst.
    + apply checksums_update_by_id; [reflexivity|assumption].
    + apply checksums_new. assumption.
Qed.

Lemma checksums_insert_all `{Externals} team range :
  forall t t',
    insert_all team range t = Ok t' ->
    checksums_current t -> checksums_current t'.
Proof.
  induction range as [|p rest IH]; simpl; intros t t' Hrun Ht.
  - inversion Hrun; subst. assumption.
  - destruct (insertNewOrEditedProfile team (CP.Identifier p) (CP.Name p)
                (CP.Mobileconfig p) t) as [t2|e] eqn:Hstep; [|discriminate].
    apply (IH t2 t' Hrun).
    apply (checksums_insertNewOrEditedProfile _ _ _ _ _ _ Hstep Ht).
Qed.

Lemma checksums_upsert_config_profile `{Externals} t cp :
  checksums_current t -> checksums_current (upsert_config_profile t cp).
Proof.
  intros Ht. unfold upsert_config_profile.
  destruct (find (same_team_identifier _ _) t) as [r0|].
  - apply checksums_update_by_id; [reflexivity|assumption].
  - destruct (find (same_team_name _ _) t) as [r0|].
    + apply checksums_update_by_id; [reflexivity|assumption].
    + apply checksums_new. assumption.
Qed.

(** X5.  Every function that writes mdm_apple_configuration_profiles
    keeps the checksum of each row the hash of its payload: the creation
    of a profile, the bulk replace (in any order of its loop, whether it
    succeeds or fails), the bulk upsert and the two deletions. *)
Theorem profile_writers_keep_checksums `{Externals} (cp : CP.t)
  (range profiles payload : list CP.t) (tmID : option N) (id : N)
  (ident : string) (db : Datastore) :
  checksums_current (mdm_apple_configuration_profiles db) ->
  checksums_current
    (mdm_apple_configuration_profiles (snd (NewMDMAppleConfigProfile cp db)))
  /\ checksums_current
       (mdm_apple_configuration_profiles
          (snd (BatchSetMDMAppleProfiles range tmID profiles db)))
  /\ checksums_current
       (mdm_apple_configuration_profiles
          (snd (BulkUpsertMDMAppleConfigProfiles payload db)))
  /\ checksums_current
       (mdm_apple_configuration_profiles
          (snd (DeleteMDMAppleConfigProfile id db)))
  /\ checksums_current
       (mdm_apple_configuration_profiles
          (snd (DeleteMDMAppleConfigProfileByTeamAndIdentifier tmID ident
                  db))).
Proof.
  intros Hdb. split; [|split; [|split; [|split]]].
  - unfold NewMDMAppleConfigProfile, insert_profile.
    destruct (existsb (same_team_identifier _ _) _); [exact Hdb|].
    destruct (existsb (same_team_name _ _) _); [exact Hdb|].
    simpl. apply checksums_new. assumption.
  - rewrite BatchSetMDMAppleProfiles_unfold. simpl.
    destruct (non_empty _); [|exact Hdb].
    rewrite for_each_insert_all.
    destruct (insert_all _ range _) as [t'|e] eqn:Hrun; [|exact Hdb].
    simpl. apply (checksums_insert_all _ _ _ _ Hrun).
    unfold deleteProfilesNotInList. simpl. apply checksums_filter.
    assumption.
  - unfold BulkUpsertMDMAppleConfigProfiles.
    destruct (non_empty payload); simpl; [|exact Hdb].
    revert Hdb. generalize (mdm_apple_configuration_profiles db).
    induction payload as [|p ps IH]; simpl; intros t Ht; [assumption|].
    apply IH. apply checksums_upsert_config_profile. assumption.
  - unfold DeleteMDMAppleConfigProfile, delete_where.
    destruct (negb _); simpl; apply checksums_filter; assumption.
  - unfold DeleteMDMAppleConfigProfileByTeamAndIdentifier, delete_where.
    destruct (Nat.eqb _ _); simpl; apply checksums_filter; assumption.
Qed.

Lemma profile_writers_keep_checksums_witness :
  checksums_current (H := sample_externals)
    (mdm_apple_configuration_profiles
       (snd (@BatchSetMDMAppleProfiles sample_externals incoming_edit_and_new
               None incoming_edit_and_new
               (store_with_profiles [filevault_profile; profile_I9])))).
Proof.
  refine (proj1 (proj2 (@profile_writers_keep_checksums sample_externals
                          (incoming "I3" "N3" "x") incoming_edit_and_new
                          incoming_edit_and_new [] None 1 "I9"
                          (store_with_profiles [filevault_profile; profile_I9])
                          _))).
  intros r [<-|[<-|[]]]; reflexivity.
Defined.

(** ** BulkUpsertMDMAppleConfigProfiles *)

Lemma upsert_config_profile_keeps `{Externals} t cp r :
  In r t ->
  exists r', In r' (upsert_config_profile t cp) /\ same_named_profile r r'.
Proof.
  intros Hr.
  assert (Hmap : forall id mc,
            exists r', In r' (update_by_id id (set_payload mc) t)
                       /\ same_named_profile r r').
  { intros id mc.
    exists (if Macp.profile_id r =? id then set_payload mc r else r). split.
    - unfold update_by_id. apply in_map_iff. exists r. auto.
    - destruct (Macp.profile_id r =? id); repeat split. }
  unfold upsert_config_profile.
  destruct (find (same_team_identifier _ _) t) as [r0|]; [apply Hmap|].
  destruct (find (same_team_name _ _) t) as [r0|]; [apply Hmap|].
  exists r. split; [apply in_or_app; left; assumption|repeat split].
Qed.

(** X6.  [BulkUpsertMDMAppleConfigProfiles] returns nil, touches no other
    table, and deletes and renames nothing: every profile of the table is
    still there with its id, team, identifier and name.  An empty payload
    leaves the store as it is. *)
Theorem BulkUpsertMDMAppleConfigProfiles_keeps `{Externals}
  (payload : list CP.t) (db : Datastore) :
  fst (BulkUpsertMDMAppleConfigProfiles payload db) = None
  /\ set_profiles (mdm_apple_configuration_profiles db)
       (snd (BulkUpsertMDMAppleConfigProfiles payload db)) = db
  /\ (forall r, In r (mdm_apple_configuration_profiles db) ->
        exists r',
          In r' (mdm_apple_configuration_profiles
                   (snd (BulkUpsertMDMAppleConfigProfiles payload db)))
          /\ same_named_profile r r')
  /\ BulkUpsertMDMAppleConfigProfiles [] db = (None, db).
Proof.
  unfold BulkUpsertMDMAppleConfigProfiles.
  destruct (non_empty payload) eqn:Hne; simpl.
  - split; [reflexivity|]. split; [destruct db; reflexivity|].
    split; [|reflexivity].
    generalize (mdm_apple_configuration_profiles db).
    clear Hne. induction payload as [|p ps IH]; simpl; intros t r Hr.
    + exists r. split; [assumption|repeat split].
    + destruct (upsert_config_profile_keeps t p r Hr)
        as (r1 & Hr1 & (Ha1 & Hb1 & Hc1) & Hd1).
      destruct (IH _ r1 Hr1) as (r2 & Hr2 & (Ha2 & Hb2 & Hc2) & Hd2).
      exists r2. split; [assumption|]. repeat split; congruence.
  - split; [reflexivity|]. split; [apply set_profiles_same|].
    split; [|reflexivity].
    intros r Hr. exists r. split; [assumption|repeat split].
Qed.

(** A profile row with a payload written to it, as a record and by its
    fields. *)
Lemma payload_written_set_payload `{Externals} mc r x :
  payload_written mc r x <-> x = set_payload mc r.
Proof.
  unfold payload_written, set_payload. destruct x; simpl. split.
  - intros (-> & -> & -> & -> & -> & ->). reflexivity.
  - intros Heq. inversion Heq. repeat split.
Qed.

(** X7.  On a table that has its keys, the bulk upsert of one profile
    whose (team, identifier) is in the table writes the payload and the
    checksum of the payload to that row and keeps the id, the team, the
    identifier and the name of the row, whatever name the incoming profile
    has; every other row is as before. *)
Theorem BulkUpsertMDMAppleConfigProfiles_edits `{Externals} (cp : CP.t)
  (db : Datastore) (r : Macp.row) :
  wf_profiles (mdm_apple_configuration_profiles db) ->
  In r (mdm_apple_configuration_profiles db) ->
  matches (scope_of (CP.TeamID cp)) cp r ->
  forall x,
    In x (mdm_apple_configuration_profiles
            (snd (BulkUpsertMDMAppleConfigProfiles [cp] db))) <->
    (Macp.profile_id x = Macp.profile_id r
     /\ Macp.team_id x = Macp.team_id r
     /\ Macp.identifier x = Macp.identifier r
     /\ Macp.name x = Macp.name r
     /\ Macp.mobileconfig x = CP.Mobileconfig cp
     /\ Macp.checksum x = MD5 (CP.Mobileconfig cp))
    \/ (In x (mdm_apple_configuration_profiles db) /\ x <> r).
Proof.
  intros (Hpk & Huniq) Hr Hm x.
  fold (payload_written (CP.Mobileconfig cp) r x).
  rewrite payload_written_set_payload.
  unfold BulkUpsertMDMAppleConfigProfiles. simpl.
  unfold upsert_config_profile. fold (scope_of (CP.TeamID cp)).
  destruct (find (same_team_identifier (scope_of (CP.TeamID cp))
                    (CP.Identifier cp))
              (mdm_apple_configuration_profiles db)) as [r0|] eqn:Hfind.
  - apply find_some in Hfind. destruct Hfind as (Hr0 & Hm0).
    apply holds_same_team_identifier in Hm0.
    assert (r0 = r).
    { destruct Hm as (Ht & Hi), Hm0 as (Ht0 & Hi0).
      apply Huniq; congruence. }
    subst r0. unfold update_by_id. rewrite in_map_iff. split.
    + intros (y & Hy & Hin).
      destruct (N.eqb_spec (Macp.profile_id y) (Macp.profile_id r))
        as [Heq|Hne].
      * rewrite (NoDup_map_injective Macp.profile_id _ y r Hpk Hin Hr Heq)
          in Hy.
        left. congruence.
      * subst x. right. split; [assumption|]. intros ->. congruence.
    + intros [->|(Hx & Hne)].
      * exists r. rewrite N.eqb_refl. auto.
      * exists x. split; [|assumption].
        destruct (N.eqb_spec (Macp.profile_id x) (Macp.profile_id r))
          as [Heq|Hne']; [|reflexivity].
        exfalso. apply Hne.
        apply (NoDup_map_injective Macp.profile_id _ x r Hpk Hx Hr Heq).
  - exfalso. apply holds_same_team_identifier in Hm.
    rewrite (find_none _ _ Hfind r Hr) in Hm. discriminate.
Qed.

Lemma BulkUpsertMDMAppleConfigProfiles_edits_witness :
  In {| Macp.profile_id := 3; Macp.team_id := 0; Macp.identifier := "I9";
        Macp.name := "N9"; Macp.mobileconfig := "<plist>new</plist>";
        Macp.checksum := "md5:<plist>new</plist>" |}
    (mdm_apple_configuration_profiles
       (snd (@BulkUpsertMDMAppleConfigProfiles sample_externals
               [incoming "I9" "another name" "<plist>new</plist>"]
               (store_with_profiles [filevault_profile; profile_I9])))).
Proof.
  apply (@BulkUpsertMDMAppleConfigProfiles_edits sample_externals
           (incoming "I9" "another name" "<plist>new</plist>")
           (store_with_profiles [filevault_profile; profile_I9]) profile_I9).
  - split.
    + repeat constructor; simpl; intuition discriminate.
    + intros r1 r2 [<-|[<-|[]]] [<-|[<-|[]]]; simpl; intros;
        try reflexivity; discriminate.
  - right; left; reflexivity.
  - split; reflexivity.
  - left. repeat split.
Defined.

(** ** BulkUpsertMDMAppleHostProfiles, applied twice *)

Lemma same_unwritten_refl r : same_unwritten r r.
Proof. repeat split. Qed.

Lemma same_unwritten_trans a b c :
  same_unwritten a b -> same_unwritten b c -> same_unwritten a c.
Proof.
  intros (A1 & A2 & A3 & A4 & A5 & A6) (B1 & B2 & B3 & B4 & B5 & B6).
  repeat split; congruence.
Qed.

Lemma same_unwritten_on_dup v r : same_unwritten (bulk_upsert_on_dup v r) r.
Proof. repeat split. Qed.

Lemma on_dup_unwritten v a b :
  same_unwritten a b -> bulk_upsert_on_dup v a = bulk_upsert_on_dup v b.
Proof.
  intros (A1 & A2 & A3 & A4 & A5 & A6). unfold bulk_upsert_on_dup.
  rewrite A1, A2, A3, A4, A5, A6. reflexivity.
Qed.

Lemma same_hmap_key_unwritten v a b :
  same_unwritten a b -> same_hmap_key v a = same_hmap_key v b.
Proof.
  intros (A1 & A2 & _). unfold same_hmap_key. rewrite A1, A2. reflexivity.
Qed.

Lemma written_by_unwritten vs : forall r, same_unwritten (written_by vs r) r.
Proof.
  unfold written_by. induction vs as [|v vs IH]; simpl; intros r.
  - apply same_unwritten_refl.
  - apply (same_unwritten_trans _ _ _ (IH _)).
    destruct (same_hmap_key v r);
      [apply same_unwritten_on_dup|apply same_unwritten_refl].
Qed.

Lemma written_by_app vs v r :
  written_by (vs ++ [v]) r
  = if same_hmap_key v (written_by vs r)
    then bulk_upsert_on_dup v (written_by vs r) else written_by vs r.
Proof. unfold written_by. rewrite fold_left_app. reflexivity. Qed.

(** When every value has its key in the table the upsert only writes. *)
Lemma fold_upsert_saturated vs :
  forall t,
    (forall v, In v vs -> existsb (same_hmap_key v) t = true) ->
    fold_left (upsert_hmap bulk_upsert_on_dup) vs t = map (written_by vs) t.
Proof.
  induction vs as [|v vs IH]; simpl; intros t Hsat.
  - symmetry. apply map_id.
  - unfold upsert_hmap at 2. rewrite (Hsat v (or_introl eq_refl)).
    rewrite IH.
    + rewrite map_map. reflexivity.
    + intros v' Hv'. specialize (Hsat v' (or_intror Hv')).
      apply existsb_exists in Hsat. destruct Hsat as (r & Hr & Hk).
      apply existsb_exists.
      exists (if same_hmap_key v r then bulk_upsert_on_dup v r else r).
      split; [apply in_map_iff; exists r; auto|].
      rewrite <- Hk. apply same_hmap_key_unwritten.
      destruct (same_hmap_key v r);
        [apply same_unwritten_on_dup|apply same_unwritten_refl].
Qed.

(** The rows after the upsert carry what the values write. *)
Lemma fold_upsert_written vs :
  forall t r',
    In r' (fold_left (upsert_hmap bulk_upsert_on_dup) vs t) ->
    written_by vs r' = r'.
Proof.
  induction vs as [|v vs IH] using rev_ind; intros t r' Hin.
  - reflexivity.
  - rewrite fold_left_app in Hin. simpl in Hin.
    rewrite written_by_app.
    assert (Hkey : forall r0, written_by vs r0 = r0 ->
              same_hmap_key v r0 = false ->
              (if same_hmap_key v (written_by vs r0)
               then bulk_upsert_on_dup v (written_by vs r0)
               else written_by vs r0) = r0).
    { intros r0 Hfix Hk. rewrite Hfix, Hk. reflexivity. }
    assert (Hhit : forall r0, same_hmap_key v r0 = true ->
              (if same_hmap_key v (written_by vs (bulk_upsert_on_dup v r0))
               then bulk_upsert_on_dup v
                      (written_by vs (bulk_upsert_on_dup v r0))
               else written_by vs (bulk_upsert_on_dup v r0))
              = bulk_upsert_on_dup v r0).
    { intros r0 Hk.
      assert (Hu : same_unwritten (written_by vs (bulk_upsert_on_dup v r0)) r0)
        by (apply (same_unwritten_trans _ _ _ (written_by_unwritten vs _));
            apply same_unwritten_on_dup).
      rewrite (same_hmap_key_unwritten v _ _ Hu), Hk.
      apply on_dup_unwritten. assumption. }
    set (F := fold_left (upsert_hmap bulk_upsert_on_dup) vs t) in *.
    unfold upsert_hmap in Hin.
    destruct (existsb (same_hmap_key v) F) eqn:He.
    + apply in_map_iff in Hin. destruct Hin as (r0 & <- & Hr0).
      destruct (same_hmap_key v r0) eqn:Hk.
      * apply Hhit. assumption.
      * apply Hkey; [apply (IH t); assumption|assumption].
    + apply in_app_or in Hin. destruct Hin as [Hin|[<-|[]]].
      * apply Hkey; [apply (IH t); assumption|].
        destruct (same_hmap_key v r') eqn:Hk; [|reflexivity].
        assert (Hx : existsb (same_hmap_key v) F = true)
          by (apply existsb_exists; exists r'; auto).
        congruence.
      * assert (Hself : same_hmap_key v v = true)
          by (apply holds_same_hmap_key; auto).
        pose proof (Hhit v Hself) as Hx.
        rewrite (bulk_upsert_on_dup_self v) in Hx. exact Hx.
Qed.

(** X8.  [BulkUpsertMDMAppleHostProfiles] is idempotent: the same payload
    a second time leaves the store as the first call left it. *)
Theorem BulkUpsertMDMAppleHostProfiles_idempotent (payload : list BP.t)
  (db : Datastore) :
  snd (BulkUpsertMDMAppleHostProfiles payload
         (snd (BulkUpsertMDMAppleHostProfiles payload db)))
  = snd (BulkUpsertMDMAppleHostProfiles payload db).
Proof.
  unfold BulkUpsertMDMAppleHostProfiles.
  destruct (non_empty payload); simpl; [|reflexivity].
  unfold set_hmap. simpl. f_equal.
  set (vs := map bulk_upsert_values payload).
  rewrite (fold_upsert_saturated vs
             (fold_left (upsert_hmap bulk_upsert_on_dup) vs
                (host_mdm_apple_profiles db))).
  - rewrite <- (map_id (fold_left (upsert_hmap bulk_upsert_on_dup) vs
                          (host_mdm_apple_profiles db))) at 2.
    apply map_ext_in. intros r Hr.
    apply (fold_upsert_written vs _ r Hr).
  - intros v Hv.
    destruct (fold_upsert_keeps_keys vs (host_mdm_apple_profiles db) v
                (or_intror Hv)) as (r' & Hr' & Hu & Hp).
    apply existsb_exists. exists r'. split; [assumption|].
    apply holds_same_hmap_key. auto.
Qed.

(** X9.  [BulkUpsertMDMAppleHostProfiles] returns nil and deletes no
    ledger row, and on a row that is there it writes only the status, the
    operation type and the command UUID: the identifier, name, checksum
    and detail of the row stay.  A row whose key no entry of the payload
    has is as before, and every entry has a row of its key afterwards. *)
Theorem BulkUpsertMDMAppleHostProfiles_keeps (payload : list BP.t)
  (db : Datastore) :
  let db' := snd (BulkUpsertMDMAppleHostProfiles payload db) in
  fst (BulkUpsertMDMAppleHostProfiles payload db) = None
  /\ (forall r, In r (host_mdm_apple_profiles db) ->
        exists r', In r' (host_mdm_apple_profiles db')
                   /\ same_unwritten r' r)
  /\ (forall r, In r (host_mdm_apple_profiles db) ->
        (forall p, In p payload ->
           ~ (BP.HostUUID p = Hmap.host_uuid r
              /\ BP.ProfileID p = Hmap.profile_id r)) ->
        In r (host_mdm_apple_profiles db'))
  /\ (forall p, In p payload ->
        exists r', In r' (host_mdm_apple_profiles db')
                   /\ Hmap.host_uuid r' = BP.HostUUID p
                   /\ Hmap.profile_id r' = BP.ProfileID p).
Proof.
  unfold BulkUpsertMDMAppleHostProfiles.
  destruct (non_empty payload) eqn:Hne; simpl.
  - set (vs := map bulk_upsert_values payload).
    split; [reflexivity|]. split; [|split].
    + generalize (host_mdm_apple_profiles db).
      induction vs as [|v vs IH]; simpl; intros t r Hr.
      * exists r. split; [assumption|apply same_unwritten_refl].
      * assert (Hstep : exists r1,
                  In r1 (upsert_hmap bulk_upsert_on_dup t v)
                  /\ same_unwritten r1 r).
        { unfold upsert_hmap. destruct (existsb (same_hmap_key v) t).
          - exists (if same_hmap_key v r then bulk_upsert_on_dup v r else r).
            split; [apply in_map_iff; exists r; auto|].
            destruct (same_hmap_key v r);
              [apply same_unwritten_on_dup|apply same_unwritten_refl].
          - exists r. split; [apply in_or_app; left; assumption|].
            apply same_unwritten_refl. }
        destruct Hstep as (r1 & Hr1 & Hu1).
        destruct (IH _ r1 Hr1) as (r2 & Hr2 & Hu2).
        exists r2. split; [assumption|].
        apply (same_unwritten_trans _ _ _ Hu2 Hu1).
    + intros r Hr Hno.
      assert (Hun : forall v, In v vs -> same_hmap_key v r = false).
      { intros v Hv. apply in_map_iff in Hv. destruct Hv as (p & <- & Hp).
        destruct (same_hmap_key (bulk_upsert_values p) r) eqn:Hk;
          [|reflexivity].
        apply holds_same_hmap_key in Hk. exfalso.
        apply (Hno p Hp). exact Hk. }
      revert Hr Hun. generalize (host_mdm_apple_profiles db).
      induction vs as [|v vs IH]; simpl; intros t Hr Hun; [assumption|].
      apply IH; [|intros v' Hv'; apply Hun; right; assumption].
      unfold upsert_hmap. destruct (existsb (same_hmap_key v) t).
      * apply in_map_iff. exists r.
        rewrite (Hun v (or_introl eq_refl)). auto.
      * apply in_or_app. left. assumption.
    + intros p Hp.
      destruct (fold_upsert_keeps_keys vs (host_mdm_apple_profiles db)
                  (bulk_upsert_values p)) as (r' & Hr' & Hu & Hi).
      * right. apply in_map. assumption.
      * exists r'. auto.
  - split; [reflexivity|]. split; [|split].
    + intros r Hr. exists r. split; [assumption|apply same_unwritten_refl].
    + auto.
    + intros p Hp. destruct payload; [destruct Hp|discriminate].
Qed.

(** ** BulkSetPendingMDMAppleHostProfiles with one selector *)

Lemma BulkSetPendingMDMAppleHostProfiles_unfold hostIDs teamIDs profileIDs
  hostUUIDs db :
  (selectors hostIDs teamIDs profileIDs hostUUIDs <= 1)%nat ->
  BulkSetPendingMDMAppleHostProfiles hostIDs teamIDs profileIDs hostUUIDs db
  = (None,
     if Nat.eqb (selectors hostIDs teamIDs profileIDs hostUUIDs) 0 then db
     else
       let uuids :=
         selected_uuids hostIDs teamIDs profileIDs hostUUIDs db in
       if negb (non_empty uuids) then db
       else if negb (non_empty (profilesToInstallStmt uuids db))
               && negb (non_empty
                          (profilesToRemoveStmt uuids
                             (map PP.ProfileIdentifier
                                (profilesToInstallStmt uuids db)) db))
       then db
       else set_hmap (pending_ledger uuids db) db).
Proof.
  intros Hsel.
  unfold BulkSetPendingMDMAppleHostProfiles, withTx, selected_uuids,
    pending_ledger, resent, selectors in *.
  destruct (non_empty hostIDs), (non_empty teamIDs), (non_empty profileIDs),
    (non_empty hostUUIDs); simpl in Hsel; try lia; simpl;
    unfold bind, query, ret, exec; simpl;
    repeat match goal with
      | |- context [non_empty ?l] => destruct (non_empty l); simpl
      end; reflexivity.
Qed.

(** *** INSERT ... ON DUPLICATE KEY UPDATE, for any update list *)

Lemma fold_upsert_inv on_dup (P : Hmap.row -> Prop) vs :
  (forall v r, In v vs -> same_hmap_key v r = true -> P (on_dup v r)) ->
  (forall v, In v vs -> P v) ->
  forall t r',
    In r' (fold_left (upsert_hmap on_dup) vs t) ->
    (In r' t /\ forall v, In v vs -> same_hmap_key v r' = false) \/ P r'.
Proof.
  induction vs as [|v vs IH]; simpl; intros Hdup Hval t r' Hin.
  - left. split; [assumption|intros v []].
  - apply IH in Hin; [|intros; apply Hdup; auto|intros; apply Hval; auto].
    destruct Hin as [(Hin & Hun)|HP]; [|right; assumption].
    unfold upsert_hmap in Hin.
    destruct (existsb (same_hmap_key v) t) eqn:He.
    + apply in_map_iff in Hin. destruct Hin as (r & Heq & Hr).
      destruct (same_hmap_key v r) eqn:Hk.
      * right. subst r'. apply Hdup; auto.
      * subst r'. left. split; [assumption|].
        intros v' [<-|Hv']; [assumption|apply Hun; assumption].
    + apply in_app_or in Hin. destruct Hin as [Hin|[<-|[]]].
      * left. split; [assumption|].
        intros v' [<-|Hv']; [|apply Hun; assumption].
        destruct (same_hmap_key v r') eqn:Hk; [|reflexivity].
        rewrite <- He. symmetry. apply existsb_exists. exists r'. auto.
      * right. apply Hval. left. reflexivity.
Qed.

Lemma fold_upsert_untouched on_dup vs :
  forall t r,
    In r t -> (forall v, In v vs -> same_hmap_key v r = false) ->
    In r (fold_left (upsert_hmap on_dup) vs t).
Proof.
  induction vs as [|v vs IH]; simpl; intros t r Hr Hun; [assumption|].
  apply IH; [|intros v' Hv'; apply Hun; right; assumption].
  unfold upsert_hmap. destruct (existsb (same_hmap_key v) t).
  - apply in_map_iff. exists r.
    rewrite (Hun v (or_introl eq_refl)). auto.
  - apply in_or_app. left. assumption.
Qed.

Lemma fold_upsert_has_key on_dup vs :
  (forall v r, Hmap.host_uuid (on_dup v r) = Hmap.host_uuid r
               /\ Hmap.profile_id (on_dup v r) = Hmap.profile_id r) ->
  forall t k,
    In k t \/ In k vs ->
    exists r', In r' (fold_left (upsert_hmap on_dup) vs t)
               /\ Hmap.host_uuid r' = Hmap.host_uuid k
               /\ Hmap.profile_id r' = Hmap.profile_id k.
Proof.
  intros Hkey.
  induction vs as [|v vs IH]; simpl; intros t k Hk.
  - destruct Hk as [Hk|[]]. exists k. auto.
  - assert (Hstep : forall r, In r t ->
              exists r1, In r1 (upsert_hmap on_dup t v)
                         /\ Hmap.host_uuid r1 = Hmap.host_uuid r
                         /\ Hmap.profile_id r1 = Hmap.profile_id r).
    { intros r Hr. unfold upsert_hmap.
      destruct (existsb (same_hmap_key v) t).
      - exists (if same_hmap_key v r then on_dup v r else r).
        split; [apply in_map_iff; exists r; auto|].
        destruct (same_hmap_key v r); [apply Hkey|auto].
      - exists r. split; [apply in_or_app; left; assumption|auto]. }
    destruct Hk as [Hk|[<-|Hk]].
    + destruct (Hstep k Hk) as (r1 & Hr1 & Hu & Hi).
      destruct (IH (upsert_hmap on_dup t v) r1 (or_introl Hr1))
        as (r2 & Hr2 & Hu2 & Hi2).
      exists r2. split; [assumption|]. split; congruence.
    + assert (Hv : exists r1, In r1 (upsert_hmap on_dup t v)
                     /\ Hmap.host_uuid r1 = Hmap.host_uuid v
                     /\ Hmap.profile_id r1 = Hmap.profile_id v).
      { unfold upsert_hmap.
        destruct (existsb (same_hmap_key v) t) eqn:He.
        - apply existsb_exists in He. destruct He as (r & Hr & Hkr).
          apply holds_same_hmap_key in Hkr. destruct Hkr as (Hu & Hi).
          exists (if same_hmap_key v r then on_dup v r else r).
          split; [apply in_map_iff; exists r; auto|].
          destruct (same_hmap_key v r);
            [destruct (Hkey v r); split; congruence|split; congruence].
        - exists v. split; [apply in_or_app; right; left; reflexivity|auto]. }
      destruct Hv as (r1 & Hr1 & Hu & Hi).
      destruct (IH (upsert_hmap on_dup t v) r1 (or_introl Hr1))
        as (r2 & Hr2 & Hu2 & Hi2).
      exists r2. split; [assumption|]. split; congruence.
    + apply IH. right. assumption.
Qed.

(** *** The pairs and rows that the two statements select *)

Lemma in_profilesToInstallStmt uuids db d :
  In d (profilesToInstallStmt uuids db) <->
  desired db d /\ In (PP.HostUUID d) uuids
  /\ (no_row db d
      \/ exists r, In r (host_mdm_apple_profiles db) /\ row_for d r
           /\ (Hmap.checksum r <> PP.Checksum d
               \/ Hmap.operation_type r = Some MDMAppleOperationTypeRemove
               \/ Hmap.operation_type r = None)).
Proof.
  assert (Hds : In d (desired_state_where (uuid_in uuids) db) <->
                desired db d /\ In (PP.HostUUID d) uuids).
  { rewrite in_desired_state_where. unfold desired, enrolled_darwin, uuid_in.
    split.
    - intros (p & hr & e & Hp & Hhr & He & Hscope & Hdev & Hpl & Hen & Hty
              & Hx & ->).
      rewrite holds_Some in Hx. apply existsb_string_In in Hx.
      split; [|exact Hx].
      exists p, hr. repeat split; auto. exists e. auto.
    - intros ((p & hr & Hp & Hhr & Hscope
               & (Hpl & e & He & Hdev & Hen & Hty) & ->) & Hx).
      exists p, hr, e. rewrite holds_Some. repeat split; auto.
      apply existsb_string_In. exact Hx. }
  assert (Hw : forall o,
             SQL.holds (updated_new_or_remove d o) = true <->
             match o with
             | None => True
             | Some r =>
                 Hmap.checksum r <> PP.Checksum d
                 \/ Hmap.operation_type r = Some MDMAppleOperationTypeRemove
                 \/ Hmap.operation_type r = None
             end).
  { intros o. unfold updated_new_or_remove.
    destruct o as [r|]; simpl; [|tauto].
    destruct (String.eqb_spec (Hmap.checksum r) (PP.Checksum d)) as [Heq|Hne];
      destruct (Hmap.operation_type r) as [[]|]; simpl;
      split; intros Hx; try reflexivity; try discriminate; auto;
      destruct Hx as [Hx|[Hx|Hx]]; congruence. }
  unfold profilesToInstallStmt, no_row. rewrite in_map_iff. split.
  - intros ((d' & o) & Heq & Hin). simpl in Heq. subst d'.
    apply filter_In in Hin. destruct Hin as (Hj & Hh). simpl in Hh.
    apply in_left_join in Hj. destruct Hj as (Hd & Ho).
    apply Hds in Hd. destruct Hd as (Hd & Hu).
    split; [assumption|]. split; [assumption|].
    apply Hw in Hh. destruct o as [r|].
    + right. exists r. destruct Ho as (Hr & Hon).
      apply holds_hmap_on in Hon. auto.
    + left. intros r Hr. apply hmap_on_false. auto.
  - intros (Hd & Hu & Hrows).
    assert (Hin : In d (desired_state_where (uuid_in uuids) db))
      by (apply Hds; auto).
    destruct Hrows as [Hno|(r & Hr & Hfor & Hc)].
    + exists (d, None). split; [reflexivity|]. apply filter_In. split.
      * apply in_left_join. split; [assumption|].
        intros b Hb. apply hmap_on_false. auto.
      * simpl. apply (Hw None). exact I.
    + exists (d, Some r). split; [reflexivity|]. apply filter_In. split.
      * apply in_left_join. split; [assumption|].
        split; [assumption|]. apply holds_hmap_on. assumption.
      * simpl. apply (Hw (Some r)). assumption.
Qed.

Lemma in_profilesToRemoveStmt uuids idents db x :
  In x (profilesToRemoveStmt uuids idents db) <->
  exists r, In r (host_mdm_apple_profiles db) /\ x = payload_of_hmap r
            /\ In (Hmap.host_uuid r) uuids
            /\ ~ still_desired db r
            /\ Hmap.operation_type r <> Some MDMAppleOperationTypeRemove
            /\ ~ In (Hmap.profile_identifier r) idents.
Proof.
  assert (Hds : forall d, In d (desired_state_where (uuid_in uuids) db) <->
                desired db d /\ In (PP.HostUUID d) uuids).
  { intros d. rewrite in_desired_state_where.
    unfold desired, enrolled_darwin, uuid_in. split.
    - intros (p & hr & e & Hp & Hhr & He & Hscope & Hdev & Hpl & Hen & Hty
              & Hx & ->).
      rewrite holds_Some in Hx. apply existsb_string_In in Hx.
      split; [|exact Hx].
      exists p, hr. repeat split; auto. exists e. auto.
    - intros ((p & hr & Hp & Hhr & Hscope
               & (Hpl & e & He & Hdev & Hen & Hty) & ->) & Hx).
      exists p, hr, e. rewrite holds_Some. repeat split; auto.
      apply existsb_string_In. exact Hx. }
  assert (Hw : forall o r,
             SQL.holds
               (SQL.and3
                  (Some (existsb (String.eqb (Hmap.host_uuid r)) uuids))
               (SQL.and3 (not_in_A o)
               (SQL.and3
                  (SQL.or3 (SQL.is_null (Hmap.operation_type r))
                     (SQL.neq3 op_eqb (Hmap.operation_type r)
                        (Some MDMAppleOperationTypeRemove)))
                  (if non_empty idents
                   then Some (negb (existsb
                                      (String.eqb (Hmap.profile_identifier r))
                                      idents))
                   else Some true)))) = true <->
             In (Hmap.host_uuid r) uuids /\ o = None
             /\ Hmap.operation_type r <> Some MDMAppleOperationTypeRemove
             /\ ~ In (Hmap.profile_identifier r) idents).
  { intros o r. rewrite !holds_and3, !andb_true_iff, holds_Some.
    rewrite existsb_string_In.
    assert (Ho : SQL.holds (not_in_A o) = true <-> o = None).
    { unfold not_in_A. destruct o; simpl; split; congruence. }
    assert (Hop : SQL.holds
                    (SQL.or3 (SQL.is_null (Hmap.operation_type r))
                       (SQL.neq3 op_eqb (Hmap.operation_type r)
                          (Some MDMAppleOperationTypeRemove))) = true <->
                  Hmap.operation_type r <> Some MDMAppleOperationTypeRemove).
    { destruct (Hmap.operation_type r) as [[]|]; simpl; split; intros Hx;
        try reflexivity; try discriminate; congruence. }
    assert (Hid : SQL.holds
                    (if non_empty idents
                     then Some (negb (existsb
                                   (String.eqb (Hmap.profile_identifier r))
                                   idents))
                     else Some true) = true <->
                  ~ In (Hmap.profile_identifier r) idents).
    { destruct idents as [|i idents'] eqn:Hi.
      - simpl. split; auto.
      - replace (non_empty (i :: idents')) with true by reflexivity.
        rewrite holds_Some, negb_true_iff, <- existsb_string_In.
        destruct (existsb (String.eqb (Hmap.profile_identifier r))
                    (i :: idents')); split; congruence. }
    rewrite Ho, Hop, Hid. reflexivity. }
  unfold profilesToRemoveStmt. rewrite in_map_iff. split.
  - intros ((o & r) & Heq & Hin). simpl in Heq. subst x.
    apply filter_In in Hin. destruct Hin as (Hj & Hh). simpl in Hh.
    apply Hw in Hh. destruct Hh as (Hu & -> & Hop & Hid).
    apply in_right_join in Hj. destruct Hj as (Hr & Hno).
    exists r. repeat split; auto.
    intros (d & Hd & Hfor).
    assert (Hin : In d (desired_state_where (uuid_in uuids) db)).
    { apply Hds. split; [assumption|].
      destruct Hfor as (_ & <-). assumption. }
    specialize (Hno d Hin). apply hmap_on_false in Hno. auto.
  - intros (r & Hr & -> & Hu & Hnd & Hop & Hid).
    exists (None, r). split; [reflexivity|]. apply filter_In. split.
    + apply in_right_join. split; [assumption|].
      intros d Hd. apply hmap_on_false. intros Hfor.
      apply Hnd. exists d. split; [|assumption].
      apply Hds in Hd. tauto.
    + simpl. apply (Hw None r). auto.
Qed.

(** *** What a call with one selector leaves *)

Lemma BulkSetPendingMDMAppleHostProfiles_store hostIDs teamIDs profileIDs
  hostUUIDs db :
  snd (BulkSetPendingMDMAppleHostProfiles hostIDs teamIDs profileIDs
         hostUUIDs db) = db
  \/ snd (BulkSetPendingMDMAppleHostProfiles hostIDs teamIDs profileIDs
            hostUUIDs db)
     = set_hmap
         (pending_ledger
            (selected_uuids hostIDs teamIDs profileIDs hostUUIDs db) db) db.
Proof.
  assert (Hsel : (selectors hostIDs teamIDs profileIDs hostUUIDs <= 1
                  \/ 1 < selectors hostIDs teamIDs profileIDs hostUUIDs)%nat)
    by lia.
  destruct Hsel as [Hle|Hgt].
  - rewrite (BulkSetPendingMDMAppleHostProfiles_unfold _ _ _ _ _ Hle).
    simpl.
    destruct (Nat.eqb (selectors hostIDs teamIDs profileIDs hostUUIDs) 0);
      [left; reflexivity|].
    destruct (negb _); [left; reflexivity|].
    destruct (_ && _); [left|right]; reflexivity.
  - left. revert Hgt.
    destruct hostIDs, teamIDs, profileIDs, hostUUIDs;
      unfold selectors; simpl; intros Hsel; try lia; reflexivity.
Qed.

Lemma BulkSetPendingMDMAppleHostProfiles_runs hostIDs teamIDs profileIDs
  hostUUIDs db :
  selectors hostIDs teamIDs profileIDs hostUUIDs = 1%nat ->
  (exists d,
     In d (profilesToInstallStmt
             (selected_uuids hostIDs teamIDs profileIDs hostUUIDs db) db))
  \/ (exists x,
        In x (profilesToRemoveStmt
                (selected_uuids hostIDs teamIDs profileIDs hostUUIDs db)
                (map PP.ProfileIdentifier
                   (profilesToInstallStmt
                      (selected_uuids hostIDs teamIDs profileIDs hostUUIDs
                         db) db)) db)) ->
  snd (BulkSetPendingMDMAppleHostProfiles hostIDs teamIDs profileIDs
         hostUUIDs db)
  = set_hmap
      (pending_ledger
         (selected_uuids hostIDs teamIDs profileIDs hostUUIDs db) db) db.
Proof.
  intros Hsel Hex.
  rewrite BulkSetPendingMDMAppleHostProfiles_unfold by lia.
  rewrite Hsel. simpl.
  set (uuids := selected_uuids hostIDs teamIDs profileIDs hostUUIDs db) in *.
  assert (Hne : non_empty uuids = true).
  { destruct Hex as [(d & Hd)|(x & Hx)].
    - apply in_profilesToInstallStmt in Hd. destruct Hd as (_ & Hu & _).
      destruct uuids; [destruct Hu|reflexivity].
    - apply in_profilesToRemoveStmt in Hx.
      destruct Hx as (r & _ & _ & Hu & _).
      destruct uuids; [destruct Hu|reflexivity]. }
  rewrite Hne. simpl.
  destruct Hex as [(d & Hd)|(x & Hx)].
  - destruct (profilesToInstallStmt uuids db) eqn:E; [destruct Hd|].
    reflexivity.
  - destruct (profilesToRemoveStmt uuids
                (map PP.ProfileIdentifier (profilesToInstallStmt uuids db))
                db) eqn:E; [destruct Hx|].
    rewrite andb_false_r. reflexivity.
Qed.

Lemma in_pending_base uuids db r :
  In r (if non_empty (profilesToInstallStmt uuids db)
        then filter (fun r => negb (resent (profilesToInstallStmt uuids db) r))
               (host_mdm_apple_profiles db)
        else host_mdm_apple_profiles db) ->
  In r (host_mdm_apple_profiles db).
Proof.
  destruct (non_empty _); [|auto].
  intros Hr. apply filter_In in Hr. tauto.
Qed.

Lemma pending_values_selected uuids db v :
  In v (map (pending_values MDMAppleOperationTypeInstall)
          (profilesToInstallStmt uuids db)
        ++ map (pending_values MDMAppleOperationTypeRemove)
             (profilesToRemoveStmt uuids
                (map PP.ProfileIdentifier (profilesToInstallStmt uuids db))
                db)) ->
  In (Hmap.host_uuid v) uuids.
Proof.
  intros Hv. apply in_app_or in Hv.
  destruct Hv as [Hv|Hv]; apply in_map_iff in Hv;
    destruct Hv as (d & <- & Hd); simpl.
  - apply in_profilesToInstallStmt in Hd. tauto.
  - apply in_profilesToRemoveStmt in Hd.
    destruct Hd as (r & _ & -> & Hu & _). exact Hu.
Qed.

Lemma pending_on_dup_key v r :
  Hmap.host_uuid (pending_on_dup v r) = Hmap.host_uuid r
  /\ Hmap.profile_id (pending_on_dup v r) = Hmap.profile_id r.
Proof. split; reflexivity. Qed.

Lemma desired_set_hmap t db d : desired (set_hmap t db) d <-> desired db d.
Proof. reflexivity. Qed.

(** X10.  [BulkSetPendingMDMAppleHostProfiles] writes to the ledger only:
    the profiles, hosts and enrollments are as before.  In the ledger it
    touches the rows of the selected hosts only: a row of a host that is
    not selected is there after the call exactly if it was there before,
    and no row of such a host is added. *)
Theorem BulkSetPendingMDMAppleHostProfiles_other_hosts
  (hostIDs teamIDs profileIDs : list N) (hostUUIDs : list string)
  (db : Datastore) :
  let db' := snd (BulkSetPendingMDMAppleHostProfiles hostIDs teamIDs
                    profileIDs hostUUIDs db) in
  mdm_apple_configuration_profiles db' = mdm_apple_configuration_profiles db
  /\ hosts db' = hosts db
  /\ nano_enrollments db' = nano_enrollments db
  /\ forall r,
       ~ In (Hmap.host_uuid r)
           (selected_uuids hostIDs teamIDs profileIDs hostUUIDs db) ->
       (In r (host_mdm_apple_profiles db')
        <-> In r (host_mdm_apple_profiles db)).
Proof.
  simpl.
  destruct (BulkSetPendingMDMAppleHostProfiles_store hostIDs teamIDs
              profileIDs hostUUIDs db) as [-> | ->].
  - repeat split; auto.
  - split; [reflexivity|]. split; [reflexivity|]. split; [reflexivity|].
    set (uuids := selected_uuids hostIDs teamIDs profileIDs hostUUIDs db).
    intros r Hr. simpl. unfold pending_ledger. split.
    + intros Hin.
      apply (fold_upsert_inv pending_on_dup
               (fun r' => In (Hmap.host_uuid r') uuids)) in Hin.
      * destruct Hin as [(Hin & _)|Hin]; [|contradiction].
        apply (in_pending_base uuids db r Hin).
      * intros v r0 Hv Hk. simpl. apply holds_same_hmap_key in Hk.
        destruct Hk as (<- & _). apply (pending_values_selected uuids db v Hv).
      * intros v Hv. apply (pending_values_selected uuids db v Hv).
    + intros Hin. apply fold_upsert_untouched.
      * destruct (non_empty (profilesToInstallStmt uuids db)); [|assumption].
        apply filter_In. split; [assumption|].
        apply negb_true_iff. unfold resent.
        destruct (existsb _ (profilesToInstallStmt uuids db)) eqn:He;
          [|reflexivity].
        apply existsb_exists in He. destruct He as (p & Hp & Hk).
        apply andb_prop in Hk. destruct Hk as (Hk & _).
        apply String.eqb_eq in Hk. apply in_profilesToInstallStmt in Hp.
        destruct Hp as (_ & Hu & _). rewrite <- Hk in Hu. contradiction.
      * intros v Hv. destruct (same_hmap_key v r) eqn:Hk; [|reflexivity].
        apply holds_same_hmap_key in Hk. destruct Hk as (Hk & _).
        apply pending_values_selected in Hv. rewrite Hk in Hv.
        contradiction.
Qed.

(** X11.  A call of [BulkSetPendingMDMAppleHostProfiles] with one selector
    marks the installs of the selected hosts.  For a desired pair of a
    selected host that has no ledger row, or a row whose checksum differs
    from the profile's, or whose operation is Remove or NULL: after the
    call the ledger has a row of the pair, every row of the pair is an
    Install with status NULL, and [ListMDMAppleProfilesToInstall] returns
    the pair. *)
Theorem BulkSetPendingMDMAppleHostProfiles_marks_install
  (hostIDs teamIDs profileIDs : list N) (hostUUIDs : list string)
  (db : Datastore) (d : PP.t) :
  selectors hostIDs teamIDs profileIDs hostUUIDs = 1%nat ->
  desired db d ->
  In (PP.HostUUID d)
     (selected_uuids hostIDs teamIDs profileIDs hostUUIDs db) ->
  (no_row db d
   \/ exists r, In r (host_mdm_apple_profiles db) /\ row_for d r
        /\ (Hmap.checksum r <> PP.Checksum d
            \/ Hmap.operation_type r = Some MDMAppleOperationTypeRemove
            \/ Hmap.operation_type r = None)) ->
  let db' := snd (BulkSetPendingMDMAppleHostProfiles hostIDs teamIDs
                    profileIDs hostUUIDs db) in
  (exists r', In r' (host_mdm_apple_profiles db') /\ row_for d r')
  /\ (forall r', In r' (host_mdm_apple_profiles db') -> row_for d r' ->
        Hmap.operation_type r' = Some MDMAppleOperationTypeInstall
        /\ Hmap.status r' = None)
  /\ In d (ListMDMAppleProfilesToInstall db').
Proof.
  intros Hsel Hd Hu Hrows.
  set (uuids := selected_uuids hostIDs teamIDs profileIDs hostUUIDs db) in *.
  assert (Hin : In d (profilesToInstallStmt uuids db))
    by (apply in_profilesToInstallStmt; auto).
  simpl.
  rewrite (BulkSetPendingMDMAppleHostProfiles_runs hostIDs teamIDs
             profileIDs hostUUIDs db Hsel
             (or_introl (ex_intro _ d Hin))).
  fold uuids. simpl (host_mdm_apple_profiles (set_hmap _ _)).
  unfold pending_ledger.
  set (vs := map (pending_values MDMAppleOperationTypeInstall)
               (profilesToInstallStmt uuids db)
             ++ map (pending_values MDMAppleOperationTypeRemove)
                  (profilesToRemoveStmt uuids
                     (map PP.ProfileIdentifier
                        (profilesToInstallStmt uuids db)) db)).
  set (t0 := if non_empty (profilesToInstallStmt uuids db) then _ else _).
  assert (Hmine : In (pending_values MDMAppleOperationTypeInstall d) vs).
  { apply in_or_app. left. apply in_map. assumption. }
  assert (Hvals : forall v, In v vs ->
            Hmap.profile_id v = PP.ProfileID d ->
            Hmap.host_uuid v = PP.HostUUID d ->
            Hmap.operation_type v = Some MDMAppleOperationTypeInstall
            /\ Hmap.status v = None).
  { intros v Hv Hi Hh. apply in_app_or in Hv.
    destruct Hv as [Hv|Hv]; apply in_map_iff in Hv;
      destruct Hv as (x & <- & Hx); simpl; [auto|].
    exfalso. apply in_profilesToRemoveStmt in Hx.
    destruct Hx as (r0 & _ & -> & _ & Hnd & _). simpl in Hi, Hh.
    apply Hnd. exists d. split; [assumption|]. split; assumption. }
  assert (Hall : forall r', In r' (fold_left (upsert_hmap pending_on_dup)
                                     vs t0) ->
            row_for d r' ->
            Hmap.operation_type r' = Some MDMAppleOperationTypeInstall
            /\ Hmap.status r' = None).
  { intros r' Hr'.
    apply (fold_upsert_inv pending_on_dup
             (fun r' => row_for d r' ->
                Hmap.operation_type r' = Some MDMAppleOperationTypeInstall
                /\ Hmap.status r' = None)) in Hr'.
    - destruct Hr' as [(_ & Hun)|HP]; [|exact HP].
      intros (Hi & Hh). exfalso.
      specialize (Hun _ Hmine).
      assert (Hk : same_hmap_key
                     (pending_values MDMAppleOperationTypeInstall d) r'
                   = true).
      { apply holds_same_hmap_key. simpl. split; congruence. }
      congruence.
    - intros v r Hv Hk (Hi & Hh). simpl in *.
      apply holds_same_hmap_key in Hk. destruct Hk as (Hku & Hki).
      apply Hvals; [assumption|congruence|congruence].
    - intros v Hv (Hi & Hh). apply Hvals; assumption. }
  assert (Hex : exists r', In r' (fold_left (upsert_hmap pending_on_dup)
                                    vs t0) /\ row_for d r').
  { destruct (fold_upsert_has_key pending_on_dup vs pending_on_dup_key t0
                (pending_values MDMAppleOperationTypeInstall d)
                (or_intror Hmine)) as (r' & Hr' & Hh & Hi).
    exists r'. split; [assumption|]. split; assumption. }
  split; [exact Hex|]. split; [exact Hall|].
  apply in_ListMDMAppleProfilesToInstall. split.
  - apply desired_set_hmap. assumption.
  - right. destruct Hex as (r' & Hr' & Hfor).
    exists r'. split; [exact Hr'|]. split; [assumption|].
    destruct (Hall r' Hr' Hfor) as (Hop & Hst). auto.
Qed.

Lemma BulkSetPendingMDMAppleHostProfiles_marks_install_witness :
  In pair_H_N1
    (ListMDMAppleProfilesToInstall
       (snd (BulkSetPendingMDMAppleHostProfiles [] [] [] ["H"]
               (store_with [])))).
Proof.
  apply (BulkSetPendingMDMAppleHostProfiles_marks_install [] [] [] ["H"]
           (store_with []) pair_H_N1).
  - reflexivity.
  - exists profile_N1, host_H. split; [left; reflexivity|].
    split; [left; reflexivity|]. split; [right; split; reflexivity|].
    split; [|reflexivity]. split; [reflexivity|].
    exists enrollment_H. split; [left; reflexivity|].
    repeat split; reflexivity.
  - left. reflexivity.
  - left. intros r [].
Defined.

(** X12.  A call of [BulkSetPendingMDMAppleHostProfiles] with one selector
    marks the removals of the selected hosts.  For a ledger row of a
    selected host that matches no desired pair, whose operation is not
    Remove and whose identifier is not the identifier of a pair that the
    call marks for installation: after the call the ledger has a row of
    the same host and profile, every such row is a Remove with status
    NULL, and [ListMDMAppleProfilesToRemove] returns such a row. *)
Theorem BulkSetPendingMDMAppleHostProfiles_marks_remove
  (hostIDs teamIDs profileIDs : list N) (hostUUIDs : list string)
  (db : Datastore) (r : Hmap.row) :
  selectors hostIDs teamIDs profileIDs hostUUIDs = 1%nat ->
  In r (host_mdm_apple_profiles db) ->
  In (Hmap.host_uuid r)
     (selected_uuids hostIDs teamIDs profileIDs hostUUIDs db) ->
  ~ still_desired db r ->
  Hmap.operation_type r <> Some MDMAppleOperationTypeRemove ->
  (forall d,
     In d (profilesToInstallStmt
             (selected_uuids hostIDs teamIDs profileIDs hostUUIDs db) db) ->
     PP.ProfileIdentifier d <> Hmap.profile_identifier r) ->
  let db' := snd (BulkSetPendingMDMAppleHostProfiles hostIDs teamIDs
                    profileIDs hostUUIDs db) in
  (forall r', In r' (host_mdm_apple_profiles db') ->
     Hmap.host_uuid r' = Hmap.host_uuid r ->
     Hmap.profile_id r' = Hmap.profile_id r ->
     Hmap.operation_type r' = Some MDMAppleOperationTypeRemove
     /\ Hmap.status r' = None)
  /\ exists r', In r' (host_mdm_apple_profiles db')
                /\ Hmap.host_uuid r' = Hmap.host_uuid r
                /\ Hmap.profile_id r' = Hmap.profile_id r
                /\ In (payload_of_hmap r')
                     (ListMDMAppleProfilesToRemove db').
Proof.
  intros Hsel Hr Hu Hnd Hop Hid.
  set (uuids := selected_uuids hostIDs teamIDs profileIDs hostUUIDs db) in *.
  assert (Hin : In (payload_of_hmap r)
                  (profilesToRemoveStmt uuids
                     (map PP.ProfileIdentifier
                        (profilesToInstallStmt uuids db)) db)).
  { apply in_profilesToRemoveStmt. exists r. repeat split; auto.
    intros Hx. apply in_map_iff in Hx. destruct Hx as (d & Heq & Hd).
    apply (Hid d Hd Heq). }
  simpl.
  rewrite (BulkSetPendingMDMAppleHostProfiles_runs hostIDs teamIDs
             profileIDs hostUUIDs db Hsel
             (or_intror (ex_intro _ (payload_of_hmap r) Hin))).
  fold uuids. simpl (host_mdm_apple_profiles (set_hmap _ _)).
  unfold pending_ledger.
  set (vs := map (pending_values MDMAppleOperationTypeInstall)
               (profilesToInstallStmt uuids db)
             ++ map (pending_values MDMAppleOperationTypeRemove)
                  (profilesToRemoveStmt uuids
                     (map PP.ProfileIdentifier
                        (profilesToInstallStmt uuids db)) db)).
  set (t0 := if non_empty (profilesToInstallStmt uuids db) then _ else _).
  assert (Hmine : In (pending_values MDMAppleOperationTypeRemove
                        (payload_of_hmap r)) vs).
  { apply in_or_app. right. apply in_map. assumption. }
  assert (Hvals : forall v, In v vs ->
            Hmap.host_uuid v = Hmap.host_uuid r ->
            Hmap.profile_id v = Hmap.profile_id r ->
            Hmap.operation_type v = Some MDMAppleOperationTypeRemove
            /\ Hmap.status v = None).
  { intros v Hv Hh Hi. apply in_app_or in Hv.
    destruct Hv as [Hv|Hv]; apply in_map_iff in Hv;
      destruct Hv as (x & <- & Hx); simpl; [|auto].
    exfalso. apply in_profilesToInstallStmt in Hx.
    destruct Hx as (Hd & _). simpl in Hi, Hh.
    apply Hnd. exists x. split; [assumption|]. split; congruence. }
  assert (Hall : forall r', In r' (fold_left (upsert_hmap pending_on_dup)
                                     vs t0) ->
            Hmap.host_uuid r' = Hmap.host_uuid r ->
            Hmap.profile_id r' = Hmap.profile_id r ->
            Hmap.operation_type r' = Some MDMAppleOperationTypeRemove
            /\ Hmap.status r' = None).
  { intros r' Hr'.
    apply (fold_upsert_inv pending_on_dup
             (fun r' =>
                Hmap.host_uuid r' = Hmap.host_uuid r ->
                Hmap.profile_id r' = Hmap.profile_id r ->
                Hmap.operation_type r' = Some MDMAppleOperationTypeRemove
                /\ Hmap.status r' = None)) in Hr'.
    - destruct Hr' as [(_ & Hun)|HP]; [|exact HP].
      intros Hh Hi. exfalso.
      specialize (Hun _ Hmine).
      assert (Hk : same_hmap_key
                     (pending_values MDMAppleOperationTypeRemove
                        (payload_of_hmap r)) r' = true).
      { apply holds_same_hmap_key. simpl. split; congruence. }
      congruence.
    - intros v r0 Hv Hk Hh Hi. simpl in *.
      apply holds_same_hmap_key in Hk. destruct Hk as (Hku & Hki).
      apply Hvals; [assumption|congruence|congruence].
    - intros v Hv Hh Hi. apply Hvals; assumption. }
  split; [exact Hall|].
  destruct (fold_upsert_has_key pending_on_dup vs pending_on_dup_key t0
              (pending_values MDMAppleOperationTypeRemove
                 (payload_of_hmap r))
              (or_intror Hmine)) as (r' & Hr' & Hh & Hi).
  simpl in Hh, Hi.
  exists r'. split; [exact Hr'|]. split; [exact Hh|]. split; [exact Hi|].
  apply in_ListMDMAppleProfilesToRemove. exists r'.
  split; [exact Hr'|]. split; [reflexivity|]. split.
  - intros (d & Hd & Hi' & Hh'). apply Hnd. exists d.
    split; [exact Hd|]. split; congruence.
  - intros (_ & Hst). destruct (Hall r' Hr' Hh Hi) as (_ & Hnone).
    apply Hst. exact Hnone.
Qed.

Lemma BulkSetPendingMDMAppleHostProfiles_marks_remove_witness :
  exists r', In r' (host_mdm_apple_profiles
                      (snd (BulkSetPendingMDMAppleHostProfiles [] [] []
                              ["H"] (store_with [orphan_row]))))
             /\ Hmap.host_uuid r' = "H" /\ Hmap.profile_id r' = 5
             /\ In (payload_of_hmap r')
                  (ListMDMAppleProfilesToRemove
                     (snd (BulkSetPendingMDMAppleHostProfiles [] [] []
                             ["H"] (store_with [orphan_row])))).
Proof.
  apply (BulkSetPendingMDMAppleHostProfiles_marks_remove [] [] [] ["H"]
           (store_with [orphan_row]) orphan_row).
  - reflexivity.
  - left. reflexivity.
  - left. reflexivity.
  - intros (d & (p & hr & Hp & _ & _ & _ & ->) & Hi & _).
    destruct Hp as [<-|[]]. discriminate.
  - discriminate.
  - intros d Hd. vm_compute in Hd. destruct Hd as [<-|[]]. discriminate.
Defined.

(** ** GetMDMAppleHostsProfilesSummary *)

Lemma exists_hmap_spec h db cond :
  exists_hmap h db cond = true <->
  exists r, row_of_host h db r /\ SQL.holds (cond r) = true.
Proof.
  unfold exists_hmap, row_of_host. rewrite existsb_exists. split.
  - intros (r & Hr & Hc). rewrite holds_and3, holds_Some in Hc.
    apply andb_prop in Hc. destruct Hc as (Hu & Hc).
    apply String.eqb_eq in Hu. exists r. auto.
  - intros (r & (Hr & Hu) & Hc). exists r. split; [assumption|].
    rewrite holds_and3, holds_Some, Hc, <- Hu, String.eqb_refl. reflexivity.
Qed.

Lemma exists_hmap_false h db cond r :
  exists_hmap h db cond = false -> row_of_host h db r ->
  SQL.holds (cond r) = false.
Proof.
  intros Hno Hr. destruct (SQL.holds (cond r)) eqn:Hc; [|reflexivity].
  rewrite <- Hno. symmetry. apply exists_hmap_spec. exists r. auto.
Qed.

Lemma filter_three {A} (f p v : A -> bool) (l : list A) :
  (forall x, f x = true -> p x = false /\ v x = false) ->
  (forall x, p x = true -> v x = false) ->
  (List.length (filter f l) + List.length (filter p l)
   + List.length (filter v l) <= List.length l)%nat.
Proof.
  intros Hf Hp. induction l as [|a l IH]; simpl; [lia|].
  destruct (f a) eqn:Ef.
  - destruct (Hf a Ef) as (-> & ->). simpl. lia.
  - destruct (p a) eqn:Ep.
    + rewrite (Hp a Ep). simpl. lia.
    + destruct (v a); simpl; lia.
Qed.

(** X13.  The three counts of [GetMDMAppleHostsProfilesSummary] are over
    disjoint sets of hosts of the scope.  A host counts as failed exactly
    if one of its ledger rows is Failed; a host that counts as pending has
    no Failed row; a host that counts as verifying has ledger rows and all
    of them are Verifying.  So no host is counted twice and the three
    counts add up to the number of hosts that the team filter keeps at
    most. *)
Theorem GetMDMAppleHostsProfilesSummary_disjoint `{Externals}
  (teamID : option N) (db : Datastore) :
  (forall h,
     (subqueryHostsMacOSSettingsStatusFailing h db = true <->
      exists r, row_of_host h db r
                /\ Hmap.status r = Some MDMAppleDeliveryFailed)
     /\ (subqueryHostsMacOSSettingsStatusPending h db = true ->
         subqueryHostsMacOSSettingsStatusFailing h db = false)
     /\ (subqueryHostsMacOSSetttingsStatusVerifying h db = true ->
         (exists r, row_of_host h db r)
         /\ (forall r, row_of_host h db r ->
               Hmap.status r = Some MDMAppleDeliveryVerifying)
         /\ subqueryHostsMacOSSettingsStatusFailing h db = false
         /\ subqueryHostsMacOSSettingsStatusPending h db = false))
  /\ (let s := GetMDMAppleHostsProfilesSummary teamID db in
      MDMAppleConfigProfilesSummary.Failed s
      + MDMAppleConfigProfilesSummary.Pending s
      + MDMAppleConfigProfilesSummary.Verifying s
      <= N.of_nat
           (List.length
              (filter (fun h => SQL.holds (teamFilter teamID h))
                 (hosts db)))).
Proof.
  assert (Hfail : forall h,
            subqueryHostsMacOSSettingsStatusFailing h db = true <->
            exists r, row_of_host h db r
                      /\ Hmap.status r = Some MDMAppleDeliveryFailed).
  { intros h. unfold subqueryHostsMacOSSettingsStatusFailing.
    rewrite exists_hmap_spec. split; intros (r & Hr & Hc); exists r;
      (split; [assumption|]).
    - destruct (Hmap.status r) as [[]|]; simpl in Hc; congruence.
    - rewrite Hc. reflexivity. }
  assert (Hpend : forall h,
            subqueryHostsMacOSSettingsStatusPending h db = true ->
            subqueryHostsMacOSSettingsStatusFailing h db = false).
  { intros h Hp. unfold subqueryHostsMacOSSettingsStatusPending in Hp.
    apply exists_hmap_spec in Hp. destruct Hp as (r & _ & Hc).
    rewrite holds_and3, holds_Some in Hc. apply andb_prop in Hc.
    destruct Hc as (_ & Hc). apply negb_true_iff in Hc. exact Hc. }
  assert (Hver : forall h,
            subqueryHostsMacOSSetttingsStatusVerifying h db = true ->
            (exists r, row_of_host h db r)
            /\ (forall r, row_of_host h db r ->
                  Hmap.status r = Some MDMAppleDeliveryVerifying)
            /\ subqueryHostsMacOSSettingsStatusFailing h db = false
            /\ subqueryHostsMacOSSettingsStatusPending h db = false).
  { intros h Hv. unfold subqueryHostsMacOSSetttingsStatusVerifying in Hv.
    apply exists_hmap_spec in Hv. destruct Hv as (r0 & Hr0 & Hc).
    rewrite !holds_and3, holds_Some in Hc.
    apply andb_prop in Hc. destruct Hc as (_ & Hc).
    apply andb_prop in Hc. destruct Hc as (_ & Hno).
    apply negb_true_iff in Hno.
    assert (Hall : forall r, row_of_host h db r ->
              Hmap.status r = Some MDMAppleDeliveryVerifying).
    { intros r Hr. pose proof (exists_hmap_false _ _ _ r Hno Hr) as Hx.
      cbv beta in Hx. rewrite !holds_or3 in Hx.
      destruct (Hmap.status r) as [[]|]; simpl in Hx;
        try discriminate; reflexivity. }
    split; [exists r0; exact Hr0|]. split; [exact Hall|]. split.
    - destruct (subqueryHostsMacOSSettingsStatusFailing h db) eqn:Hf;
        [|reflexivity].
      apply Hfail in Hf. destruct Hf as (r & Hr & Hst).
      rewrite (Hall r Hr) in Hst. discriminate.
    - destruct (subqueryHostsMacOSSettingsStatusPending h db) eqn:Hp;
        [|reflexivity].
      unfold subqueryHostsMacOSSettingsStatusPending in Hp.
      apply exists_hmap_spec in Hp. destruct Hp as (r & Hr & Hc).
      pose proof (exists_hmap_false _ _ _ r Hno Hr) as Hx.
      cbv beta in Hx, Hc.
      rewrite holds_and3 in Hc. apply andb_prop in Hc.
      destruct Hc as (Hc & _).
      rewrite !holds_or3, !holds_and3, !holds_Some in Hc.
      rewrite !holds_or3, !holds_and3, !holds_Some in Hx.
      destruct (Hmap.status r) as [[]|]; simpl in Hc, Hx;
        try discriminate; congruence. }
  assert (Hsum : forall hs',
            (count_when (fun h => subqueryHostsMacOSSettingsStatusFailing h db)
               hs'
             + count_when
                 (fun h => subqueryHostsMacOSSettingsStatusPending h db) hs'
             + count_when
                 (fun h => subqueryHostsMacOSSetttingsStatusVerifying h db)
                 hs'
             <= N.of_nat (List.length hs'))).
  { intros hs'. unfold count_when.
    pose proof (filter_three
                  (fun h => subqueryHostsMacOSSettingsStatusFailing h db)
                  (fun h => subqueryHostsMacOSSettingsStatusPending h db)
                  (fun h => subqueryHostsMacOSSetttingsStatusVerifying h db)
                  hs') as Hx.
    simpl in Hx.
    assert (H1 : forall x,
              subqueryHostsMacOSSettingsStatusFailing x db = true ->
              subqueryHostsMacOSSettingsStatusPending x db = false
              /\ subqueryHostsMacOSSetttingsStatusVerifying x db = false).
    { intros x Hf. split.
      - destruct (subqueryHostsMacOSSettingsStatusPending x db) eqn:Hp;
          [|reflexivity].
        apply Hpend in Hp. congruence.
      - destruct (subqueryHostsMacOSSetttingsStatusVerifying x db) eqn:Hv;
          [|reflexivity].
        apply Hver in Hv. destruct Hv as (_ & _ & Hv & _). congruence. }
    assert (H2 : forall x,
              subqueryHostsMacOSSettingsStatusPending x db = true ->
              subqueryHostsMacOSSetttingsStatusVerifying x db = false).
    { intros x Hp.
      destruct (subqueryHostsMacOSSetttingsStatusVerifying x db) eqn:Hv;
        [|reflexivity].
      apply Hver in Hv. destruct Hv as (_ & _ & _ & Hv). congruence. }
    specialize (Hx H1 H2). lia. }
  split; [intros h; split; [apply Hfail|split; [apply Hpend|apply Hver]]|].
  simpl. apply Hsum.
Qed.

(** ** Unenrollment of a host that is not there, or is there twice *)

(** X14.  [UpdateHostTablesOnMDMUnenroll] with a UUID that no host has
    returns the "no rows" error of the lookup and leaves the store as it
    was.  With a UUID that some host has it returns nil; the ledger rows of
    the UUID are deleted, and the host_mdm rows and the disk encryption
    keys of one host of that UUID, the first that the lookup returns. *)
Theorem UpdateHostTablesOnMDMUnenroll_lookup (uuid : string)
  (db : Datastore) :
  ((forall hr, In hr (hosts db) -> Host.uuid hr <> uuid) ->
   UpdateHostTablesOnMDMUnenroll uuid db = (Some sqlErrNoRows, db))
  /\ ((exists hr, In hr (hosts db) /\ Host.uuid hr = uuid) ->
      exists hr db',
        In hr (hosts db) /\ Host.uuid hr = uuid
        /\ UpdateHostTablesOnMDMUnenroll uuid db = (None, db')
        /\ (forall r, In r (host_mdm_apple_profiles db') <->
                      In r (host_mdm_apple_profiles db)
                      /\ Hmap.host_uuid r <> uuid)
        /\ (forall k, In k (host_disk_encryption_keys db') <->
                      In k (host_disk_encryption_keys db)
                      /\ Hdek.host_id k <> Host.id hr)
        /\ (forall m, In m (host_mdm db') <->
                      In m (host_mdm db)
                      /\ HostMdm.host_id m <> Host.id hr)).
Proof.
  unfold UpdateHostTablesOnMDMUnenroll, withTx, bind, host_id_of_uuid.
  destruct (filter (fun hr => String.eqb (Host.uuid hr) uuid) (hosts db))
    as [|h0 rest] eqn:Hf.
  - split; [reflexivity|].
    intros (hr & Hin & Hu). exfalso.
    assert (Hx : In hr (filter (fun hr => String.eqb (Host.uuid hr) uuid)
                          (hosts db)))
      by (apply filter_In; split; [assumption|apply String.eqb_eq; assumption]).
    rewrite Hf in Hx. destruct Hx.
  - assert (Hx : In h0 (filter (fun hr => String.eqb (Host.uuid hr) uuid)
                          (hosts db)))
      by (rewrite Hf; left; reflexivity).
    apply filter_In in Hx. destruct Hx as (Hin & Hu).
    apply String.eqb_eq in Hu. split.
    + intros Hno. exfalso. exact (Hno h0 Hin Hu).
    + intros _. exists h0. eexists. split; [exact Hin|]. split; [exact Hu|].
      unfold exec, deleteMDMAppleProfilesForHost, exec; simpl.
      split; [reflexivity|]. simpl. split; [|split].
      * intros r. rewrite filter_In, negb_true_iff, String.eqb_neq.
        reflexivity.
      * intros k. rewrite filter_In, negb_true_iff, N.eqb_neq. reflexivity.
      * intros m. rewrite filter_In, negb_true_iff, N.eqb_neq. reflexivity.
Qed.

(** ** Deleting a profile, and what the next reconciliation sees *)

(** X15.  [DeleteMDMAppleConfigProfile] deletes the profiles of the id and
    nothing else: the other profiles stay, and the hosts, the enrollments
    and the ledger are as before, whatever it returns.  After the call no
    pair of that profile is to install, and every ledger row of that
    profile that is not a Remove with a status set is returned by
    [ListMDMAppleProfilesToRemove]. *)
Theorem DeleteMDMAppleConfigProfile_then_remove (id : N) (db : Datastore) :
  let db' := snd (DeleteMDMAppleConfigProfile id db) in
  (forall p, In p (mdm_apple_configuration_profiles db') <->
             In p (mdm_apple_configuration_profiles db)
             /\ Macp.profile_id p <> id)
  /\ hosts db' = hosts db
  /\ nano_enrollments db' = nano_enrollments db
  /\ host_mdm_apple_profiles db' = host_mdm_apple_profiles db
  /\ (forall d, In d (ListMDMAppleProfilesToInstall db') ->
                PP.ProfileID d <> id)
  /\ (forall r, In r (host_mdm_apple_profiles db) ->
                Hmap.profile_id r = id -> ~ removal_in_flight r ->
                In (payload_of_hmap r) (ListMDMAppleProfilesToRemove db')).
Proof.
  assert (Hsnd : snd (DeleteMDMAppleConfigProfile id db)
                 = set_profiles
                     (filter (fun r => negb (Macp.profile_id r =? id))
                        (mdm_apple_configuration_profiles db)) db).
  { unfold DeleteMDMAppleConfigProfile, delete_where.
    destruct (negb _); reflexivity. }
  simpl. rewrite Hsnd.
  assert (Hrows : forall p,
            In p (mdm_apple_configuration_profiles
                    (set_profiles
                       (filter (fun r => negb (Macp.profile_id r =? id))
                          (mdm_apple_configuration_profiles db)) db)) <->
            In p (mdm_apple_configuration_profiles db)
            /\ Macp.profile_id p <> id).
  { intros p. simpl. rewrite filter_In, negb_true_iff, N.eqb_neq.
    reflexivity. }
  assert (Hdes : forall d,
            desired
              (set_profiles
                 (filter (fun r => negb (Macp.profile_id r =? id))
                    (mdm_apple_configuration_profiles db)) db) d ->
            PP.ProfileID d <> id).
  { intros d (p & hr & Hp & _ & _ & _ & ->). simpl.
    apply Hrows in Hp. tauto. }
  split; [exact Hrows|]. split; [reflexivity|]. split; [reflexivity|].
  split; [reflexivity|]. split.
  - intros d Hd. apply in_ListMDMAppleProfilesToInstall in Hd.
    destruct Hd as (Hd & _). exact (Hdes d Hd).
  - intros r Hr Hid Hnf. apply in_ListMDMAppleProfilesToRemove.
    exists r. split; [exact Hr|]. split; [reflexivity|].
    split; [|exact Hnf].
    intros (d & Hd & Hi & _). apply (Hdes d Hd). congruence.
Qed.

(** X16.  [DeleteMDMAppleConfigProfileByTeamAndIdentifier] returns "not
    found" exactly if no profile of the scope has the identifier, and the
    store is then as before; otherwise it returns nil.  In both cases the
    profiles left are those of another scope or identifier, and the other
    tables are as before. *)
Theorem DeleteMDMAppleConfigProfileByTeamAndIdentifier_rule
  (teamID : option N) (ident : string) (db : Datastore) :
  let res := DeleteMDMAppleConfigProfileByTeamAndIdentifier teamID ident db in
  let hit r := Macp.team_id r = scope_of teamID /\ Macp.identifier r = ident in
  (fst res = Some (notFound "MDMAppleConfigProfile") <->
   ~ exists r, In r (mdm_apple_configuration_profiles db) /\ hit r)
  /\ (fst res = None <->
      exists r, In r (mdm_apple_configuration_profiles db) /\ hit r)
  /\ (fst res = Some (notFound "MDMAppleConfigProfile") -> snd res = db)
  /\ (forall r, In r (mdm_apple_configuration_profiles (snd res)) <->
                In r (mdm_apple_configuration_profiles db) /\ ~ hit r)
  /\ hosts (snd res) = hosts db
  /\ nano_enrollments (snd res) = nano_enrollments db
  /\ host_mdm_apple_profiles (snd res) = host_mdm_apple_profiles db.
Proof.
  simpl.
  unfold DeleteMDMAppleConfigProfileByTeamAndIdentifier, delete_where.
  fold (scope_of teamID).
  assert (Hw : forall r,
            same_team_identifier (scope_of teamID) ident r = true <->
            Macp.team_id r = scope_of teamID /\ Macp.identifier r = ident).
  { intros r. unfold same_team_identifier.
    rewrite andb_true_iff, N.eqb_eq, String.eqb_eq. reflexivity. }
  assert (Hrows : forall r,
            In r (filter (fun r => negb (same_team_identifier
                                           (scope_of teamID) ident r))
                    (mdm_apple_configuration_profiles db)) <->
            In r (mdm_apple_configuration_profiles db)
            /\ ~ (Macp.team_id r = scope_of teamID
                  /\ Macp.identifier r = ident)).
  { intros r. rewrite filter_In, negb_true_iff, <- Hw.
    destruct (same_team_identifier (scope_of teamID) ident r);
      split; intros (Hx & Hy); split; congruence. }
  destruct (filter (same_team_identifier (scope_of teamID) ident)
              (mdm_apple_configuration_profiles db)) as [|r0 rest] eqn:Hf;
    simpl.
  - assert (Hnone : ~ exists r, In r (mdm_apple_configuration_profiles db)
                      /\ Macp.team_id r = scope_of teamID
                         /\ Macp.identifier r = ident).
    { intros (r & Hr & Hhit).
      assert (Hx : In r (filter (same_team_identifier (scope_of teamID) ident)
                           (mdm_apple_configuration_profiles db)))
        by (apply filter_In; split; [assumption|apply Hw; assumption]).
      rewrite Hf in Hx. destruct Hx. }
    split; [split; auto|].
    split; [split; [discriminate|intros Hx; contradiction]|].
    split.
    + intros _.
      assert (Hall : filter (fun r => negb (same_team_identifier
                                              (scope_of teamID) ident r))
                       (mdm_apple_configuration_profiles db)
                     = mdm_apple_configuration_profiles db).
      { apply forallb_filter_id. apply forallb_forall. intros r Hr.
        apply negb_true_iff.
        destruct (same_team_identifier (scope_of teamID) ident r) eqn:Hk;
          [|reflexivity].
        exfalso. apply Hnone. exists r. split; [assumption|].
        apply Hw. assumption. }
      rewrite Hall. destruct db; reflexivity.
    + split; [exact Hrows|]. repeat split.
  - assert (Hsome : exists r, In r (mdm_apple_configuration_profiles db)
                      /\ Macp.team_id r = scope_of teamID
                         /\ Macp.identifier r = ident).
    { exists r0.
      assert (Hx : In r0 (filter (same_team_identifier (scope_of teamID) ident)
                            (mdm_apple_configuration_profiles db)))
        by (rewrite Hf; left; reflexivity).
      apply filter_In in Hx. destruct Hx as (Hx & Hk).
      split; [assumption|]. apply Hw. assumption. }
    split; [split; [discriminate|intros Hx; contradiction]|].
    split; [split; auto|].
    split; [discriminate|].
    split; [exact Hrows|]. repeat split.
Qed.

(** ** The two lists of a reconciliation pass *)

(** X17.  No (host, profile) pair is in both lists of a pass: a pair that
    [ListMDMAppleProfilesToInstall] returns is desired, and
    [ListMDMAppleProfilesToRemove] returns rows of pairs that are not. *)
Theorem install_and_remove_lists_disjoint (db : Datastore) (d x : PP.t) :
  In d (ListMDMAppleProfilesToInstall db) ->
  In x (ListMDMAppleProfilesToRemove db) ->
  PP.ProfileID x <> PP.ProfileID d \/ PP.HostUUID x <> PP.HostUUID d.
Proof.
  intros Hd Hx.
  apply in_ListMDMAppleProfilesToInstall in Hd. destruct Hd as (Hd & _).
  apply in_ListMDMAppleProfilesToRemove in Hx.
  destruct Hx as (r & _ & -> & Hnd & _). simpl.
  destruct (N.eq_dec (Hmap.profile_id r) (PP.ProfileID d)) as [Hid|Hid];
    [|left; exact Hid].
  right. intros Hu. apply Hnd. exists d. split; [assumption|].
  split; assumption.
Qed.

Lemma install_and_remove_lists_disjoint_witness :
  PP.ProfileID (payload_of_hmap orphan_row) <> PP.ProfileID pair_H_N1
  \/ PP.HostUUID (payload_of_hmap orphan_row) <> PP.HostUUID pair_H_N1.
Proof.
  apply (install_and_remove_lists_disjoint (store_with [orphan_row])).
  - vm_compute. left. reflexivity.
  - vm_compute. left. reflexivity.
Defined.

(** ** unionSelectDevices *)

Lemma placeholders_app s1 s2 :
  placeholders (s1 ++ s2) = (placeholders s1 + placeholders s2)%nat.
Proof.
  induction s1 as [|c s1 IH]; simpl; [reflexivity|]. rewrite IH. lia.
Qed.

Lemma unionSelectDevices_from_spec devices :
  forall i stmt args,
    (i <> 0%nat -> placeholders stmt = List.length args) ->
    (i = 0%nat -> args = []) ->
    (devices <> [] \/ i <> 0%nat ->
     placeholders (fst (unionSelectDevices_from i devices stmt args))
     = List.length (snd (unionSelectDevices_from i devices stmt args)))
    /\ snd (unionSelectDevices_from i devices stmt args)
       = args ++ flat_map (fun d => [Device.SerialNumber d; Device.Model d])
                   devices.
Proof.
  induction devices as [|d rest IH]; intros i stmt args Hpos Hzero; simpl.
  - split; [|rewrite app_nil_r; reflexivity].
    intros [Hx|Hx]; [congruence|auto].
  - destruct (IH (S i)
                (if Nat.eqb i 0
                 then "SELECT ? hardware_serial, ? hardware_model"
                 else (stmt ++ " UNION SELECT ?, ?")%string)
                (args ++ [Device.SerialNumber d; Device.Model d]))
      as (Hcount & Hargs).
    + intros _. destruct i as [|i]; simpl.
      * rewrite (Hzero eq_refl). reflexivity.
      * rewrite placeholders_app, length_app, Hpos by discriminate.
        reflexivity.
    + discriminate.
    + split.
      * intros _. apply Hcount. right. discriminate.
      * rewrite Hargs, <- app_assoc. reflexivity.
Qed.

(** X18.  The statement that [unionSelectDevices] builds has as many
    placeholders as the arguments returned with it, two for each device:
    the serial number and the model of the devices, in their order.  For
    no device the statement is empty. *)
Theorem unionSelectDevices_placeholders (devices : list Device.t) :
  placeholders (fst (unionSelectDevices devices))
  = List.length (snd (unionSelectDevices devices))
  /\ snd (unionSelectDevices devices)
     = flat_map (fun d => [Device.SerialNumber d; Device.Model d]) devices
  /\ List.length (snd (unionSelectDevices devices))
     = (2 * List.length devices)%nat
  /\ (fst (unionSelectDevices devices) = "" <-> devices = []).
Proof.
  unfold unionSelectDevices.
  destruct (unionSelectDevices_from_spec devices 0 "" [])
    as (Hcount & Hargs); [reflexivity|reflexivity|].
  simpl in Hargs. split; [|split; [exact Hargs|split]].
  - destruct devices as [|d rest]; [reflexivity|].
    apply Hcount. left. discriminate.
  - rewrite Hargs. clear.
    induction devices as [|d rest IH]; simpl; [reflexivity|].
    rewrite IH. lia.
  - destruct devices as [|d rest]; simpl; [split; reflexivity|].
    split; [|discriminate]. intros Hx. exfalso.
    assert (Hp : placeholders
                   (fst (unionSelectDevices_from 1 rest
                           "SELECT ? hardware_serial, ? hardware_model"
                           [Device.SerialNumber d; Device.Model d]))
                 = 0%nat) by (rewrite Hx; reflexivity).
    destruct (unionSelectDevices_from_spec rest 1
                "SELECT ? hardware_serial, ? hardware_model"
                [Device.SerialNumber d; Device.Model d])
      as (Hc & Ha); [reflexivity|discriminate|].
    rewrite Hc in Hp by (right; discriminate).
    rewrite Ha in Hp. simpl in Hp. discriminate.
Qed.

(** ** The EULA *)

(** X19.  The EULA table holds one EULA at most.  On a table of one row at
    most, of id 1: [MDMAppleInsertEULA] returns nil exactly if the table is
    empty, and an "already exists" error that leaves the table as it was
    otherwise; after an insert that returned nil the metadata and the bytes
    read back, by the token, are those inserted; [MDMAppleDeleteEULA]
    returns nil exactly if the token is that of the EULA, and the table is
    then empty, and it leaves the table as it was otherwise; and the table
    that the insert and the delete leave has one row at most, of id 1. *)
Theorem eula_single (now : N) (eula : MDMAppleEULA.t) (token : string)
  (eulas : list Eula.row) :
  single_eula eulas ->
  (fst (MDMAppleInsertEULA now eula eulas) = None <-> eulas = [])
  /\ (eulas <> [] ->
      MDMAppleInsertEULA now eula eulas
      = (Some (alreadyExists "MDMAppleEULA" (MDMAppleEULA.Token eula)),
         eulas))
  /\ (eulas = [] ->
      let t := snd (MDMAppleInsertEULA now eula eulas) in
      MDMAppleGetEULAMetadata t
      = Ok {| MDMAppleEULA.Name := MDMAppleEULA.Name eula;
              MDMAppleEULA.Bytes := "";
              MDMAppleEULA.Token := MDMAppleEULA.Token eula;
              MDMAppleEULA.CreatedAt := now |}
      /\ MDMAppleGetEULABytes (MDMAppleEULA.Token eula) t
         = Ok {| MDMAppleEULA.Name := MDMAppleEULA.Name eula;
                 MDMAppleEULA.Bytes := MDMAppleEULA.Bytes eula;
                 MDMAppleEULA.Token := "";
                 MDMAppleEULA.CreatedAt := 0 |}
      /\ MDMAppleDeleteEULA (MDMAppleEULA.Token eula) t = (None, []))
  /\ (fst (MDMAppleDeleteEULA token eulas) = None <->
      exists r, eulas = [r] /\ Eula.token r = token)
  /\ (fst (MDMAppleDeleteEULA token eulas) = None ->
      snd (MDMAppleDeleteEULA token eulas) = [])
  /\ (fst (MDMAppleDeleteEULA token eulas) <> None ->
      MDMAppleDeleteEULA token eulas
      = (Some (notFound "MDMAppleEULA"), eulas))
  /\ single_eula (snd (MDMAppleInsertEULA now eula eulas))
  /\ single_eula (snd (MDMAppleDeleteEULA token eulas)).
Proof.
  intros (Hlen & Hid).
  destruct eulas as [|r [|r' rest]]; [| |simpl in Hlen; lia].
  - unfold MDMAppleInsertEULA, MDMAppleDeleteEULA, MDMAppleGetEULAMetadata,
      MDMAppleGetEULABytes, delete_where, single_eula. simpl.
    rewrite String.eqb_refl. simpl.
    split; [split; reflexivity|]. split; [congruence|].
    split; [intros _; repeat split|].
    split; [split; [discriminate|intros (r & Hr & _); discriminate]|].
    split; [discriminate|]. split; [reflexivity|].
    split; (split; [simpl; lia|]).
    + intros r [<-|[]]. reflexivity.
    + intros r [].
  - assert (Hr : Eula.id r = 1) by (apply Hid; left; reflexivity).
    unfold MDMAppleInsertEULA, MDMAppleDeleteEULA, delete_where, single_eula.
    simpl. rewrite Hr. simpl.
    split; [split; discriminate|]. split; [reflexivity|].
    split; [discriminate|].
    destruct (String.eqb_spec (Eula.token r) token) as [Ht|Ht]; simpl.
    + split; [split; [intros _; exists r; auto|reflexivity]|].
      split; [reflexivity|]. split; [congruence|].
      split; (split; [simpl; lia|]).
      * intros x [<-|[]]. exact Hr.
      * intros x [].
    + split; [split; [discriminate|]|].
      { intros (x & Hx & Htx). inversion Hx. subst x. contradiction. }
      split; [discriminate|]. split; [reflexivity|].
      split; (split; [simpl; lia|]); intros x [<-|[]]; exact Hr.
Qed.

Lemma eula_single_witness :
  fst (MDMAppleInsertEULA 5
         {| MDMAppleEULA.Name := "eula.pdf"; MDMAppleEULA.Bytes := "%PDF";
            MDMAppleEULA.Token := "tok"; MDMAppleEULA.CreatedAt := 0 |} [])
  = None.
Proof.
  apply (eula_single 5
           {| MDMAppleEULA.Name := "eula.pdf"; MDMAppleEULA.Bytes := "%PDF";
              MDMAppleEULA.Token := "tok"; MDMAppleEULA.CreatedAt := 0 |}
           "tok" []).
  - split; [simpl; lia|intros r []].
  - reflexivity.
Defined.

(** ** The hosts that a selector of BulkSetPendingMDMAppleHostProfiles names *)

Lemma holds_team_in (teamIDs : list N) (hr : Host.row) :
  SQL.holds
    (if existsb (N.eqb 0) teamIDs
     then SQL.or3 (SQL.in3 N.eqb (Host.team_id hr) teamIDs)
                  (SQL.is_null (Host.team_id hr))
     else SQL.in3 N.eqb (Host.team_id hr) teamIDs) = true <->
  (exists t, Host.team_id hr = Some t /\ In t teamIDs)
  \/ (Host.team_id hr = None /\ In 0 teamIDs).
Proof.
  pose proof (existsb_N_In 0 teamIDs) as Hz.
  destruct (Host.team_id hr) as [t|].
  - pose proof (existsb_N_In t teamIDs) as Ht.
    destruct (existsb (N.eqb 0) teamIDs); simpl;
      destruct (existsb (N.eqb t) teamIDs); simpl; split; intros Hx;
      try discriminate; try reflexivity.
    + left. exists t. split; [reflexivity|]. apply Ht. reflexivity.
    + destruct Hx as [(t' & Heq & Hin)|(Heq & _)]; [|discriminate].
      inversion Heq. subst t'. apply Ht in Hin. discriminate.
    + left. exists t. split; [reflexivity|]. apply Ht. reflexivity.
    + destruct Hx as [(t' & Heq & Hin)|(Heq & _)]; [|discriminate].
      inversion Heq. subst t'. apply Ht in Hin. discriminate.
  - destruct (existsb (N.eqb 0) teamIDs); simpl; split; intros Hx;
      try discriminate; try reflexivity.
    + right. split; [reflexivity|]. apply Hz. reflexivity.
    + destruct Hx as [(t' & Heq & _)|(_ & Hin)]; [discriminate|].
      apply Hz in Hin. discriminate.
Qed.

(** X20.  The hosts that [BulkSetPendingMDMAppleHostProfiles] works on.
    Host UUIDs given are taken as they are.  Host ids select the hosts of
    these ids.  Team ids select the hosts whose team is listed, and the id 0
    in the list selects the hosts of no team.  Profile ids select the hosts
    in the scope of one of these profiles, each UUID once. *)
Theorem selected_uuids_rule (hostIDs teamIDs profileIDs : list N)
  (hostUUIDs : list string) (db : Datastore) :
  let uuids := selected_uuids hostIDs teamIDs profileIDs hostUUIDs db in
  (hostUUIDs <> [] -> uuids = hostUUIDs)
  /\ (hostUUIDs = [] -> hostIDs <> [] ->
      forall u, In u uuids <->
        exists hr, In hr (hosts db) /\ Host.uuid hr = u
                   /\ In (Host.id hr) hostIDs)
  /\ (hostUUIDs = [] -> hostIDs = [] -> teamIDs <> [] ->
      (forall hr, In hr (hosts db) -> Host.team_id hr <> Some 0) ->
      forall u, In u uuids <->
        exists hr, In hr (hosts db) /\ Host.uuid hr = u
                   /\ In (scope_of (Host.team_id hr)) teamIDs)
  /\ (hostUUIDs = [] -> hostIDs = [] -> teamIDs = [] ->
      NoDup uuids
      /\ forall u, In u uuids <->
           exists hr p, In hr (hosts db)
                        /\ In p (mdm_apple_configuration_profiles db)
                        /\ in_scope hr p
                        /\ In (Macp.profile_id p) profileIDs
                        /\ Host.uuid hr = u).
Proof.
  simpl. unfold selected_uuids, load_host_uuids.
  split; [|split; [|split]].
  - intros Hne. destruct hostUUIDs; [congruence|reflexivity].
  - intros -> Hne u. simpl.
    destruct hostIDs as [|i ids]; [congruence|].
    replace (non_empty (i :: ids)) with true by reflexivity.
    rewrite in_map_iff. split.
    + intros (hr & Hu & Hin). apply filter_In in Hin.
      destruct Hin as (Hin & Hid). apply existsb_N_In in Hid.
      exists hr. auto.
    + intros (hr & Hin & Hu & Hid). exists hr. split; [assumption|].
      apply filter_In. split; [assumption|]. apply existsb_N_In. assumption.
  - intros -> -> Hne Hteams u. simpl.
    destruct teamIDs as [|t ts]; [congruence|].
    replace (non_empty (t :: ts)) with true by reflexivity.
    assert (Hrule : forall hr, In hr (hosts db) ->
              ((exists t', Host.team_id hr = Some t' /\ In t' (t :: ts))
               \/ (Host.team_id hr = None /\ In 0 (t :: ts)))
              <-> In (scope_of (Host.team_id hr)) (t :: ts)).
    { intros hr Hin. specialize (Hteams hr Hin).
      destruct (Host.team_id hr) as [t'|]; simpl.
      - split.
        + intros [(t2 & Heq & Hx)|(Heq & _)]; [|discriminate].
          inversion Heq. subst t2. exact Hx.
        + intros Hx. left. exists t'. auto.
      - split.
        + intros [(t2 & Heq & _)|(_ & Hx)]; [discriminate|exact Hx].
        + intros Hx. right. auto. }
    assert (Hgen : In u (map Host.uuid
                           (filter (fun hr =>
                              SQL.holds
                                (if existsb (N.eqb 0) (t :: ts)
                                 then SQL.or3
                                        (SQL.in3 N.eqb (Host.team_id hr)
                                           (t :: ts))
                                        (SQL.is_null (Host.team_id hr))
                                 else SQL.in3 N.eqb (Host.team_id hr)
                                        (t :: ts)))
                              (hosts db))) <->
                   exists hr, In hr (hosts db) /\ Host.uuid hr = u
                              /\ In (scope_of (Host.team_id hr)) (t :: ts)).
    { rewrite in_map_iff. split.
      - intros (hr & Hu & Hin). apply filter_In in Hin.
        destruct Hin as (Hin & Hw). apply holds_team_in in Hw.
        exists hr. split; [assumption|]. split; [assumption|].
        apply (Hrule hr Hin). exact Hw.
      - intros (hr & Hin & Hu & Hsc). exists hr. split; [assumption|].
        apply filter_In. split; [assumption|]. apply holds_team_in.
        apply (Hrule hr Hin). exact Hsc. }
    destruct t as [|pt]; [|exact Hgen].
    destruct ts as [|t2 ts']; [|exact Hgen].
    rewrite in_map_iff. split.
    + intros (hr & Hu & Hin). apply filter_In in Hin.
      destruct Hin as (Hin & Hw). exists hr. split; [assumption|].
      split; [assumption|].
      destruct (Host.team_id hr); [discriminate|]. left. reflexivity.
    + intros (hr & Hin & Hu & Hsc). exists hr. split; [assumption|].
      apply filter_In. split; [assumption|].
      specialize (Hteams hr Hin).
      destruct (Host.team_id hr) as [t'|]; [|reflexivity].
      simpl in Hsc. destruct Hsc as [Hx|[]]. congruence.
  - intros -> -> ->. simpl. split; [apply NoDup_nodup|].
    intros u. unfold SQL.distinct. rewrite nodup_In, in_flat_map. split.
    + intros (hr & Hin & Hx). apply in_flat_map in Hx.
      destruct Hx as (p & Hp & Hx).
      destruct (SQL.holds (scope_on hr p)
                && existsb (N.eqb (Macp.profile_id p)) profileIDs) eqn:Hw;
        [|destruct Hx].
      destruct Hx as [<-|[]]. apply andb_prop in Hw.
      destruct Hw as (Hs & Hi). apply holds_scope_on in Hs.
      apply existsb_N_In in Hi. exists hr, p. auto.
    + intros (hr & p & Hin & Hp & Hs & Hi & Hu). exists hr.
      split; [assumption|]. apply in_flat_map. exists p.
      split; [assumption|].
      apply holds_scope_on in Hs. apply existsb_N_In in Hi.
      rewrite Hs, Hi. left. exact Hu.
Qed.

(** ** The result of an install, and what is read after it *)

(** X21.  The result of an Install that carries a status settles its pair.
    When the ledger has one row of the pair, with the checksum of the
    profile, and the result is keyed to that row:
    after [UpdateOrDeleteHostMDMAppleProfile] the pair is not returned by
    [ListMDMAppleProfilesToInstall], whatever the status, and with the
    status Failed the hosts of that UUID count as failed in
    [GetMDMAppleHostsProfilesSummary]. *)
Theorem UpdateOrDeleteHostMDMAppleProfile_install_result `{Externals}
  (profile : HP.t) (db : Datastore) (d : PP.t) (r : Hmap.row)
  (st : MDMAppleDeliveryStatus) :
  HP.OperationType profile = MDMAppleOperationTypeInstall ->
  HP.Status profile = Some st ->
  In r (host_mdm_apple_profiles db) ->
  keyed_by profile r ->
  row_for d r ->
  Hmap.checksum r = PP.Checksum d ->
  (forall r2, In r2 (host_mdm_apple_profiles db) -> row_for d r2 -> r2 = r) ->
  let db' := snd (UpdateOrDeleteHostMDMAppleProfile profile db) in
  ~ In d (ListMDMAppleProfilesToInstall db')
  /\ (st = MDMAppleDeliveryFailed ->
      forall h, Host.uuid h = HP.HostUUID profile ->
                subqueryHostsMacOSSettingsStatusFailing h db' = true).
Proof.
  intros Hop Hst Hr Hkey Hfor Hck Hone.
  unfold UpdateOrDeleteHostMDMAppleProfile, deletes_row.
  rewrite Hop. simpl.
  assert (Hcmd : host_command profile r = true)
    by (apply holds_host_command; exact Hkey).
  assert (Hnew : In (set_result profile r)
                   (map (fun r0 => if host_command profile r0
                                   then set_result profile r0 else r0)
                      (host_mdm_apple_profiles db))).
  { apply in_map_iff. exists r. rewrite Hcmd. auto. }
  split.
  - intros Hin. apply in_ListMDMAppleProfilesToInstall in Hin.
    destruct Hin as (_ & [Hno|(r' & Hr' & Hfor' & Hcase)]).
    + apply (Hno (set_result profile r) Hnew). exact Hfor.
    + simpl in Hr'. apply in_map_iff in Hr'.
      destruct Hr' as (r2 & Heq & Hr2).
      assert (Hfor2 : row_for d r2).
      { destruct (host_command profile r2); subst r'; exact Hfor'. }
      pose proof (Hone r2 Hr2 Hfor2) as ->. rewrite Hcmd in Heq. subst r'.
      simpl in Hcase. rewrite Hst in Hcase.
      destruct Hcase as [Hc|[Hc|[[_ Hc]|Hc]]]; congruence.
  - intros -> h Hu. unfold subqueryHostsMacOSSettingsStatusFailing.
    apply exists_hmap_spec. exists (set_result profile r). split.
    + split; [exact Hnew|]. simpl. destruct Hkey as (Hk & _). congruence.
    + simpl. rewrite Hst. reflexivity.
Qed.

Lemma UpdateOrDeleteHostMDMAppleProfile_install_result_witness :
  ~ In pair_H_N1
      (ListMDMAppleProfilesToInstall
         (snd (@UpdateOrDeleteHostMDMAppleProfile sample_externals
                 (result_for MDMAppleOperationTypeInstall
                    (Some MDMAppleDeliveryFailed) "refused")
                 (store_with
                    [ledger_row "c1" (Some MDMAppleOperationTypeInstall)
                       (Some MDMAppleDeliveryPending)])))).
Proof.
  apply (@UpdateOrDeleteHostMDMAppleProfile_install_result sample_externals
           (result_for MDMAppleOperationTypeInstall
              (Some MDMAppleDeliveryFailed) "refused")
           (store_with
              [ledger_row "c1" (Some MDMAppleOperationTypeInstall)
                 (Some MDMAppleDeliveryPending)])
           pair_H_N1
           (ledger_row "c1" (Some MDMAppleOperationTypeInstall)
              (Some MDMAppleDeliveryPending))
           MDMAppleDeliveryFailed).
  - reflexivity.
  - reflexivity.
  - left. reflexivity.
  - split; reflexivity.
  - split; reflexivity.
  - reflexivity.
  - intros r2 [<-|[]] _. reflexivity.
Defined.
